(** * Agronomic analysis engine (backend/services/analysis.py)

    A shallow embedding of [AgronomicAnalyzer] and of the one line of the
    report renderer that reads its output back
    ([recommendations.split(' | ')], backend/services/pdf_gen.py), followed
    by the code around the engine: the analysis of the weather service
    (backend/services/weather.py), the category and the mock data of the
    satellite service (backend/services/satellite.py), the interpretation
    helpers of the report (backend/services/pdf_gen.py) and the
    normalisation of the request's polygon (backend/main.py).

    Modelling conventions.
    - A Python dict is a [gmap string value]; a value is dynamically typed,
      so a comparison of a non-number with a number raises [TypeError] as it
      does in Python.
    - Numbers are exact rationals ([Q]); NaN and infinities are not modelled.
    - An exception is an explicit result: [Ok a] or [Raise e].
    - [datetime.now()] is an explicit argument [now].
    - Strings are byte strings; the advisory texts are UTF-8. *)

From Stdlib Require Import ZArith QArith Qround Lia Lqa Ascii String.
From stdpp Require Import base option strings list gmap.

Set Warnings "-register-all,-clear-no-such-hyp".

Local Open Scope string_scope.

(** ** Python values and exceptions *)

Inductive value :=
| VNone
| VBool (b : bool)
| VNum (q : Q)
| VStr (s : string)
| VDict (d : gmap string value).

Inductive exn := TypeError | ValueError | KeyError | AttributeError.

Inductive result (A : Type) :=
| Ok (a : A)
| Raise (e : exn).
Arguments Ok {A} a.
Arguments Raise {A} e.

#[global] Instance result_ret : MRet result := fun A a => Ok a.
#[global] Instance result_bind : MBind result := fun A B f m =>
  match m with
  | Ok a => f a
  | Raise e => Raise e
  end.
#[global] Instance result_fmap : FMap result := fun A B f m =>
  match m with
  | Ok a => Ok (f a)
  | Raise e => Raise e
  end.

(** [bool] is a subclass of [int]: [True] compares as 1, [False] as 0. *)
Definition as_num (v : value) : option Q :=
  match v with
  | VNum q => Some q
  | VBool true => Some 1%Q
  | VBool false => Some 0%Q
  | _ => None
  end.

Definition Qlt_bool (x y : Q) : bool := negb (Qle_bool y x).

(** [v < k], [v > k], [v >= k] for a numeric literal [k]. *)
Definition py_lt (v : value) (k : Q) : result bool :=
  match as_num v with
  | Some q => Ok (Qlt_bool q k)
  | None => Raise TypeError
  end.

Definition py_gt (v : value) (k : Q) : result bool :=
  match as_num v with
  | Some q => Ok (Qlt_bool k q)
  | None => Raise TypeError
  end.

Definition py_ge (v : value) (k : Q) : result bool :=
  match as_num v with
  | Some q => Ok (Qle_bool k q)
  | None => Raise TypeError
  end.

(** [v == k] never raises: values of other types are simply unequal. *)
Definition py_eq (v : value) (k : Q) : bool :=
  match as_num v with
  | Some q => Qeq_bool q k
  | None => false
  end.

(** Truth value of an object, as [if x:] tests it. *)
Definition truthy (v : value) : bool :=
  match v with
  | VNone => false
  | VBool b => b
  | VNum q => negb (Qeq_bool q 0)
  | VStr s => negb (String.eqb s "")
  | VDict d => negb (bool_decide (d = ∅))
  end.

(** [d.get(k, dflt)] and [d.get(k)]. *)
Definition dict_get (d : gmap string value) (k : string) (dflt : value) : value :=
  default dflt (d !! k).

Definition dict_get_none (d : gmap string value) (k : string) : value :=
  dict_get d k VNone.

(** [x.get(...)] on a value that must be a dict. *)
Definition as_dict (v : value) : result (gmap string value) :=
  match v with
  | VDict d => Ok d
  | _ => Raise AttributeError
  end.

(** [str.lower()] on ASCII letters. *)
Definition lower_ascii (c : ascii) : ascii :=
  let n := nat_of_ascii c in
  if (65 <=? n)%nat && (n <=? 90)%nat then ascii_of_nat (n + 32) else c.

Fixpoint lower (s : string) : string :=
  match s with
  | EmptyString => EmptyString
  | String c s' => String (lower_ascii c) (lower s')
  end.

(** ** The crop threshold table *)

Record thresholds := Thresholds {
  excellent : Q;
  good : Q;
  moderate : Q;
  poor : Q
}.

Definition CROP_NDVI_THRESHOLDS : gmap string thresholds :=
  list_to_map [
    ("wheat", Thresholds 0.7 0.5 0.3 0.2);
    ("corn", Thresholds 0.75 0.55 0.35 0.25);
    ("rice", Thresholds 0.8 0.6 0.4 0.3);
    ("soybean", Thresholds 0.7 0.5 0.3 0.2);
    ("cotton", Thresholds 0.65 0.45 0.3 0.2);
    ("vegetables", Thresholds 0.7 0.5 0.35 0.25);
    ("fruit", Thresholds 0.75 0.55 0.4 0.3);
    ("other", Thresholds 0.7 0.5 0.3 0.2)
  ].

(** ** _assess_crop_health *)

(** The default argument of [.get] is evaluated first, so a table without an
    ['other'] entry would raise [KeyError] even for a known crop. *)
Definition _assess_crop_health (ndvi : value) (crop_type : string)
    (growth_stage : string) : result string :=
  other ← match CROP_NDVI_THRESHOLDS !! "other" with
          | Some t => Ok t
          | None => Raise KeyError
          end;
  let thresholds := default other (CROP_NDVI_THRESHOLDS !! lower crop_type) in
  b ← py_ge ndvi (excellent thresholds);
  if b : bool then Ok "Excellent" else
  b ← py_ge ndvi (good thresholds);
  if b : bool then Ok "Good" else
  b ← py_ge ndvi (moderate thresholds);
  if b : bool then Ok "Moderate" else
  b ← py_ge ndvi (poor thresholds);
  if b : bool then Ok "Poor" else
  Ok "Critical".

(** ** Dates: the part of [datetime] the engine uses

    A [datetime] is a proleptic Gregorian day number (1 is 0001-01-01, as
    [date.toordinal] counts) and the microseconds since midnight. *)

Record datetime := DateTime {
  ordinal : Z;
  micros : Z
}.

Definition is_leap (y : Z) : bool :=
  (y mod 4 =? 0)%Z && (negb (y mod 100 =? 0)%Z || (y mod 400 =? 0)%Z).

Definition days_in_month (y m : Z) : Z :=
  if (m =? 2)%Z then (if is_leap y then 29 else 28)%Z
  else if (m =? 4)%Z || (m =? 6)%Z || (m =? 9)%Z || (m =? 11)%Z then 30%Z
  else 31%Z.

Definition days_before_year (y : Z) : Z :=
  let y := (y - 1)%Z in (y * 365 + y / 4 - y / 100 + y / 400)%Z.

Definition days_before_month (y m : Z) : Z :=
  foldr (fun k acc => (days_in_month y k + acc)%Z) 0%Z (seqZ 1 (m - 1)).

Definition ymd2ord (y m d : Z) : Z :=
  (days_before_year y + days_before_month y m + d)%Z.

(** [(a - b).days]: a [timedelta] is normalised so that its seconds and
    microseconds are non-negative, hence the floor. *)
Definition timedelta_days (a b : datetime) : Z :=
  (((ordinal a - ordinal b) * 86400000000 + (micros a - micros b)) / 86400000000)%Z.

(** *** [datetime.strptime(s, "%Y-%m-%d")]

    The format compiles to the regular expression
    [(\d\d\d\d)-(1[0-2]|0[1-9]|[1-9])-(3[0-1]|[1-2]\d|0[1-9]|[1-9]| [1-9])].
    Each group below lists its matches in the order the backtracking matcher
    tries them; the first complete match is the one [re.match] returns.
    Digits are the ASCII digits. *)

Definition digit (c : ascii) : option Z :=
  let n := Z.of_nat (nat_of_ascii c) in
  if (48 <=? n)%Z && (n <=? 57)%Z then Some (n - 48)%Z else None.

Definition in_range (lo hi : Z) (o : option Z) : list Z :=
  match o with
  | Some n => if (lo <=? n)%Z && (n <=? hi)%Z then [n] else []
  | None => []
  end.

(** [\d\d\d\d] *)
Definition match_year (s : string) : list (Z * string) :=
  match s with
  | String a (String b (String c (String d rest))) =>
      a ← in_range 0 9 (digit a); b ← in_range 0 9 (digit b);
      c ← in_range 0 9 (digit c); d ← in_range 0 9 (digit d);
      [((a * 1000 + b * 100 + c * 10 + d)%Z, rest)]
  | _ => []
  end.

(** A two-character alternative: a digit in [lo1..hi1], then a digit in
    [lo2..hi2]. *)
Definition two_digits (lo1 hi1 lo2 hi2 : Z) (s : string) : list (Z * string) :=
  match s with
  | String a (String b rest) =>
      a ← in_range lo1 hi1 (digit a); b ← in_range lo2 hi2 (digit b);
      [((a * 10 + b)%Z, rest)]
  | _ => []
  end.

Definition one_digit (lo hi : Z) (s : string) : list (Z * string) :=
  match s with
  | String a rest => a ← in_range lo hi (digit a); [(a, rest)]
  | _ => []
  end.

Definition literal (c : ascii) (s : string) : list string :=
  match s with
  | String a rest => if Ascii.eqb a c then [rest] else []
  | _ => []
  end.

(** [1[0-2]|0[1-9]|[1-9]] *)
Definition match_month (s : string) : list (Z * string) :=
  two_digits 1 1 0 2 s ++ two_digits 0 0 1 9 s ++ one_digit 1 9 s.

(** [3[0-1]|[1-2]\d|0[1-9]|[1-9]| [1-9]] *)
Definition match_day (s : string) : list (Z * string) :=
  two_digits 3 3 0 1 s ++ two_digits 1 2 0 9 s ++ two_digits 0 0 1 9 s
  ++ one_digit 1 9 s ++ (rest ← literal " " s; one_digit 1 9 rest).

Definition match_format (s : string) : list (Z * Z * Z * string) :=
  '(y, s) ← match_year s;
  s ← literal "-" s;
  '(m, s) ← match_month s;
  s ← literal "-" s;
  '(d, s) ← match_day s;
  [(y, m, d, s)].

(** [ValueError] when the string does not match, when unconverted data
    remains, and when [datetime] refuses the year or the day of the month. *)
Definition strptime (s : string) : result datetime :=
  match match_format s with
  | [] => Raise ValueError
  | (y, m, d, rest) :: _ =>
      if negb (String.eqb rest "") then Raise ValueError
      else if (y <? 1)%Z then Raise ValueError
      else if (days_in_month y m <? d)%Z then Raise ValueError
      else Ok (DateTime (ymd2ord y m d) 0)
  end.

(** ** _calculate_growth_stage *)

(** The [if]/[elif] chain on [days_since_planting]. *)
Definition stage_of_days (days_since_planting : Z) : string :=
  if (days_since_planting <? 0)%Z then "Not Planted"
  else if (days_since_planting <? 30)%Z then "Early Growth"
  else if (days_since_planting <? 60)%Z then "Vegetative"
  else if (days_since_planting <? 90)%Z then "Flowering"
  else if (days_since_planting <? 120)%Z then "Fruiting/Grain Fill"
  else "Maturity/Harvest".

(** [not planting_date] holds for [None] and for the empty string; every
    exception of the [try] block is caught and answered with "Unknown". *)
Definition _calculate_growth_stage (now : datetime) (planting_date : option string)
    : string :=
  match planting_date with
  | None => "Unknown"
  | Some "" => "Unknown"
  | Some s =>
      match
        planted ← strptime s;
        let days_since_planting := timedelta_days now planted in
        Ok (stage_of_days days_since_planting)
      with
      | Ok stage => stage
      | Raise _ => "Unknown"
      end
  end.

(** ** _generate_recommendations

    The function builds a local list with [recommendations.append(...)]; the
    list is threaded as state through the rule checklist, and a comparison
    that raises aborts the whole call. *)

Definition composer (A : Type) : Type := list string → result (A * list string).

#[global] Instance composer_ret : MRet composer := fun A a recs => Ok (a, recs).
#[global] Instance composer_bind : MBind composer := fun A B f m recs =>
  match m recs with
  | Ok (a, recs') => f a recs'
  | Raise e => Raise e
  end.

(** [recommendations.append(x)] *)
Definition append (x : string) : composer unit := fun recs => Ok (tt, (recs ++ [x])%list).

(** An expression that may raise and does not touch the list. *)
Definition lift {A} (r : result A) : composer A := fun recs =>
  match r with
  | Ok a => Ok (a, recs)
  | Raise e => Raise e
  end.

Definition skip : composer unit := mret tt.

(** [x in [a, b]] on strings. *)
Definition str_in (x : string) (l : list string) : bool := existsb (String.eqb x) l.

(** [total_rain > 80 and 20 < avg_temp < 30], with Python's short-circuit
    evaluation; the expression occurs in the composer and in the risk
    assessor. *)
Definition fungal_conditions (total_rain avg_temp : value) : result bool :=
  b ← py_gt total_rain 80;
  if b : bool then
    b ← py_gt avg_temp 20;
    if b : bool then py_lt avg_temp 30 else Ok false
  else Ok false.

Definition ADV_INSPECT_FIELD : string :=
  "⚠️ Low vegetation health detected. Inspect field for: (1) Nutrient deficiencies - consider soil testing, (2) Pest or disease pressure, (3) Water stress.".

Definition ADV_MAINTAIN : string :=
  "✅ Crops showing excellent health. Maintain current practices.".

Definition ADV_LOW_MOISTURE : string :=
  "💧 Low moisture detected (NDMI < 0.2). Consider irrigation if water is available. Monitor crop water stress symptoms.".

Definition ADV_HIGH_MOISTURE : string :=
  "💧 High moisture levels detected. Ensure proper drainage to prevent waterlogging.".

Definition ADV_DROUGHT : string :=
  "🌵 Drought risk: Less than 20mm rainfall in past 30 days. Implement water conservation: mulching, reduce tillage, consider irrigation.".

Definition ADV_FLOOD : string :=
  "🌊 Heavy rainfall expected (>100mm in next 7 days). Prepare drainage systems, avoid field operations until soil dries.".

Definition ADV_HEAT : string :=
  "🌡️ High temperature stress (avg >35°C). Ensure adequate irrigation, monitor for heat stress symptoms.".

Definition ADV_COLD : string :=
  "❄️ Low temperature detected (avg <10°C). Monitor for frost damage, delay sensitive operations.".

Definition ADV_NO_RAIN : string :=
  "☀️ No rainfall expected in next 7 days. Plan irrigation accordingly.".

Definition ADV_HEAVY_RAIN : string :=
  "🌧️ Significant rainfall expected. Delay fertilizer/pesticide applications.".

Definition ADV_FLOWERING : string :=
  "🌸 Critical flowering stage detected. Ensure optimal water and nutrients. Avoid stress during this period for maximum yield.".

Definition ADV_FUNGAL : string :=
  "🍄 Conditions favorable for fungal diseases (high rain + moderate temp). Scout regularly, consider preventive fungicide if disease pressure is high.".

Definition ADV_DEFAULT : string :=
  "✅ Crops appear healthy. Continue regular monitoring and maintain good agricultural practices.".

(** The checklist up to, and without, the default advisory. *)
Definition advisory_rules (ndvi ndmi : value) (weather_analysis : gmap string value)
    (crop_type growth_stage health_status : string) : composer unit :=
  (* NDVI-based recommendations *)
  (if str_in health_status ["Poor"; "Critical"] then append ADV_INSPECT_FIELD
   else if String.eqb health_status "Excellent" then append ADV_MAINTAIN
   else skip);;
  (* Water stress recommendations *)
  b ← lift (py_lt ndmi 0.2);
  (if b : bool then append ADV_LOW_MOISTURE
   else
     b ← lift (py_gt ndmi 0.5);
     if b : bool then append ADV_HIGH_MOISTURE else skip);;
  (* Weather-based recommendations *)
  (if truthy (dict_get_none weather_analysis "drought_risk")
   then append ADV_DROUGHT else skip);;
  (if truthy (dict_get_none weather_analysis "flood_risk")
   then append ADV_FLOOD else skip);;
  (if truthy (dict_get_none weather_analysis "temperature_stress") then
     let avg_temp := dict_get weather_analysis "avg_temperature" (VNum 25) in
     b ← lift (py_gt avg_temp 35);
     if b : bool then append ADV_HEAT
     else
       b ← lift (py_lt avg_temp 10);
       if b : bool then append ADV_COLD else skip
   else skip);;
  (* Rainfall forecast *)
  let forecast_rain := dict_get weather_analysis "forecast_rain_7d" (VNum 0) in
  (if py_eq forecast_rain 0 then append ADV_NO_RAIN
   else
     b ← lift (py_gt forecast_rain 50);
     if b : bool then append ADV_HEAVY_RAIN else skip);;
  (* Growth stage specific *)
  (if String.eqb growth_stage "Flowering" && str_in health_status ["Good"; "Excellent"]
   then append ADV_FLOWERING else skip);;
  (* Fungal disease risk *)
  let total_rain := dict_get weather_analysis "total_rainfall_30d" (VNum 0) in
  let avg_temp := dict_get weather_analysis "avg_temperature" (VNum 25) in
  b ← lift (fungal_conditions total_rain avg_temp);
  if b : bool then append ADV_FUNGAL else skip.

(** Default recommendation if list is empty. *)
Definition default_rule : composer unit := fun recommendations =>
  match recommendations with
  | [] => append ADV_DEFAULT recommendations
  | _ => skip recommendations
  end.

(** [sep.join(l)] *)
Fixpoint join (sep : string) (l : list string) : string :=
  match l with
  | [] => ""
  | x :: l' =>
      match l' with
      | [] => x
      | _ => x +:+ sep +:+ join sep l'
      end
  end.

(** The list as it stands when it is joined. *)
Definition recommendation_list (ndvi ndmi : value) (weather_analysis : gmap string value)
    (crop_type growth_stage health_status : string) : result (list string) :=
  snd <$> (advisory_rules ndvi ndmi weather_analysis crop_type growth_stage health_status;;
           default_rule) [].

Definition _generate_recommendations (ndvi ndmi : value)
    (weather_analysis : gmap string value)
    (crop_type growth_stage health_status : string) : result string :=
  join " | " <$>
    recommendation_list ndvi ndmi weather_analysis crop_type growth_stage health_status.

(** ** _assess_risks *)

Record RiskProfile := Risks {
  drought : string;
  flood : string;
  disease : string;
  heat_stress : string;
  overall : string
}.

Definition set_drought (v : string) (r : RiskProfile) : RiskProfile :=
  Risks v (flood r) (disease r) (heat_stress r) (overall r).
Definition set_flood (v : string) (r : RiskProfile) : RiskProfile :=
  Risks (drought r) v (disease r) (heat_stress r) (overall r).
Definition set_disease (v : string) (r : RiskProfile) : RiskProfile :=
  Risks (drought r) (flood r) v (heat_stress r) (overall r).
Definition set_heat_stress (v : string) (r : RiskProfile) : RiskProfile :=
  Risks (drought r) (flood r) (disease r) v (overall r).
Definition set_overall (v : string) (r : RiskProfile) : RiskProfile :=
  Risks (drought r) (flood r) (disease r) (heat_stress r) v.

(** [risks.values()], in insertion order. *)
Definition risk_values (r : RiskProfile) : list string :=
  [drought r; flood r; disease r; heat_stress r; overall r].

(** [sum(1 for r in risks.values() if r == level)] *)
Definition count_level (level : string) (r : RiskProfile) : nat :=
  length (List.filter (fun x => String.eqb x level) (risk_values r)).

(** The "Overall risk" step: it runs while ['overall'] still holds 'Low'. *)
Definition assess_overall (risks : RiskProfile) : RiskProfile :=
  let high_risks := count_level "High" risks in
  let medium_risks := count_level "Medium" risks in
  if (2 <=? high_risks)%nat then set_overall "High" risks
  else if (1 <=? high_risks)%nat || (2 <=? medium_risks)%nat then set_overall "Medium" risks
  else risks.

Definition _assess_risks (weather_analysis : gmap string value) (ndvi ndmi : value)
    : result RiskProfile :=
  let risks := Risks "Low" "Low" "Low" "Low" "Low" in
  (* Drought risk *)
  risks ←
    (b ← (if truthy (dict_get_none weather_analysis "drought_risk") then Ok true
          else py_lt ndmi 0.2);
     if b : bool then Ok (set_drought "High" risks)
     else
       b ← py_lt (dict_get weather_analysis "total_rainfall_30d" (VNum 50)) 30;
       if b : bool then Ok (set_drought "Medium" risks) else Ok risks);
  (* Flood risk *)
  risks ←
    (if truthy (dict_get_none weather_analysis "flood_risk")
     then Ok (set_flood "High" risks)
     else
       b ← py_gt (dict_get weather_analysis "forecast_rain_7d" (VNum 0)) 50;
       if b : bool then Ok (set_flood "Medium" risks) else Ok risks);
  (* Disease risk *)
  let total_rain := dict_get weather_analysis "total_rainfall_30d" (VNum 0) in
  let avg_temp := dict_get weather_analysis "avg_temperature" (VNum 25) in
  risks ←
    (b ← fungal_conditions total_rain avg_temp;
     if b : bool then Ok (set_disease "High" risks)
     else
       b ← py_gt total_rain 50;
       if b : bool then Ok (set_disease "Medium" risks) else Ok risks);
  (* Heat stress risk *)
  let risks :=
    if truthy (dict_get_none weather_analysis "temperature_stress")
    then set_heat_stress "High" risks else risks in
  (* Overall risk *)
  Ok (assess_overall risks).

(** ** analyze *)

Record Metrics := MkMetrics {
  m_ndvi : value;
  m_ndmi : value;
  m_rainfall_30d : value;
  m_forecast_rain_7d : value;
  m_avg_temperature : value
}.

Record Assessment := MkAssessment {
  health_status : string;
  growth_stage : string;
  recommendations : string;
  risks : RiskProfile;
  metrics : Metrics
}.

Definition analyze (now : datetime)
    (weather_data satellite_data : gmap string value)
    (crop_type : string) (planting_date : option string) (area : Q)
    : result Assessment :=
  (* Extract key metrics *)
  let ndvi := dict_get satellite_data "ndvi_mean" (VNum 0.5) in
  let ndmi := dict_get satellite_data "ndmi_mean" (VNum 0.3) in
  weather_analysis ← as_dict (dict_get weather_data "analysis" (VDict ∅));
  let total_rain := dict_get weather_analysis "total_rainfall_30d" (VNum 0) in
  let forecast_rain := dict_get weather_analysis "forecast_rain_7d" (VNum 0) in
  let avg_temp := dict_get weather_analysis "avg_temperature" (VNum 25) in
  let growth_stage := _calculate_growth_stage now planting_date in
  health_status ← _assess_crop_health ndvi crop_type growth_stage;
  recommendations ←
    _generate_recommendations ndvi ndmi weather_analysis crop_type growth_stage
      health_status;
  risks ← _assess_risks weather_analysis ndvi ndmi;
  Ok (MkAssessment health_status growth_stage recommendations risks
        (MkMetrics ndvi ndmi total_rain forecast_rain avg_temp)).

(** ** The renderer's [recommendations.split(' | ')]

    [str.split(sep)] for a non-empty separator: scan from the left, cut at
    each occurrence of [sep], continue after it. [skip_n] counts the
    characters of an occurrence still to be passed over; [cur] is the piece
    being collected. *)
Fixpoint split_go (sep s : string) (skip_n : nat) (cur : string) : list string :=
  match s with
  | EmptyString => [cur]
  | String c s' =>
      match skip_n with
      | S k => split_go sep s' k cur
      | O =>
          if String.prefix sep s
          then cur :: split_go sep s' (String.length sep - 1) ""
          else split_go sep s' 0 (cur +:+ String c "")
      end
  end.

Definition split (sep s : string) : list string := split_go sep s 0 "".

Definition rec_list (recommendations : string) : list string :=
  split " | " recommendations.

(** ** Vocabulary of the statements *)

(** A field of an upstream summary is well typed when it is absent or holds
    a number. *)
Definition numeric_or_absent (d : gmap string value) (k : string) : Prop :=
  ∀ v, d !! k = Some v → is_Some (as_num v).

Definition well_typed_satellite (satellite_data : gmap string value) : Prop :=
  numeric_or_absent satellite_data "ndvi_mean" ∧
  numeric_or_absent satellite_data "ndmi_mean".

Definition well_typed_analysis (weather_analysis : gmap string value) : Prop :=
  numeric_or_absent weather_analysis "total_rainfall_30d" ∧
  numeric_or_absent weather_analysis "forecast_rain_7d" ∧
  numeric_or_absent weather_analysis "avg_temperature".

(** The ['analysis'] entry is absent or a dict with well-typed fields. *)
Definition well_typed_weather (weather_data : gmap string value) : Prop :=
  ∀ v, weather_data !! "analysis" = Some v →
    ∃ weather_analysis, v = VDict weather_analysis ∧ well_typed_analysis weather_analysis.

(** The five health categories, from worst to best. *)
Definition HEALTH_CATEGORIES : list string :=
  ["Critical"; "Poor"; "Moderate"; "Good"; "Excellent"].

Definition health_rank (h : string) : nat :=
  if String.eqb h "Excellent" then 4
  else if String.eqb h "Good" then 3
  else if String.eqb h "Moderate" then 2
  else if String.eqb h "Poor" then 1
  else 0.

Definition RISK_LEVELS : list string := ["Low"; "Medium"; "High"].

(** Occurrences of a level among the four category levels. *)
Definition count_of (level : string) (levels : list string) : nat :=
  length (List.filter (fun x => String.eqb x level) levels).

Definition category_levels (r : RiskProfile) : list string :=
  [drought r; flood r; disease r; heat_stress r].

(** Every text the composer can append. *)
Definition ADVISORIES : list string :=
  [ADV_INSPECT_FIELD; ADV_MAINTAIN; ADV_LOW_MOISTURE; ADV_HIGH_MOISTURE;
   ADV_DROUGHT; ADV_FLOOD; ADV_HEAT; ADV_COLD; ADV_NO_RAIN; ADV_HEAVY_RAIN;
   ADV_FLOWERING; ADV_FUNGAL; ADV_DEFAULT].

(** [sep in s] *)
Fixpoint contains (sep s : string) : bool :=
  String.prefix sep s ||
  match s with
  | EmptyString => false
  | String _ s' => contains sep s'
  end.

(** No vertical bar anywhere in the text. *)
Fixpoint no_pipe (s : string) : bool :=
  match s with
  | EmptyString => true
  | String c s' => negb (Ascii.eqb c "|") && no_pipe s'
  end.

(** *** Health classification *)

(** The category a profile gives a number: the first cut point met, from the
    top. *)
Definition first_cut (t : thresholds) (x : Q) : string :=
  if Qle_bool (excellent t) x then "Excellent"
  else if Qle_bool (good t) x then "Good"
  else if Qle_bool (moderate t) x then "Moderate"
  else if Qle_bool (poor t) x then "Poor"
  else "Critical".

(** The profile the classifier selects for a crop type. *)
Definition selected_profile (crop_type : string) (t : thresholds) : Prop :=
  CROP_NDVI_THRESHOLDS !! lower crop_type = Some t ∨
  (CROP_NDVI_THRESHOLDS !! lower crop_type = None ∧
   CROP_NDVI_THRESHOLDS !! "other" = Some t).

(** *** Composer steps *)

(** The list a step leaves is the list it found with advisories added at the
    end. *)
Definition extends (recs recs' : list string) : Prop :=
  ∃ added, recs' = (recs ++ added)%list ∧ Forall (λ a, a ∈ ADVISORIES) added.

(** A step is sound when it raises nothing and only adds advisories. *)
Definition sound {A} (m : composer A) : Prop :=
  ∀ recs, ∃ a recs', m recs = Ok (a, recs') ∧ extends recs recs'.

(** *** Risk aggregation *)

(** The aggregation rule, on the four category levels of a profile. *)
Definition overall_rule (r : RiskProfile) : Prop :=
  let high := count_of "High" (category_levels r) in
  let medium := count_of "Medium" (category_levels r) in
  (overall r = "High" ↔ (2 <= high)%nat) ∧
  (overall r = "Medium" ↔ (high < 2)%nat ∧ (high = 1%nat ∨ (2 <= medium)%nat)) ∧
  (overall r = "Low" ↔ (high < 2)%nat ∧ ¬ (high = 1%nat ∨ (2 <= medium)%nat)).

(** *** Scenarios *)

(** The fields a scenario fixes. *)
Definition has_fields (d : gmap string value) (fields : list (string * value)) : Prop :=
  Forall (λ kv, d !! kv.1 = Some kv.2) fields.

(** None of the three weather flags is set: each is absent or falsy. *)
Definition no_flags (weather_analysis : gmap string value) : Prop :=
  truthy (dict_get_none weather_analysis "drought_risk") = false ∧
  truthy (dict_get_none weather_analysis "flood_risk") = false ∧
  truthy (dict_get_none weather_analysis "temperature_stress") = false.

(** The planting date is [days] whole days before [now]. *)
Definition planted_days_ago (now : datetime) (planting_date : option string) (days : Z)
    : Prop :=
  ∃ s planted,
    planting_date = Some s ∧ s ≠ "" ∧ strptime s = Ok planted ∧
    timedelta_days now planted = days.

(** The analysis the weather service hands over when its provider fails
    ([_get_fallback_weather_data], backend/services/weather.py). *)
Definition fallback_analysis : gmap string value :=
  list_to_map [
    ("total_rainfall_30d", VNum 0);
    ("avg_temperature", VNum 25);
    ("rainfall_trend", VStr "unknown");
    ("forecast_rain_7d", VNum 0);
    ("temperature_stress", VBool false);
    ("drought_risk", VBool false);
    ("flood_risk", VBool false)
  ].

(** The fallback analysis with the trailing-rainfall field left out. *)
Definition analysis_without_rainfall : gmap string value :=
  delete "total_rainfall_30d" fallback_analysis.

(** The same analysis with trailing rainfall 0. *)
Definition analysis_with_zero_rainfall : gmap string value :=
  <["total_rainfall_30d" := VNum 0]> analysis_without_rainfall.

(** A satellite summary that holds exactly the documented defaults. *)
Definition default_satellite : gmap string value :=
  list_to_map [("ndvi_mean", VNum 0.5); ("ndmi_mean", VNum 0.3)].

(** Wheat in excellent health under mild weather, no flag set. *)
Definition wheat_analysis : gmap string value :=
  list_to_map [
    ("total_rainfall_30d", VNum 45);
    ("forecast_rain_7d", VNum 10);
    ("avg_temperature", VNum 22);
    ("temperature_stress", VBool false);
    ("drought_risk", VBool false);
    ("flood_risk", VBool false)
  ].

(** The indices of the wheat scenario. *)
Definition wheat_satellite : gmap string value :=
  list_to_map [("ndvi_mean", VNum 0.72); ("ndmi_mean", VNum 0.35)].

(** A dry rice field: low index, low moisture, drought flagged, no rain
    forecast. *)
Definition dry_analysis : gmap string value :=
  list_to_map [
    ("total_rainfall_30d", VNum 10);
    ("forecast_rain_7d", VNum 0);
    ("drought_risk", VBool true)
  ].

(** The indices of the dry rice field. *)
Definition dry_satellite : gmap string value :=
  list_to_map [("ndvi_mean", VNum 0.15); ("ndmi_mean", VNum 0.1)].

(** ** The checklist, rule by rule

    What each rule of [_generate_recommendations] contributes when the
    fields it reads are numbers: [m] is the moisture index, [r] the trailing
    rainfall, [fc] the forecast rainfall and [t] the mean temperature. *)

Definition rule_health (health_status : string) : option string :=
  if str_in health_status ["Poor"; "Critical"] then Some ADV_INSPECT_FIELD
  else if String.eqb health_status "Excellent" then Some ADV_MAINTAIN
  else None.

Definition rule_moisture (m : Q) : option string :=
  if Qlt_bool m 0.2 then Some ADV_LOW_MOISTURE
  else if Qlt_bool 0.5 m then Some ADV_HIGH_MOISTURE
  else None.

Definition rule_drought (weather_analysis : gmap string value) : option string :=
  if truthy (dict_get_none weather_analysis "drought_risk") then Some ADV_DROUGHT
  else None.

Definition rule_flood (weather_analysis : gmap string value) : option string :=
  if truthy (dict_get_none weather_analysis "flood_risk") then Some ADV_FLOOD
  else None.

Definition rule_temperature (weather_analysis : gmap string value) (t : Q)
    : option string :=
  if truthy (dict_get_none weather_analysis "temperature_stress") then
    if Qlt_bool 35 t then Some ADV_HEAT
    else if Qlt_bool t 10 then Some ADV_COLD
    else None
  else None.

Definition rule_forecast (fc : Q) : option string :=
  if Qeq_bool fc 0 then Some ADV_NO_RAIN
  else if Qlt_bool 50 fc then Some ADV_HEAVY_RAIN
  else None.

Definition rule_flowering (growth_stage health_status : string) : option string :=
  if String.eqb growth_stage "Flowering" && str_in health_status ["Good"; "Excellent"]
  then Some ADV_FLOWERING else None.

Definition rule_fungal (r t : Q) : option string :=
  if Qlt_bool 80 r && (Qlt_bool 20 t && Qlt_bool t 30) then Some ADV_FUNGAL else None.

Definition checklist (weather_analysis : gmap string value)
    (growth_stage health_status : string) (m r fc t : Q) : list (option string) :=
  [rule_health health_status; rule_moisture m; rule_drought weather_analysis;
   rule_flood weather_analysis; rule_temperature weather_analysis t; rule_forecast fc;
   rule_flowering growth_stage health_status; rule_fungal r t].

(** The advisories that fire, in checklist order. *)
Definition fired_advisories (weather_analysis : gmap string value)
    (growth_stage health_status : string) (m r fc t : Q) : list string :=
  omap id (checklist weather_analysis growth_stage health_status m r fc t).

(** The list that is joined: what fired, or the default advisory alone. *)
Definition final_list (fired : list string) : list string :=
  match fired with
  | [] => [ADV_DEFAULT]
  | _ => fired
  end.

(** The numbers a well-typed call reads: moisture index, trailing rainfall
    as the composer and the disease rule read it, trailing rainfall as the
    drought rule reads it, forecast rainfall, mean temperature. *)
Definition reads_numbers (ndmi : value) (weather_analysis : gmap string value)
    (m r r50 fc t : Q) : Prop :=
  as_num ndmi = Some m ∧
  as_num (dict_get weather_analysis "total_rainfall_30d" (VNum 0)) = Some r ∧
  as_num (dict_get weather_analysis "total_rainfall_30d" (VNum 50)) = Some r50 ∧
  as_num (dict_get weather_analysis "forecast_rain_7d" (VNum 0)) = Some fc ∧
  as_num (dict_get weather_analysis "avg_temperature" (VNum 25)) = Some t.

(** A step raises nothing, returns [a] and adds exactly [x] at the end. *)
Definition adds {A} (m : composer A) (a : A) (x : list string) : Prop :=
  ∀ recs, m recs = Ok (a, (recs ++ x)%list).

(** The four category levels, rule by rule. *)
Definition drought_level (weather_analysis : gmap string value) (m r50 : Q) : string :=
  if truthy (dict_get_none weather_analysis "drought_risk") || Qlt_bool m 0.2 then "High"
  else if Qlt_bool r50 30 then "Medium" else "Low".

Definition flood_level (weather_analysis : gmap string value) (fc : Q) : string :=
  if truthy (dict_get_none weather_analysis "flood_risk") then "High"
  else if Qlt_bool 50 fc then "Medium" else "Low".

Definition disease_level (r t : Q) : string :=
  if Qlt_bool 80 r && (Qlt_bool 20 t && Qlt_bool t 30) then "High"
  else if Qlt_bool 50 r then "Medium" else "Low".

Definition heat_level (weather_analysis : gmap string value) : string :=
  if truthy (dict_get_none weather_analysis "temperature_stress") then "High" else "Low".

(** Low, Medium, High as 0, 1, 2. *)
Definition risk_rank (level : string) : nat :=
  if String.eqb level "High" then 2
  else if String.eqb level "Medium" then 1
  else 0.

(** ** WeatherService (backend/services/weather.py)

    A fetched series ([historical], [forecast]) is a dict from names to lists
    of JSON values; a name whose value is null counts as absent. Numbers
    being rationals, a sum and a mean are exact here, where Python rounds
    floats, and an integer too large for a float, on which Python's sum,
    division or product raises [OverflowError], is not modelled: what is
    stated below of a computed analysis is stated of a call that computes
    one, and what is stated of a raising call holds whichever exception
    Python raises. *)

(** [d[k]] *)
Definition dict_item (d : gmap string value) (k : string) : result value :=
  match d !! k with
  | Some v => Ok v
  | None => Raise KeyError
  end.

(** [acc + v] for a number [acc]. *)
Definition py_add (acc : Q) (v : value) : result Q :=
  match as_num v with
  | Some q => Ok (acc + q)%Q
  | None => Raise TypeError
  end.

Fixpoint sum_from (acc : Q) (l : list value) : result Q :=
  match l with
  | [] => Ok acc
  | v :: l' => acc ← py_add acc v; sum_from acc l'
  end.

(** [sum(l)]: starts from 0 and adds the elements from the left. *)
Definition py_sum (l : list value) : result Q := sum_from 0 l.

(** [t is not None] *)
Definition is_not_none (v : value) : bool :=
  match v with
  | VNone => false
  | _ => true
  end.

(** [_analyze_weather_data], block by block; each block takes the analysis
    dict as it stands and returns it updated. *)

(** Historical analysis: rainfall total and drought flag. *)
Definition analyze_rainfall (historical : gmap string (list value))
    (analysis : gmap string value) : result (gmap string value) :=
  match historical !! "precipitation" with
  | Some ((_ :: _) as rainfall) =>
      total ← py_sum rainfall;
      let analysis := <["total_rainfall_30d" := VNum total]> analysis in
      (* Check drought risk (less than 20mm in 30 days) *)
      v ← dict_item analysis "total_rainfall_30d";
      b ← py_lt v 20;
      if b : bool then Ok (<["drought_risk" := VBool true]> analysis) else Ok analysis
  | _ => Ok analysis
  end.

(** Historical analysis: mean temperature and temperature-stress flag. *)
Definition analyze_temperature (historical : gmap string (list value))
    (analysis : gmap string value) : result (gmap string value) :=
  match historical !! "temp_mean" with
  | Some ((_ :: _) as temp_mean) =>
      let temps := List.filter is_not_none temp_mean in
      match temps with
      | [] => Ok analysis
      | _ =>
          total ← py_sum temps;
          let analysis :=
            <["avg_temperature" := VNum (total / inject_Z (Z.of_nat (length temps)))]>
              analysis in
          (* Check temperature stress (avg > 35°C or < 10°C) *)
          v ← dict_item analysis "avg_temperature";
          b ← py_gt v 35;
          b ← (if b : bool then Ok true
               else v ← dict_item analysis "avg_temperature"; py_lt v 10);
          if b : bool then Ok (<["temperature_stress" := VBool true]> analysis)
          else Ok analysis
      end
  | _ => Ok analysis
  end.

(** Forecast analysis: forecast total and flood flag. *)
Definition analyze_forecast (forecast : gmap string (list value))
    (analysis : gmap string value) : result (gmap string value) :=
  match forecast !! "precipitation" with
  | Some ((_ :: _) as precipitation) =>
      total ← py_sum precipitation;
      let analysis := <["forecast_rain_7d" := VNum total]> analysis in
      (* Check flood risk (>100mm in next 7 days) *)
      v ← dict_item analysis "forecast_rain_7d";
      b ← py_gt v 100;
      if b : bool then Ok (<["flood_risk" := VBool true]> analysis) else Ok analysis
  | _ => Ok analysis
  end.

(** Rainfall trend: the last seven days against the seven before. *)
Definition analyze_trend (historical : gmap string (list value))
    (analysis : gmap string value) : result (gmap string value) :=
  match historical !! "precipitation" with
  | Some ((_ :: _) as precipitation) =>
      if (14 <=? length precipitation)%nat then
        recent ← py_sum (drop (length precipitation - 7) precipitation);
        previous ← py_sum (take 7 (drop (length precipitation - 14) precipitation));
        if Qlt_bool (previous * 1.5) recent
        then Ok (<["rainfall_trend" := VStr "increasing"]> analysis)
        else if Qlt_bool recent (previous * 0.5)
        then Ok (<["rainfall_trend" := VStr "decreasing"]> analysis)
        else Ok analysis
      else Ok analysis
  | _ => Ok analysis
  end.

Definition _analyze_weather_data (historical forecast : gmap string (list value))
    : result (gmap string value) :=
  let analysis : gmap string value :=
    list_to_map [
      ("total_rainfall_30d", VNum 0);
      ("avg_temperature", VNum 0);
      ("rainfall_trend", VStr "stable");
      ("forecast_rain_7d", VNum 0);
      ("temperature_stress", VBool false);
      ("drought_risk", VBool false);
      ("flood_risk", VBool false)
    ] in
  analysis ← analyze_rainfall historical analysis;
  analysis ← analyze_temperature historical analysis;
  analysis ← analyze_forecast forecast analysis;
  analyze_trend historical analysis.

(** [_get_fallback_weather_data] *)
Definition _get_fallback_weather_data : gmap string value :=
  list_to_map [
    ("historical", VDict ∅);
    ("forecast", VDict ∅);
    ("analysis", VDict fallback_analysis);
    ("location", VDict ∅);
    ("error", VStr "Weather data temporarily unavailable")
  ].

(** The ['analysis'] entry of what [get_weather_analysis] returns for the
    two fetched series: the analysis when it is computed, the entry of the
    fallback data when the [try] block raises. The fetches themselves are
    not modelled; each returns a series, the empty one after a failure. *)
Definition weather_analysis_entry (historical forecast : gmap string (list value))
    : gmap string value :=
  match _analyze_weather_data historical forecast with
  | Ok analysis => analysis
  | Raise _ => default ∅ (match _get_fallback_weather_data !! "analysis" with
                          | Some (VDict a) => Some a
                          | _ => None
                          end)
  end.

(** An analysis dict given by its seven entries. *)
Definition analysis_of (rain temp : Q) (trend : string) (forecast_rain : Q)
    (temperature_stress drought_risk flood_risk : bool) : gmap string value :=
  list_to_map [
    ("total_rainfall_30d", VNum rain);
    ("avg_temperature", VNum temp);
    ("rainfall_trend", VStr trend);
    ("forecast_rain_7d", VNum forecast_rain);
    ("temperature_stress", VBool temperature_stress);
    ("drought_risk", VBool drought_risk);
    ("flood_risk", VBool flood_risk)
  ].
(** *** What the weather analysis computes

    The series a call consults, their numbers, and the summary of three
    lists of numbers: trailing precipitation [P], daily mean temperatures
    [T] without the nulls, forecast precipitation [F]. *)

Definition series_of (d : gmap string (list value)) (k : string) : list value :=
  default [] (d !! k).

Definition numbers (l : list value) : option (list Q) := mapM as_num l.

Definition total (qs : list Q) : Q := fold_left Qplus qs 0%Q.

Definition mean (qs : list Q) : Q :=
  match qs with
  | [] => 0%Q
  | _ => (total qs / inject_Z (Z.of_nat (length qs)))%Q
  end.

Definition nonempty {A} (l : list A) : bool :=
  match l with
  | [] => false
  | _ => true
  end.

Definition trend_of (P : list Q) : string :=
  if (14 <=? length P)%nat then
    let recent := total (drop (length P - 7) P) in
    let previous := total (take 7 (drop (length P - 14) P)) in
    if Qlt_bool (previous * 1.5) recent then "increasing"
    else if Qlt_bool recent (previous * 0.5) then "decreasing"
    else "stable"
  else "stable".

Definition summary (P T F : list Q) : gmap string value :=
  analysis_of (total P) (mean T) (trend_of P) (total F)
    (nonempty T && (Qlt_bool 35 (mean T) || Qlt_bool (mean T) 10))
    (nonempty P && Qlt_bool (total P) 20)
    (nonempty F && Qlt_bool 100 (total F)).

(** A series holds a reading the sum cannot take: a precipitation reading
    that is no number, or a temperature that is neither null nor a number. *)
Definition bad_series (historical forecast : gmap string (list value)) : Prop :=
  (∃ v, v ∈ series_of historical "precipitation" ∧ as_num v = None) ∨
  (∃ v, v ∈ series_of historical "temp_mean" ∧ v ≠ VNone ∧ as_num v = None) ∨
  (∃ v, v ∈ series_of forecast "precipitation" ∧ as_num v = None).

(** The three values the trend takes. *)
Definition TRENDS : list string := ["stable"; "increasing"; "decreasing"].

(** Every reading of a series is null or a number between [lo] and [hi]. *)
Definition readings_within (lo hi : Q) (l : list value) : Prop :=
  ∀ v, v ∈ l → v = VNone ∨ ∃ q, as_num v = Some q ∧ (lo <= q)%Q ∧ (q <= hi)%Q.

(** The fields of the weather analysis the engine consults. *)
Definition ANALYSIS_FIELDS : list string :=
  ["total_rainfall_30d"; "forecast_rain_7d"; "avg_temperature";
   "drought_risk"; "flood_risk"; "temperature_stress"].

(** ** SatelliteService (backend/services/satellite.py) *)

(** [_categorize_ndvi] *)
Definition _categorize_ndvi (ndvi_value : value) : result string :=
  match ndvi_value with
  | VNone => Ok "Unknown"
  | _ =>
      b ← py_gt ndvi_value 0.6;
      if b : bool then Ok "Excellent" else
      b ← py_gt ndvi_value 0.4;
      if b : bool then Ok "Good" else
      b ← py_gt ndvi_value 0.3;
      if b : bool then Ok "Moderate" else
      b ← py_gt ndvi_value 0.2;
      if b : bool then Ok "Poor" else
      Ok "Very Poor"
  end.

(** ** PDFGenerator (backend/services/pdf_gen.py)

    The helper methods that fill the interpretation and status cells of the
    report's tables, and the colour of the health status in its summary. *)

(** [_interpret_ndvi] *)
Definition _interpret_ndvi (ndvi : value) : result string :=
  b ← py_gt ndvi 0.6;
  if b : bool then Ok "Excellent vegetation" else
  b ← py_gt ndvi 0.4;
  if b : bool then Ok "Good vegetation" else
  b ← py_gt ndvi 0.3;
  if b : bool then Ok "Moderate vegetation" else
  Ok "Low vegetation".

(** [_interpret_ndmi] *)
Definition _interpret_ndmi (ndmi : value) : result string :=
  b ← py_gt ndmi 0.4;
  if b : bool then Ok "High moisture" else
  b ← py_gt ndmi 0.2;
  if b : bool then Ok "Adequate moisture" else
  Ok "Low moisture / stress".

(** [_interpret_rainfall] *)
Definition _interpret_rainfall (rainfall : value) : result string :=
  b ← py_lt rainfall 20;
  if b : bool then Ok "Very low - drought risk" else
  b ← py_lt rainfall 50;
  if b : bool then Ok "Low - monitor closely" else
  b ← py_lt rainfall 100;
  if b : bool then Ok "Adequate" else
  b ← py_lt rainfall 150;
  if b : bool then Ok "Good" else
  Ok "High - flood risk possible".

(** [_interpret_temperature] *)
Definition _interpret_temperature (temp : value) : result string :=
  b ← py_lt temp 10;
  if b : bool then Ok "Cold - potential stress" else
  b ← py_lt temp 20;
  if b : bool then Ok "Cool - good for growth" else
  b ← py_lt temp 30;
  if b : bool then Ok "Optimal range" else
  b ← py_lt temp 35;
  if b : bool then Ok "Warm - monitor water" else
  Ok "Hot - heat stress risk".

(** The colour of the health status in [_create_summary]. *)
Definition color_map : gmap string string :=
  list_to_map [
    ("Excellent", "#2d6a4f");
    ("Good", "#40916c");
    ("Moderate", "#f4a261");
    ("Poor", "#e76f51");
    ("Critical", "#c1121f")
  ].

Definition health_color (health_status : string) : string :=
  default "#6c757d" (color_map !! health_status).

(** ** The request model (backend/main.py) *)

(** A JSON value as the request body carries it. *)
Inductive json :=
  | JNull
  | JBool (b : bool)
  | JNum (q : Q)
  | JStr (s : string)
  | JList (l : list json)
  | JObject (d : gmap string json).

(** [isinstance(x, (int, float))]; [bool] is a subclass of [int]. *)
Definition is_number (x : json) : bool :=
  match x with
  | JNum _ | JBool _ => true
  | _ => false
  end.

(** [PolygonCoordinates.normalize_coordinates] *)
Definition normalize_coordinates (v : json) : json :=
  match v with
  | JList (first :: _) =>
      (* Single ring: the first element is a point (list of 2 numbers) *)
      match first with
      | JList (x :: _ :: _) => if is_number x then JList [v] else v
      | _ => v
      end
  | _ => v
  end.

(** The ring [_coords_to_ee_polygon] (backend/services/satellite.py) hands
    to [ee.Geometry.Polygon]: [coords[0]] of a list; [None] stands for the
    [IndexError] of the empty list. *)
Definition first_ring (coords : list json) : option json := head coords.

(** *** Vocabulary of the report *)

(** A single ring: a list whose first element is a point, that is a list of
    at least two elements that starts with a number. *)
Definition single_ring (v : json) : Prop :=
  ∃ x y point ring, v = JList (JList (x :: y :: point) :: ring) ∧ is_number x = true.

(** The statuses of a rainfall above 50 mm. *)
Definition WET_STATUSES : list string :=
  ["Adequate"; "Good"; "High - flood risk possible"].

(** *** Mock satellite data

    What [_get_mock_satellite_data] returns for the six numbers it draws
    with [random.uniform], in the order it draws them, and the clock
    reading in milliseconds. *)

(** [round(x)] to an integer: the nearest one, a tie going to the even
    one. *)
Definition round_half_even (x : Q) : Z :=
  let f := Qfloor x in
  let d := (x - inject_Z f)%Q in
  if Qlt_bool d 0.5 then f
  else if Qlt_bool 0.5 d then (f + 1)%Z
  else if Z.even f then f else (f + 1)%Z.

(** [round(x, 3)] *)
Definition round3 (x : Q) : Q := (inject_Z (round_half_even (x * 1000)) / 1000)%Q.

Record MockDraws := Draws {
  draw_ndvi_mean : Q;   (* random.uniform(0.4, 0.7) *)
  draw_ndvi_std : Q;    (* random.uniform(0.05, 0.15) *)
  draw_ndmi_mean : Q;   (* random.uniform(0.2, 0.5) *)
  draw_ndmi_min : Q;    (* random.uniform(0.1, 0.3) *)
  draw_ndmi_max : Q;    (* random.uniform(0.4, 0.6) *)
  draw_cloud_cover : Q  (* random.uniform(5, 15) *)
}.

Definition _get_mock_satellite_data (now_ms : Z) (d : MockDraws)
    : result (gmap string value) :=
  let ndvi_mean := draw_ndvi_mean d in
  health_category ← _categorize_ndvi (VNum ndvi_mean);
  Ok (list_to_map [
    ("ndvi_mean", VNum (round3 ndvi_mean));
    ("ndvi_min", VNum (round3 (ndvi_mean - 0.1)));
    ("ndvi_max", VNum (round3 (ndvi_mean + 0.1)));
    ("ndvi_std", VNum (round3 (draw_ndvi_std d)));
    ("ndmi_mean", VNum (round3 (draw_ndmi_mean d)));
    ("ndmi_min", VNum (round3 (draw_ndmi_min d)));
    ("ndmi_max", VNum (round3 (draw_ndmi_max d)));
    ("metadata", VDict (list_to_map [
       ("acquisition_date", VNum (inject_Z now_ms));
       ("cloud_cover", VNum (draw_cloud_cover d));
       ("satellite", VStr "Sentinel-2 (Mock Data)")
     ]));
    ("health_category", VStr health_category);
    ("mock_data", VBool true)
  ]).

(** Each draw lies in the interval it is drawn from. *)
Definition draws_in_range (d : MockDraws) : Prop :=
  (0.4 <= draw_ndvi_mean d)%Q ∧ (draw_ndvi_mean d <= 0.7)%Q ∧
  (0.05 <= draw_ndvi_std d)%Q ∧ (draw_ndvi_std d <= 0.15)%Q ∧
  (0.2 <= draw_ndmi_mean d)%Q ∧ (draw_ndmi_mean d <= 0.5)%Q ∧
  (0.1 <= draw_ndmi_min d)%Q ∧ (draw_ndmi_min d <= 0.3)%Q ∧
  (0.4 <= draw_ndmi_max d)%Q ∧ (draw_ndmi_max d <= 0.6)%Q ∧
  (5 <= draw_cloud_cover d)%Q ∧ (draw_cloud_cover d <= 15)%Q.

(** ** Basic facts about values and reads *)

Lemma bind_Ok {A B} (a : A) (f : A → result B) : (Ok a ≫= f) = f a.
Proof. reflexivity. Qed.

Lemma py_lt_num v q k : as_num v = Some q → py_lt v k = Ok (Qlt_bool q k).
Proof. intros H. unfold py_lt. by rewrite H. Qed.

Lemma py_gt_num v q k : as_num v = Some q → py_gt v k = Ok (Qlt_bool k q).
Proof. intros H. unfold py_gt. by rewrite H. Qed.

Lemma py_ge_num v q k : as_num v = Some q → py_ge v k = Ok (Qle_bool k q).
Proof. intros H. unfold py_ge. by rewrite H. Qed.

Lemma dict_get_numeric d k dflt :
  numeric_or_absent d k → is_Some (as_num dflt) → is_Some (as_num (dict_get d k dflt)).
Proof.
  intros Hd Hdflt. unfold dict_get.
  destruct (d !! k) as [v|] eqn:E; simpl; [by apply Hd | done].
Qed.

Lemma dict_get_present d k dflt v : d !! k = Some v → dict_get d k dflt = v.
Proof. intros H. unfold dict_get. by rewrite H. Qed.

(** Filling an absent key with the default a read uses does not change that
    read; reads of other keys never change. *)
Lemma dict_get_insert_default d k dflt :
  d !! k = None → dict_get (<[k := dflt]> d) k dflt = dict_get d k dflt.
Proof.
  intros H. unfold dict_get. by rewrite lookup_insert_eq, H.
Qed.

Lemma dict_get_insert_ne d k k' v dflt :
  k ≠ k' → dict_get (<[k := v]> d) k' dflt = dict_get d k' dflt.
Proof.
  intros H. unfold dict_get. by rewrite lookup_insert_ne.
Qed.

Lemma Qlt_bool_iff x y : Qlt_bool x y = true ↔ (x < y)%Q.
Proof.
  unfold Qlt_bool. rewrite negb_true_iff.
  split.
  - intros H. apply Qnot_le_lt. intros Hle.
    apply Qle_bool_iff in Hle. congruence.
  - intros H. destruct (Qle_bool y x) eqn:E; [|done].
    apply Qle_bool_iff in E. exfalso. by apply (Qlt_not_le x y).
Qed.

Lemma Qle_bool_trans_r k x y :
  (x <= y)%Q → Qle_bool k x = true → Qle_bool k y = true.
Proof.
  intros Hxy Hk. apply Qle_bool_iff. apply Qle_bool_iff in Hk.
  by apply Qle_trans with x.
Qed.

(** Membership in a list that is written out. *)
Ltac list_member :=
  unfold RISK_LEVELS, HEALTH_CATEGORIES, ADVISORIES;
  repeat first [apply list_elem_of_here | apply list_elem_of_further].

(** ** Growth stage *)

(** A planting date is at midnight, so the day count is the difference of
    the day numbers whatever the time of day of [now]. *)
Lemma timedelta_days_midnight now planted :
  micros planted = 0%Z → (0 <= micros now < 86400000000)%Z →
  timedelta_days now planted = (ordinal now - ordinal planted)%Z.
Proof.
  intros Hp Hn. unfold timedelta_days. rewrite Hp, Z.sub_0_r.
  symmetry. apply Z.div_unique with (micros now); lia.
Qed.

Lemma strptime_midnight s planted : strptime s = Ok planted → micros planted = 0%Z.
Proof.
  unfold strptime. intros H.
  destruct (match_format s) as [|[[[y m] d] rest] ?]; [done|].
  repeat case_match; by simplify_eq.
Qed.

Lemma stage_of_days_intervals d :
  ((d < 0)%Z → stage_of_days d = "Not Planted") ∧
  ((0 <= d < 30)%Z → stage_of_days d = "Early Growth") ∧
  ((30 <= d < 60)%Z → stage_of_days d = "Vegetative") ∧
  ((60 <= d < 90)%Z → stage_of_days d = "Flowering") ∧
  ((90 <= d < 120)%Z → stage_of_days d = "Fruiting/Grain Fill") ∧
  ((120 <= d)%Z → stage_of_days d = "Maturity/Harvest").
Proof.
  unfold stage_of_days.
  repeat split; intros H; repeat case_match; try reflexivity; lia.
Qed.

Lemma growth_stage_parsed now s planted :
  s ≠ "" → strptime s = Ok planted →
  _calculate_growth_stage now (Some s) = stage_of_days (timedelta_days now planted).
Proof.
  intros Hs Hp. unfold _calculate_growth_stage.
  destruct s; [done|]. by rewrite Hp.
Qed.

Lemma growth_stage_unparsable now s e :
  strptime s = Raise e → _calculate_growth_stage now (Some s) = "Unknown".
Proof.
  intros Hp. unfold _calculate_growth_stage.
  destruct s; [done|]. by rewrite Hp.
Qed.

(** C3: the estimator buckets the whole-day count with half-open intervals:
    0, 29, 30, 59, 60, 89, 90, 119, 120 days give Early Growth, Early Growth,
    Vegetative, Vegetative, Flowering, Flowering, Fruiting/Grain Fill,
    Fruiting/Grain Fill, Maturity/Harvest; a negative count gives Not
    Planted; a missing, empty or unparsable planting date gives Unknown; a
    date that parses is bucketed by the days elapsed up to [now]. *)
Theorem growth_stage_buckets :
  map stage_of_days [0; 29; 30; 59; 60; 89; 90; 119; 120]%Z =
    ["Early Growth"; "Early Growth"; "Vegetative"; "Vegetative"; "Flowering";
     "Flowering"; "Fruiting/Grain Fill"; "Fruiting/Grain Fill"; "Maturity/Harvest"] ∧
  (∀ d, (d < 0)%Z → stage_of_days d = "Not Planted") ∧
  (∀ d, (0 <= d < 30)%Z → stage_of_days d = "Early Growth") ∧
  (∀ d, (30 <= d < 60)%Z → stage_of_days d = "Vegetative") ∧
  (∀ d, (60 <= d < 90)%Z → stage_of_days d = "Flowering") ∧
  (∀ d, (90 <= d < 120)%Z → stage_of_days d = "Fruiting/Grain Fill") ∧
  (∀ d, (120 <= d)%Z → stage_of_days d = "Maturity/Harvest") ∧
  (∀ now s planted, s ≠ "" → strptime s = Ok planted →
     (0 <= micros now < 86400000000)%Z →
     _calculate_growth_stage now (Some s) =
       stage_of_days (ordinal now - ordinal planted)) ∧
  (∀ now, _calculate_growth_stage now None = "Unknown") ∧
  (∀ now, _calculate_growth_stage now (Some "") = "Unknown") ∧
  (∀ now s e, strptime s = Raise e → _calculate_growth_stage now (Some s) = "Unknown").
Proof.
  split; [reflexivity|].
  repeat split; try (intros d Hd; by apply stage_of_days_intervals).
  - intros now s planted Hs Hp Hn.
    rewrite (growth_stage_parsed now s planted Hs Hp).
    f_equal. apply timedelta_days_midnight; [by eapply strptime_midnight | done].
  - intros now s e. apply growth_stage_unparsable.
Qed.

(** The buckets on dates: planted on 2024-01-01 and read at 10:00 on
    2024-03-01, sixty days later; planted the day after [now]; a date that
    does not exist. *)
Lemma growth_stage_buckets_witness :
  _calculate_growth_stage (DateTime 738946 36000000000) (Some "2024-01-01") = "Flowering" ∧
  stage_of_days (-1) = "Not Planted" ∧
  _calculate_growth_stage (DateTime 738946 36000000000) (Some "2024-02-30") = "Unknown".
Proof.
  destruct growth_stage_buckets as (_ & Hneg & _ & _ & _ & _ & _ & Hparsed & _ & _ & Hbad).
  split; [|split].
  - rewrite (Hparsed (DateTime 738946 36000000000) "2024-01-01" (DateTime 738886 0));
      [reflexivity | discriminate | reflexivity | simpl; lia].
  - apply Hneg. lia.
  - apply (Hbad _ "2024-02-30" ValueError). reflexivity.
Defined.

(** ** Health classification *)

Lemma other_profile : CROP_NDVI_THRESHOLDS !! "other" = Some (Thresholds 0.7 0.5 0.3 0.2).
Proof. reflexivity. Qed.

Lemma assess_crop_health_num crop_type gs v x :
  as_num v = Some x →
  ∃ t, selected_profile crop_type t ∧
       _assess_crop_health v crop_type gs = Ok (first_cut t x).
Proof.
  intros Hv. unfold _assess_crop_health, selected_profile.
  rewrite other_profile, bind_Ok.
  destruct (CROP_NDVI_THRESHOLDS !! lower crop_type) as [t|] eqn:E.
  - exists t. split; [by left|].
    rewrite !(py_ge_num v x) by done. unfold first_cut. simpl.
    repeat (destruct (Qle_bool _ x); [reflexivity|]). reflexivity.
  - exists (Thresholds 0.7 0.5 0.3 0.2). split; [by right|].
    rewrite !(py_ge_num v x) by done. unfold first_cut. simpl.
    repeat (destruct (Qle_bool _ x); [reflexivity|]). reflexivity.
Qed.

Lemma selected_profile_unique crop_type t t' :
  selected_profile crop_type t → selected_profile crop_type t' → t = t'.
Proof.
  unfold selected_profile. intros [H|[H1 H2]] [H'|[H1' H2']]; congruence.
Qed.

Lemma first_cut_category t x : first_cut t x ∈ HEALTH_CATEGORIES.
Proof.
  unfold first_cut. repeat case_match; list_member.
Qed.

Lemma first_cut_spec t x :
  (first_cut t x = "Excellent" ↔ (excellent t <= x)%Q) ∧
  (first_cut t x = "Good" ↔ ¬ (excellent t <= x)%Q ∧ (good t <= x)%Q) ∧
  (first_cut t x = "Moderate" ↔
     ¬ (excellent t <= x)%Q ∧ ¬ (good t <= x)%Q ∧ (moderate t <= x)%Q) ∧
  (first_cut t x = "Poor" ↔
     ¬ (excellent t <= x)%Q ∧ ¬ (good t <= x)%Q ∧ ¬ (moderate t <= x)%Q ∧
     (poor t <= x)%Q) ∧
  (first_cut t x = "Critical" ↔
     ¬ (excellent t <= x)%Q ∧ ¬ (good t <= x)%Q ∧ ¬ (moderate t <= x)%Q ∧
     ¬ (poor t <= x)%Q).
Proof.
  unfold first_cut.
  destruct (Qle_bool (excellent t) x) eqn:E1;
    [apply Qle_bool_iff in E1 | assert (¬ (excellent t <= x)%Q)
       by (rewrite <- Qle_bool_iff; congruence)];
  [|destruct (Qle_bool (good t) x) eqn:E2;
    [apply Qle_bool_iff in E2 | assert (¬ (good t <= x)%Q)
       by (rewrite <- Qle_bool_iff; congruence)];
  [|destruct (Qle_bool (moderate t) x) eqn:E3;
    [apply Qle_bool_iff in E3 | assert (¬ (moderate t <= x)%Q)
       by (rewrite <- Qle_bool_iff; congruence)];
  [|destruct (Qle_bool (poor t) x) eqn:E4;
    [apply Qle_bool_iff in E4 | assert (¬ (poor t <= x)%Q)
       by (rewrite <- Qle_bool_iff; congruence)]]]];
  repeat split; intros; try discriminate; try tauto.
Qed.

Lemma first_cut_monotone t x y :
  (x <= y)%Q → (health_rank (first_cut t x) <= health_rank (first_cut t y))%nat.
Proof.
  intros Hxy. unfold first_cut.
  destruct (Qle_bool (excellent t) x) eqn:E1.
  { by rewrite (Qle_bool_trans_r _ x y Hxy E1). }
  destruct (Qle_bool (good t) x) eqn:E2.
  { rewrite (Qle_bool_trans_r _ x y Hxy E2).
    destruct (Qle_bool (excellent t) y); vm_compute; lia. }
  destruct (Qle_bool (moderate t) x) eqn:E3.
  { rewrite (Qle_bool_trans_r _ x y Hxy E3).
    destruct (Qle_bool (excellent t) y), (Qle_bool (good t) y); vm_compute; lia. }
  destruct (Qle_bool (poor t) x) eqn:E4.
  { rewrite (Qle_bool_trans_r _ x y Hxy E4).
    destruct (Qle_bool (excellent t) y), (Qle_bool (good t) y),
      (Qle_bool (moderate t) y); vm_compute; lia. }
  change (health_rank "Critical") with 0. lia.
Qed.

(** C4: for every crop-type string and every vegetation index the classifier
    returns exactly one of the five categories, the one of the first cut
    point of the selected profile that the index meets or exceeds (Critical
    when it meets none); and for a fixed crop type a higher index never
    gives a lower category. *)
Theorem health_classification_total_monotone (crop_type gs : string) (x y : Q) :
  ∃ t hx hy,
    selected_profile crop_type t ∧
    _assess_crop_health (VNum x) crop_type gs = Ok hx ∧
    _assess_crop_health (VNum y) crop_type gs = Ok hy ∧
    hx ∈ HEALTH_CATEGORIES ∧
    (hx = "Excellent" ↔ (excellent t <= x)%Q) ∧
    (hx = "Good" ↔ ¬ (excellent t <= x)%Q ∧ (good t <= x)%Q) ∧
    (hx = "Moderate" ↔
       ¬ (excellent t <= x)%Q ∧ ¬ (good t <= x)%Q ∧ (moderate t <= x)%Q) ∧
    (hx = "Poor" ↔
       ¬ (excellent t <= x)%Q ∧ ¬ (good t <= x)%Q ∧ ¬ (moderate t <= x)%Q ∧
       (poor t <= x)%Q) ∧
    (hx = "Critical" ↔
       ¬ (excellent t <= x)%Q ∧ ¬ (good t <= x)%Q ∧ ¬ (moderate t <= x)%Q ∧
       ¬ (poor t <= x)%Q) ∧
    ((x <= y)%Q → (health_rank hx <= health_rank hy)%nat).
Proof.
  destruct (assess_crop_health_num crop_type gs (VNum x) x eq_refl) as (t & Ht & Hx).
  destruct (assess_crop_health_num crop_type gs (VNum y) y eq_refl) as (t' & Ht' & Hy).
  rewrite <- (selected_profile_unique _ _ _ Ht Ht') in Hy.
  exists t, (first_cut t x), (first_cut t y).
  split; [done|]. split; [done|]. split; [done|].
  split; [apply first_cut_category|].
  destruct (first_cut_spec t x) as (H1 & H2 & H3 & H4 & H5).
  repeat (split; [assumption|]).
  apply first_cut_monotone.
Qed.

(** Rice at 0.45 is Moderate and at 0.62 is Good. *)
Lemma health_classification_witness :
  ∃ t hx hy,
    selected_profile "Rice" t ∧
    _assess_crop_health (VNum 0.45) "Rice" "Unknown" = Ok hx ∧
    _assess_crop_health (VNum 0.62) "Rice" "Unknown" = Ok hy ∧
    hx = "Moderate" ∧ hy = "Good" ∧ (health_rank hx <= health_rank hy)%nat.
Proof.
  destruct (health_classification_total_monotone "Rice" "Unknown" 0.45 0.62)
    as (t & hx & hy & Ht & Hx & Hy & _ & _ & _ & _ & _ & _ & Hmono).
  exists t, hx, hy. split; [done|]. split; [done|]. split; [done|].
  split; [|split].
  - vm_compute in Hx. congruence.
  - vm_compute in Hy. congruence.
  - apply Hmono. vm_compute. discriminate.
Defined.

(** ** Joining and splitting *)

Lemma str_app_cons (a : ascii) (x y : string) : String a x +:+ y = String a (x +:+ y).
Proof. reflexivity. Qed.

Lemma str_app_nil_l (y : string) : "" +:+ y = y.
Proof. reflexivity. Qed.

Lemma str_app_assoc (a b c : string) : (a +:+ b) +:+ c = a +:+ (b +:+ c).
Proof.
  induction a as [|x a IH]; [reflexivity|].
  rewrite !str_app_cons. by f_equal.
Qed.

Lemma str_app_nil_r (a : string) : a +:+ "" = a.
Proof.
  induction a as [|x a IH]; [reflexivity|].
  rewrite str_app_cons. by f_equal.
Qed.

(** Where the separator starts, a space is followed by a vertical bar. *)
Lemma prefix_sep_inv (a : ascii) (y : string) :
  String.prefix " | " (String a y) = true → ∃ y', y = String "|" y'.
Proof.
  change (String.prefix " | " (String a y))
    with (if Ascii.ascii_dec " " a then String.prefix "| " y else false).
  destruct (Ascii.ascii_dec " " a); [|done].
  destruct y as [|b y]; [done|].
  change (String.prefix "| " (String b y))
    with (if Ascii.ascii_dec "|" b then String.prefix " " y else false).
  destruct (Ascii.ascii_dec "|" b) as [<-|]; [|done].
  intros _. by exists y.
Qed.

(** Inside a text without a vertical bar the separator cannot start. *)
Lemma prefix_sep_no_pipe (a : ascii) (x rest : string) :
  no_pipe (String a x) = true →
  String.prefix " | " (String a (x +:+ " | " +:+ rest)) = false ∧
  String.prefix " | " (String a x) = false.
Proof.
  intros H. cbn [no_pipe] in H. apply andb_true_iff in H as [_ Hx].
  assert (∀ y', x ≠ String "|" y') as Hnp.
  { intros y' ->. cbn [no_pipe] in Hx. by rewrite Ascii.eqb_refl in Hx. }
  split.
  - destruct (String.prefix " | " (String a (x +:+ " | " +:+ rest))) eqn:E; [|done].
    apply prefix_sep_inv in E as [y' E].
    destruct x as [|b x].
    + rewrite str_app_nil_l in E. discriminate E.
    + rewrite str_app_cons in E. injection E as -> _. by destruct (Hnp x).
  - destruct (String.prefix " | " (String a x)) eqn:E; [|done].
    apply prefix_sep_inv in E as [y' E]. by destruct (Hnp y').
Qed.

Lemma prefix_sep_here (rest : string) :
  String.prefix " | " (String " " (String "|" (String " " rest))) = true.
Proof. destruct rest; reflexivity. Qed.

(** A piece followed by a separator is cut off and the scan goes on behind
    the separator. *)
Lemma split_go_piece (x cur rest : string) :
  no_pipe x = true →
  split_go " | " (x +:+ " | " +:+ rest) 0 cur = (cur +:+ x) :: split_go " | " rest 0 "".
Proof.
  revert cur. induction x as [|a x IH]; intros cur Hx.
  - rewrite str_app_nil_r, str_app_nil_l, !str_app_cons, str_app_nil_l.
    cbn [split_go]. by rewrite prefix_sep_here.
  - destruct (prefix_sep_no_pipe a x rest Hx) as [Hp _].
    rewrite str_app_cons. cbn [split_go]. rewrite Hp.
    cbn [no_pipe] in Hx. apply andb_true_iff in Hx as [_ Hx].
    rewrite (IH _ Hx). by rewrite str_app_assoc, str_app_cons, str_app_nil_l.
Qed.

(** The last piece runs to the end of the string. *)
Lemma split_go_last (x cur : string) :
  no_pipe x = true → split_go " | " x 0 cur = [cur +:+ x].
Proof.
  revert cur. induction x as [|a x IH]; intros cur Hx.
  - by rewrite str_app_nil_r.
  - destruct (prefix_sep_no_pipe a x "" Hx) as [_ Hp].
    cbn [split_go]. rewrite Hp.
    cbn [no_pipe] in Hx. apply andb_true_iff in Hx as [_ Hx].
    rewrite (IH _ Hx). by rewrite str_app_assoc, str_app_cons, str_app_nil_l.
Qed.

(** Splitting a joined list gives the list back, when the list is not empty
    and no element holds a vertical bar. *)
Lemma split_join (l : list string) :
  l ≠ [] → Forall (λ x, no_pipe x = true) l → split " | " (join " | " l) = l.
Proof.
  intros Hne Hl. unfold split.
  induction l as [|x l IH]; [done|].
  apply Forall_cons in Hl as [Hx Hl].
  destruct l as [|y l].
  - cbn [join]. by rewrite split_go_last, str_app_nil_l.
  - change (join " | " (x :: y :: l)) with (x +:+ " | " +:+ join " | " (y :: l)).
    rewrite split_go_piece, str_app_nil_l by done.
    f_equal. by apply IH.
Qed.

(** A text without a vertical bar does not contain the separator. *)
Lemma no_pipe_not_contains (x : string) :
  no_pipe x = true → contains " | " x = false.
Proof.
  induction x as [|a x IH]; intros Hx; [reflexivity|].
  destruct (prefix_sep_no_pipe a x "" Hx) as [_ Hp].
  cbn [contains]. rewrite Hp.
  cbn [no_pipe] in Hx. apply andb_true_iff in Hx as [_ Hx]. by rewrite IH.
Qed.

Lemma advisories_no_pipe : Forall (λ x, no_pipe x = true) ADVISORIES.
Proof. repeat constructor. Qed.

Lemma advisories_nonempty : Forall (λ x, x ≠ "") ADVISORIES.
Proof. repeat constructor; discriminate. Qed.

Lemma Forall_advisories (P : string → Prop) (l : list string) :
  Forall P ADVISORIES → Forall (λ a, a ∈ ADVISORIES) l → Forall P l.
Proof.
  intros HP Hl. induction Hl as [|a l Ha _ IH]; constructor; [|done].
  rewrite Forall_forall in HP. by apply HP.
Qed.

Lemma join_nonempty (sep : string) (l : list string) :
  l ≠ [] → Forall (λ x, x ≠ "") l → join sep l ≠ "".
Proof.
  intros Hne Hl. destruct l as [|x l]; [done|].
  apply Forall_cons in Hl as [Hx _].
  destruct x as [|a x]; [done|].
  destruct l; simpl; discriminate.
Qed.

(** ** The recommendation composer *)

Lemma extends_refl recs : extends recs recs.
Proof. exists []. by rewrite app_nil_r. Qed.

Lemma extends_trans r1 r2 r3 : extends r1 r2 → extends r2 r3 → extends r1 r3.
Proof.
  intros (a1 & -> & H1) (a2 & -> & H2). exists (a1 ++ a2)%list.
  split; [by rewrite app_assoc | by apply Forall_app].
Qed.

Lemma sound_skip : sound skip.
Proof. intros recs. exists tt, recs. split; [reflexivity | apply extends_refl]. Qed.

Lemma sound_append x : x ∈ ADVISORIES → sound (append x).
Proof.
  intros Hx recs. exists tt, (recs ++ [x])%list. split; [reflexivity|].
  exists [x]. split; [reflexivity|]. by constructor.
Qed.

Lemma sound_bind {A B} (m : composer A) (k : A → composer B) :
  sound m → (∀ a, sound (k a)) → sound (m ≫= k).
Proof.
  intros Hm Hk recs.
  destruct (Hm recs) as (a & r1 & E1 & X1).
  destruct (Hk a r1) as (b & r2 & E2 & X2).
  exists b, r2. split; [|by eapply extends_trans].
  unfold mbind, composer_bind. by rewrite E1.
Qed.

Lemma sound_lift {A} (r : result A) : (∃ a, r = Ok a) → sound (lift r).
Proof.
  intros [a ->] recs. exists a, recs. split; [reflexivity | apply extends_refl].
Qed.

Lemma sound_default_rule : sound default_rule.
Proof.
  intros [|x recs]; [|apply sound_skip].
  apply sound_append. list_member.
Qed.

Lemma py_lt_ok v k : is_Some (as_num v) → ∃ b, py_lt v k = Ok b.
Proof. intros [q Hq]. eexists. by apply py_lt_num. Qed.

Lemma py_gt_ok v k : is_Some (as_num v) → ∃ b, py_gt v k = Ok b.
Proof. intros [q Hq]. eexists. by apply py_gt_num. Qed.

Lemma fungal_conditions_ok total_rain avg_temp :
  is_Some (as_num total_rain) → is_Some (as_num avg_temp) →
  ∃ b, fungal_conditions total_rain avg_temp = Ok b.
Proof.
  intros [r Hr] [t Ht]. unfold fungal_conditions.
  rewrite (py_gt_num _ _ _ Hr), (py_gt_num _ _ _ Ht), (py_lt_num _ _ _ Ht).
  simpl. repeat case_match; eauto.
Qed.

Lemma is_Some_as_num_VNum q : is_Some (as_num (VNum q)).
Proof. by eexists. Qed.

Create HintDb composer discriminated.
#[local] Hint Resolve sound_skip sound_default_rule py_lt_ok py_gt_ok
  fungal_conditions_ok dict_get_numeric is_Some_as_num_VNum : composer.

(** One step through the structure of a composer program. *)
Ltac sound_step :=
  lazymatch goal with
  | |- sound (_ ≫= _) => apply sound_bind
  | |- sound (lift _) => apply sound_lift; eauto with composer
  | |- sound (append _) => apply sound_append; list_member
  | |- sound (if ?b then _ else _) => destruct b
  | |- ∀ _, _ => intro
  | |- sound _ => solve [eauto with composer]
  end.

Lemma advisory_rules_sound ndvi ndmi weather_analysis crop_type growth_stage health_status :
  is_Some (as_num ndmi) → well_typed_analysis weather_analysis →
  sound (advisory_rules ndvi ndmi weather_analysis crop_type growth_stage health_status).
Proof.
  intros Hndmi (Hrain & Hforecast & Htemp).
  unfold advisory_rules. cbv zeta.
  repeat sound_step.
Qed.

(** What a well-typed call of the composer produces: the advisories that
    fired, the list that is joined, and the joined string. *)
Lemma recommendations_shape ndvi ndmi weather_analysis crop_type growth_stage health_status :
  is_Some (as_num ndmi) → well_typed_analysis weather_analysis →
  ∃ fired l,
    advisory_rules ndvi ndmi weather_analysis crop_type growth_stage health_status []
      = Ok (tt, fired) ∧
    recommendation_list ndvi ndmi weather_analysis crop_type growth_stage health_status
      = Ok l ∧
    _generate_recommendations ndvi ndmi weather_analysis crop_type growth_stage
      health_status = Ok (join " | " l) ∧
    l = match fired with [] => [ADV_DEFAULT] | _ => fired end ∧
    Forall (λ a, a ∈ ADVISORIES) l.
Proof.
  intros Hndmi Hwa.
  destruct (advisory_rules_sound ndvi ndmi weather_analysis crop_type growth_stage
              health_status Hndmi Hwa []) as ([] & fired & E & added & -> & Hadded).
  rewrite app_nil_l in *.
  exists added, (match added with [] => [ADV_DEFAULT] | _ => added end).
  split; [done|].
  assert (recommendation_list ndvi ndmi weather_analysis crop_type growth_stage
            health_status = Ok (match added with [] => [ADV_DEFAULT] | _ => added end)) as El.
  { unfold recommendation_list, mbind, composer_bind. rewrite E.
    by destruct added. }
  split; [done|]. split; [|split; [done|]].
  - unfold _generate_recommendations. by rewrite El.
  - destruct added; [|done]. constructor; [list_member | constructor].
Qed.

(** Well-typedness of a dict given by its entries. *)
Ltac solve_numeric_or_absent :=
  let v := fresh "v" in let Hv := fresh "Hv" in
  intros v Hv; vm_compute in Hv;
  first [discriminate Hv | injection Hv as <-; by eexists].

Ltac solve_well_typed_analysis :=
  unfold well_typed_analysis; repeat split; solve_numeric_or_absent.

(** C7: for every well-typed input the composed recommendation sequence has
    length at least 1: when none of the rules before the default fires,
    exactly the default advisory is appended, otherwise the sequence is the
    advisories that fired; the joined string is not empty either. *)
Theorem recommendations_never_empty
    ndvi ndmi weather_analysis crop_type growth_stage health_status :
  is_Some (as_num ndmi) → well_typed_analysis weather_analysis →
  ∃ fired l s,
    advisory_rules ndvi ndmi weather_analysis crop_type growth_stage health_status []
      = Ok (tt, fired) ∧
    recommendation_list ndvi ndmi weather_analysis crop_type growth_stage health_status
      = Ok l ∧
    _generate_recommendations ndvi ndmi weather_analysis crop_type growth_stage
      health_status = Ok s ∧
    (1 <= length l)%nat ∧
    (fired = [] → l = [ADV_DEFAULT]) ∧
    (fired ≠ [] → l = fired) ∧
    s ≠ "".
Proof.
  intros Hndmi Hwa.
  destruct (recommendations_shape ndvi ndmi weather_analysis crop_type growth_stage
              health_status Hndmi Hwa) as (fired & l & E1 & E2 & E3 & -> & Hl).
  eexists fired, _, _. split; [exact E1|]. split; [exact E2|]. split; [exact E3|].
  split; [destruct fired; simpl; lia|].
  split; [by intros ->|].
  split; [by destruct fired|].
  apply join_nonempty.
  - by destruct fired.
  - eapply Forall_advisories; [apply advisories_nonempty | exact Hl].
Qed.

(** A field in moderate health with the fallback weather analysis: only the
    no-rain advisory fires. *)
Lemma recommendations_never_empty_witness :
  ∃ fired l s,
    advisory_rules (VNum 0.4) (VNum 0.3) fallback_analysis "wheat" "Unknown" "Moderate" []
      = Ok (tt, fired) ∧
    recommendation_list (VNum 0.4) (VNum 0.3) fallback_analysis "wheat" "Unknown" "Moderate"
      = Ok l ∧
    _generate_recommendations (VNum 0.4) (VNum 0.3) fallback_analysis "wheat" "Unknown"
      "Moderate" = Ok s ∧
    (1 <= length l)%nat ∧
    (fired = [] → l = [ADV_DEFAULT]) ∧
    (fired ≠ [] → l = fired) ∧
    s ≠ "".
Proof.
  apply (recommendations_never_empty (VNum 0.4) (VNum 0.3) fallback_analysis
           "wheat" "Unknown" "Moderate").
  - by eexists.
  - solve_well_typed_analysis.
Defined.

(** C8: for every well-typed input no advisory of the composed sequence
    contains the separator " | ", and splitting the joined string on the
    separator, as the report renderer does, gives back exactly the ordered
    sequence of advisories. *)
Theorem separator_round_trip
    ndvi ndmi weather_analysis crop_type growth_stage health_status :
  is_Some (as_num ndmi) → well_typed_analysis weather_analysis →
  ∃ l s,
    recommendation_list ndvi ndmi weather_analysis crop_type growth_stage health_status
      = Ok l ∧
    _generate_recommendations ndvi ndmi weather_analysis crop_type growth_stage
      health_status = Ok s ∧
    s = join " | " l ∧
    Forall (λ a, contains " | " a = false) l ∧
    rec_list s = l.
Proof.
  intros Hndmi Hwa.
  destruct (recommendations_shape ndvi ndmi weather_analysis crop_type growth_stage
              health_status Hndmi Hwa) as (fired & l & _ & E2 & E3 & Hl & Hadv).
  exists l, (join " | " l). split; [exact E2|]. split; [exact E3|]. split; [done|].
  assert (Forall (λ x, no_pipe x = true) l) as Hnp.
  { eapply Forall_advisories; [apply advisories_no_pipe | exact Hadv]. }
  split.
  - eapply Forall_impl; [exact Hnp|]. apply no_pipe_not_contains.
  - unfold rec_list. apply split_join; [|exact Hnp].
    rewrite Hl. by destruct fired.
Qed.

Lemma separator_round_trip_witness :
  ∃ l s,
    recommendation_list (VNum 0.15) (VNum 0.1) dry_analysis "rice" "Unknown" "Critical"
      = Ok l ∧
    _generate_recommendations (VNum 0.15) (VNum 0.1) dry_analysis "rice" "Unknown"
      "Critical" = Ok s ∧
    s = join " | " l ∧
    Forall (λ a, contains " | " a = false) l ∧
    rec_list s = l.
Proof.
  apply (separator_round_trip (VNum 0.15) (VNum 0.1) dry_analysis
           "rice" "Unknown" "Critical").
  - by eexists.
  - solve_well_typed_analysis.
Defined.

(** ** Risk assessment *)

Lemma assess_overall_rule d f s h :
  d ∈ RISK_LEVELS → f ∈ RISK_LEVELS → s ∈ RISK_LEVELS → h ∈ RISK_LEVELS →
  overall_rule (assess_overall (Risks d f s h "Low")).
Proof.
  unfold RISK_LEVELS. rewrite !elem_of_cons, !elem_of_nil.
  intros Hd Hf Hs Hh.
  destruct Hd as [->|[->|[->|[]]]], Hf as [->|[->|[->|[]]]],
    Hs as [->|[->|[->|[]]]], Hh as [->|[->|[->|[]]]];
    vm_compute; (split; [|split]); split;
    first [discriminate | lia | tauto | intros; (lia || (split; [lia|]; lia)) | idtac].
Qed.

(** A well-typed call of the risk assessor returns the aggregation of four
    category levels; heat stress has no medium tier. *)
Lemma assess_risks_shape weather_analysis ndvi ndmi :
  is_Some (as_num ndmi) → well_typed_analysis weather_analysis →
  ∃ d f s h,
    _assess_risks weather_analysis ndvi ndmi = Ok (assess_overall (Risks d f s h "Low")) ∧
    d ∈ RISK_LEVELS ∧ f ∈ RISK_LEVELS ∧ s ∈ RISK_LEVELS ∧ h ∈ ["Low"; "High"].
Proof.
  intros [m Hm] (Hrain & Hforecast & Htemp).
  destruct (dict_get_numeric weather_analysis "total_rainfall_30d" (VNum 50) Hrain
              (is_Some_as_num_VNum _)) as [r50 Hr50].
  destruct (dict_get_numeric weather_analysis "total_rainfall_30d" (VNum 0) Hrain
              (is_Some_as_num_VNum _)) as [r0 Hr0].
  destruct (dict_get_numeric weather_analysis "forecast_rain_7d" (VNum 0) Hforecast
              (is_Some_as_num_VNum _)) as [fc Hfc].
  destruct (dict_get_numeric weather_analysis "avg_temperature" (VNum 25) Htemp
              (is_Some_as_num_VNum _)) as [t Ht].
  unfold _assess_risks, fungal_conditions. cbv zeta.
  rewrite (py_lt_num _ _ _ Hm), (py_lt_num _ _ _ Hr50), (py_gt_num _ _ _ Hfc),
    !(py_gt_num _ _ _ Hr0), (py_gt_num _ _ _ Ht), (py_lt_num _ _ _ Ht).
  set (r := Risks "Low" "Low" "Low" "Low" "Low").
  (* Drought risk *)
  assert (∃ d, d ∈ RISK_LEVELS ∧
    ((b ← (if truthy (dict_get_none weather_analysis "drought_risk") then Ok true
           else Ok (Qlt_bool m 0.2));
      if b : bool then Ok (set_drought "High" r)
      else b ← Ok (Qlt_bool r50 30);
           if b : bool then Ok (set_drought "Medium" r) else Ok r)
     = Ok (Risks d "Low" "Low" "Low" "Low"))) as (d & Hd & ->).
  { destruct (truthy _), (Qlt_bool m 0.2), (Qlt_bool r50 30);
      eexists; (split; [|reflexivity]); list_member. }
  rewrite bind_Ok. clear r.
  (* Flood risk *)
  assert (∃ f, f ∈ RISK_LEVELS ∧
    (if truthy (dict_get_none weather_analysis "flood_risk")
     then Ok (set_flood "High" (Risks d "Low" "Low" "Low" "Low"))
     else b ← Ok (Qlt_bool 50 fc);
          if b : bool then Ok (set_flood "Medium" (Risks d "Low" "Low" "Low" "Low"))
          else Ok (Risks d "Low" "Low" "Low" "Low"))
    = Ok (Risks d f "Low" "Low" "Low")) as (f & Hf & ->).
  { destruct (truthy _), (Qlt_bool 50 fc);
      eexists; (split; [|reflexivity]); list_member. }
  rewrite bind_Ok.
  (* Disease risk *)
  assert (∃ s, s ∈ RISK_LEVELS ∧
    ((b ← (b ← Ok (Qlt_bool 80 r0);
           if b : bool
           then b ← Ok (Qlt_bool 20 t); if b : bool then Ok (Qlt_bool t 30) else Ok false
           else Ok false);
      if b : bool then Ok (set_disease "High" (Risks d f "Low" "Low" "Low"))
      else b ← Ok (Qlt_bool 50 r0);
           if b : bool then Ok (set_disease "Medium" (Risks d f "Low" "Low" "Low"))
           else Ok (Risks d f "Low" "Low" "Low"))
     = Ok (Risks d f s "Low" "Low"))) as (s & Hs & ->).
  { destruct (Qlt_bool 80 r0), (Qlt_bool 20 t), (Qlt_bool t 30), (Qlt_bool 50 r0);
      eexists; (split; [|reflexivity]); list_member. }
  rewrite bind_Ok.
  (* Heat stress risk *)
  destruct (truthy (dict_get_none weather_analysis "temperature_stress")).
  - exists d, f, s, "High". repeat (split; [done|]). list_member.
  - exists d, f, s, "Low". repeat (split; [done|]). list_member.
Qed.

(** The aggregation step leaves the four category levels as they are. *)
Lemma assess_overall_category_levels r :
  category_levels (assess_overall r) = category_levels r.
Proof. unfold assess_overall. by repeat case_match. Qed.

(** C5: the overall level is High exactly when at least two of the four
    category levels are High; failing that, Medium exactly when one is High
    or at least two are Medium; failing that, Low. This holds of the
    aggregation step on all 81 combinations of the four levels it is given,
    which it hands back unchanged beside the overall level; and the risk
    assessor returns, on every well-typed input, the aggregation of four
    such levels. *)
Theorem overall_risk_aggregation :
  (∀ d f s h,
     d ∈ RISK_LEVELS → f ∈ RISK_LEVELS → s ∈ RISK_LEVELS → h ∈ RISK_LEVELS →
     let r := assess_overall (Risks d f s h "Low") in
     let high := count_of "High" [d; f; s; h] in
     let medium := count_of "Medium" [d; f; s; h] in
     category_levels r = [d; f; s; h] ∧
     (overall r = "High" ↔ (2 <= high)%nat) ∧
     (overall r = "Medium" ↔ (high < 2)%nat ∧ (high = 1%nat ∨ (2 <= medium)%nat)) ∧
     (overall r = "Low" ↔ (high < 2)%nat ∧ ¬ (high = 1%nat ∨ (2 <= medium)%nat)) ∧
     overall_rule r) ∧
  (∀ weather_analysis ndvi ndmi,
     is_Some (as_num ndmi) → well_typed_analysis weather_analysis →
     ∃ d f s h r,
       d ∈ RISK_LEVELS ∧ f ∈ RISK_LEVELS ∧ s ∈ RISK_LEVELS ∧ h ∈ RISK_LEVELS ∧
       _assess_risks weather_analysis ndvi ndmi = Ok r ∧
       r = assess_overall (Risks d f s h "Low") ∧
       category_levels r = [d; f; s; h] ∧
       overall_rule r).
Proof.
  assert (∀ d f s h,
            d ∈ RISK_LEVELS → f ∈ RISK_LEVELS → s ∈ RISK_LEVELS → h ∈ RISK_LEVELS →
            category_levels (assess_overall (Risks d f s h "Low")) = [d; f; s; h] ∧
            overall_rule (assess_overall (Risks d f s h "Low"))) as Hall.
  { intros d f s h Hd Hf Hs Hh.
    split; [apply assess_overall_category_levels | by apply assess_overall_rule]. }
  split.
  - intros d f s h Hd Hf Hs Hh. cbv zeta.
    destruct (Hall d f s h Hd Hf Hs Hh) as [Hcat Hrule].
    split; [exact Hcat|].
    pose proof Hrule as Hrule'. unfold overall_rule in Hrule'. cbv zeta in Hrule'.
    rewrite Hcat in Hrule'. destruct Hrule' as (HH & HM & HL).
    split; [exact HH|]. split; [exact HM|]. split; [exact HL | exact Hrule].
  - intros weather_analysis ndvi ndmi Hm Hwa.
    destruct (assess_risks_shape weather_analysis ndvi ndmi Hm Hwa)
      as (d & f & s & h & E & Hd & Hf & Hs & Hh).
    assert (h ∈ RISK_LEVELS) as Hh'.
    { rewrite !elem_of_cons, elem_of_nil in Hh. destruct Hh as [->|[->|[]]]; list_member. }
    destruct (Hall d f s h Hd Hf Hs Hh') as [Hcat Hrule].
    by exists d, f, s, h, (assess_overall (Risks d f s h "Low")).
Qed.

(** One High and two Medium give Medium; on the dry field drought is the
    only High level and the overall level is Medium. *)
Lemma overall_risk_aggregation_witness :
  (category_levels (assess_overall (Risks "High" "Medium" "Medium" "Low" "Low")) =
     ["High"; "Medium"; "Medium"; "Low"] ∧
   overall (assess_overall (Risks "High" "Medium" "Medium" "Low" "Low")) = "Medium" ∧
   overall_rule (assess_overall (Risks "High" "Medium" "Medium" "Low" "Low"))) ∧
  _assess_risks dry_analysis (VNum 0.15) (VNum 0.1) =
    Ok (Risks "High" "Low" "Low" "Low" "Medium") ∧
  ∃ d f s h r,
    d ∈ RISK_LEVELS ∧ f ∈ RISK_LEVELS ∧ s ∈ RISK_LEVELS ∧ h ∈ RISK_LEVELS ∧
    _assess_risks dry_analysis (VNum 0.15) (VNum 0.1) = Ok r ∧
    r = assess_overall (Risks d f s h "Low") ∧
    category_levels r = [d; f; s; h] ∧
    overall_rule r.
Proof.
  destruct overall_risk_aggregation as [Hall Hcode].
  split; [|split].
  - destruct (Hall "High" "Medium" "Medium" "Low") as (Hcat & _ & HM & _ & Hrule);
      [list_member..|].
    split; [exact Hcat|]. split; [|exact Hrule].
    apply HM. vm_compute. split; [lia | left; reflexivity].
  - reflexivity.
  - apply Hcode; [by eexists | solve_well_typed_analysis].
Defined.

(** C10: the risk levels do not depend on the vegetation index: two calls
    that differ only in that argument return the same result. *)
Theorem risks_independent_of_ndvi weather_analysis ndvi ndvi' ndmi :
  _assess_risks weather_analysis ndvi ndmi = _assess_risks weather_analysis ndvi' ndmi.
Proof.
  unfold _assess_risks. reflexivity.
Qed.

(** ** The whole engine *)

Lemma well_typed_analysis_empty : well_typed_analysis ∅.
Proof. repeat split; intros v Hv; by rewrite lookup_empty in Hv. Qed.

(** The ['analysis'] entry of a well-typed weather summary, or the empty
    dict in its place. *)
Lemma weather_analysis_ok weather_data :
  well_typed_weather weather_data →
  ∃ weather_analysis,
    as_dict (dict_get weather_data "analysis" (VDict ∅)) = Ok weather_analysis ∧
    well_typed_analysis weather_analysis.
Proof.
  intros Hwd. unfold dict_get.
  destruct (weather_data !! "analysis") as [v|] eqn:E.
  - destruct (Hwd v E) as (wa & -> & Hwa). by exists wa.
  - exists ∅. split; [reflexivity | apply well_typed_analysis_empty].
Qed.

(** What a well-typed call of the engine returns. *)
Lemma analyze_shape now weather_data satellite_data crop_type planting_date area :
  well_typed_weather weather_data → well_typed_satellite satellite_data →
  ∃ weather_analysis x t l d f s h,
    as_dict (dict_get weather_data "analysis" (VDict ∅)) = Ok weather_analysis ∧
    as_num (dict_get satellite_data "ndvi_mean" (VNum 0.5)) = Some x ∧
    selected_profile crop_type t ∧
    recommendation_list
      (dict_get satellite_data "ndvi_mean" (VNum 0.5))
      (dict_get satellite_data "ndmi_mean" (VNum 0.3))
      weather_analysis crop_type (_calculate_growth_stage now planting_date)
      (first_cut t x) = Ok l ∧
    analyze now weather_data satellite_data crop_type planting_date area =
      Ok (MkAssessment (first_cut t x) (_calculate_growth_stage now planting_date)
            (join " | " l) (assess_overall (Risks d f s h "Low"))
            (MkMetrics
               (dict_get satellite_data "ndvi_mean" (VNum 0.5))
               (dict_get satellite_data "ndmi_mean" (VNum 0.3))
               (dict_get weather_analysis "total_rainfall_30d" (VNum 0))
               (dict_get weather_analysis "forecast_rain_7d" (VNum 0))
               (dict_get weather_analysis "avg_temperature" (VNum 25)))).
Proof.
  intros Hwd [Hndvi Hndmi].
  destruct (weather_analysis_ok weather_data Hwd) as (wa & Ewa & Hwa).
  destruct (dict_get_numeric satellite_data "ndvi_mean" (VNum 0.5) Hndvi
              (is_Some_as_num_VNum _)) as [x Hx].
  pose proof (dict_get_numeric satellite_data "ndmi_mean" (VNum 0.3) Hndmi
                (is_Some_as_num_VNum _)) as Hm.
  destruct (assess_crop_health_num crop_type (_calculate_growth_stage now planting_date)
              _ x Hx) as (t & Ht & Eh).
  destruct (recommendations_shape
              (dict_get satellite_data "ndvi_mean" (VNum 0.5))
              (dict_get satellite_data "ndmi_mean" (VNum 0.3))
              wa crop_type (_calculate_growth_stage now planting_date) (first_cut t x)
              Hm Hwa) as (fired & l & _ & El & Es & _ & _).
  destruct (assess_risks_shape wa
              (dict_get satellite_data "ndvi_mean" (VNum 0.5))
              (dict_get satellite_data "ndmi_mean" (VNum 0.3)) Hm Hwa)
    as (d & f & s & h & Er & _).
  exists wa, x, t, l, d, f, s, h.
  repeat (split; [done|]).
  unfold analyze. rewrite Ewa, bind_Ok.
  cbv zeta. by rewrite Eh, bind_Ok, Es, bind_Ok, Er, bind_Ok.
Qed.

(** Where every numeric field of the two summaries is absent or a number,
    the engine returns an assessment and raises nothing, for any crop-type
    string, any optional planting-date string and any area; a planting date
    that fails to parse is swallowed and shows only as the growth stage
    Unknown. *)
Lemma analyze_total now weather_data satellite_data crop_type planting_date area :
  well_typed_weather weather_data → well_typed_satellite satellite_data →
  ∃ a,
    analyze now weather_data satellite_data crop_type planting_date area = Ok a ∧
    growth_stage a = _calculate_growth_stage now planting_date ∧
    (∀ s e, planting_date = Some s → strptime s = Raise e → growth_stage a = "Unknown").
Proof.
  intros Hwd Hsd.
  destruct (analyze_shape now weather_data satellite_data crop_type planting_date area
              Hwd Hsd) as (wa & x & t & l & d & f & s & h & _ & _ & _ & _ & E).
  eexists. split; [exact E|]. split; [reflexivity|].
  intros s' e -> Hs'. simpl. by eapply growth_stage_unparsable.
Qed.

(** Empty summaries, an unknown crop and a date that does not exist. *)
Lemma analyze_total_witness :
  ∃ a,
    analyze (DateTime 738946 36000000000) ∅ ∅ "Quinoa" (Some "2024-02-30") 0 = Ok a ∧
    growth_stage a = _calculate_growth_stage (DateTime 738946 36000000000)
                       (Some "2024-02-30") ∧
    (∀ s e, Some "2024-02-30" = Some s → strptime s = Raise e →
            growth_stage a = "Unknown").
Proof.
  apply (analyze_total (DateTime 738946 36000000000) ∅ ∅ "Quinoa" (Some "2024-02-30") 0).
  - intros v Hv. vm_compute in Hv. discriminate Hv.
  - split; intros v Hv; vm_compute in Hv; discriminate Hv.
Defined.

(** A field that is present but null is not defaulted: [.get] returns the
    null and the first comparison raises. *)
Example analyze_null_index :
  analyze (DateTime 738946 0) ∅ {["ndvi_mean" := VNone]} "wheat" None 1 = Raise TypeError.
Proof. reflexivity. Qed.

(** C9: the engine is not total over its declared input domain. A numeric
    field that is present but null belongs to that domain (null fields are
    to be recovered with the documented defaults) and the satellite service
    hands over null indices when its statistics fail; but [.get] returns
    the null, not the default, and the first comparison with it raises
    [TypeError] to the caller. This happens for null indices, for one null
    index beside a number, and for a null trailing rainfall, in calls whose
    other fields are all well typed and which return an assessment once the
    null is replaced by the documented default. *)
Theorem analyze_raises_on_null_field :
  ∃ a,
    analyze (DateTime 738946 0) {["analysis" := VDict fallback_analysis]}
      {["ndvi_mean" := VNone; "ndmi_mean" := VNone]} "wheat" None 1 = Raise TypeError ∧
    analyze (DateTime 738946 0) {["analysis" := VDict fallback_analysis]}
      {["ndvi_mean" := VNum 0.5; "ndmi_mean" := VNone]} "wheat" None 1 = Raise TypeError ∧
    analyze (DateTime 738946 0)
      {["analysis" := VDict (<["total_rainfall_30d" := VNone]> fallback_analysis)]}
      default_satellite "wheat" None 1 = Raise TypeError ∧
    default_satellite = {["ndvi_mean" := VNum 0.5; "ndmi_mean" := VNum 0.3]} ∧
    fallback_analysis !! "total_rainfall_30d" = Some (VNum 0) ∧
    analyze (DateTime 738946 0) {["analysis" := VDict fallback_analysis]}
      default_satellite "wheat" None 1 = Ok a.
Proof.
  eexists.
  split; [reflexivity|]. split; [reflexivity|]. split; [vm_compute; reflexivity|].
  split; [reflexivity|]. split; [reflexivity|]. vm_compute. reflexivity.
Qed.

(** ** Defaults for absent fields *)

(** Filling an absent satellite field with its default changes nothing. *)
Lemma analyze_default_satellite now weather_data satellite_data crop_type
    planting_date area k dflt :
  (k, dflt) ∈ [("ndvi_mean", VNum 0.5); ("ndmi_mean", VNum 0.3)] →
  satellite_data !! k = None →
  analyze now weather_data (<[k := dflt]> satellite_data) crop_type planting_date area =
  analyze now weather_data satellite_data crop_type planting_date area.
Proof.
  rewrite !elem_of_cons, elem_of_nil.
  intros [E|[E|[]]] Hk; injection E as -> ->; unfold analyze;
    rewrite (dict_get_insert_default _ _ _ Hk), dict_get_insert_ne by done;
    reflexivity.
Qed.

(** Filling the absent forecast or mean temperature with its default
    changes nothing either. *)
Lemma analyze_default_weather now weather_data weather_analysis satellite_data
    crop_type planting_date area k dflt :
  (k, dflt) ∈ [("forecast_rain_7d", VNum 0); ("avg_temperature", VNum 25)] →
  weather_data !! "analysis" = Some (VDict weather_analysis) →
  weather_analysis !! k = None →
  analyze now (<["analysis" := VDict (<[k := dflt]> weather_analysis)]> weather_data)
    satellite_data crop_type planting_date area =
  analyze now weather_data satellite_data crop_type planting_date area.
Proof.
  rewrite !elem_of_cons, elem_of_nil.
  intros [E|[E|[]]] Hwd Hk; injection E as -> ->; unfold analyze;
    rewrite (dict_get_present _ _ _ _ Hwd),
      (dict_get_present _ "analysis" _ _ (lookup_insert_eq _ _ _));
    cbn [as_dict]; rewrite !bind_Ok; cbv zeta;
    unfold _generate_recommendations, recommendation_list, advisory_rules,
      _assess_risks, dict_get_none;
    rewrite !(dict_get_insert_default _ _ _ Hk), !dict_get_insert_ne by done;
    reflexivity.
Qed.

(** Absent trailing rainfall is read as 0 by the composer, by the disease
    rule and by the metrics, so filling it with 0 leaves the recommendations
    unchanged. *)
Lemma recommendations_default_rainfall ndvi ndmi weather_analysis crop_type
    growth_stage health_status :
  weather_analysis !! "total_rainfall_30d" = None →
  _generate_recommendations ndvi ndmi
    (<["total_rainfall_30d" := VNum 0]> weather_analysis)
    crop_type growth_stage health_status =
  _generate_recommendations ndvi ndmi weather_analysis crop_type growth_stage
    health_status.
Proof.
  intros Hk.
  unfold _generate_recommendations, recommendation_list, advisory_rules, dict_get_none.
  rewrite !(dict_get_insert_default _ _ _ Hk), !dict_get_insert_ne by done.
  reflexivity.
Qed.

(** C1: at an input whose trailing-rainfall field is absent the engine does
    not behave as with the documented default 0 in its place. The metrics
    report the rainfall as 0 in both cases, but the drought rule reads the
    absent field as 50, so drought is Low where the substituted input gives
    Medium, and the two assessments differ. *)
Theorem absent_rainfall_drought_level :
  ∃ a a',
    analysis_without_rainfall !! "total_rainfall_30d" = None ∧
    analyze (DateTime 738946 0) {["analysis" := VDict analysis_without_rainfall]}
      default_satellite "wheat" None 1 = Ok a ∧
    analyze (DateTime 738946 0) {["analysis" := VDict analysis_with_zero_rainfall]}
      default_satellite "wheat" None 1 = Ok a' ∧
    m_rainfall_30d (metrics a) = VNum 0 ∧
    m_rainfall_30d (metrics a') = VNum 0 ∧
    drought (risks a) = "Low" ∧
    drought (risks a') = "Medium" ∧
    overall (risks a) = "Low" ∧
    a ≠ a'.
Proof.
  eexists _, _.
  split; [reflexivity|].
  split; [vm_compute; reflexivity|].
  split; [vm_compute; reflexivity|].
  repeat (split; [reflexivity|]).
  discriminate.
Qed.

(** ** The two scenarios *)

Lemma has_fields_lookup d fields k v :
  has_fields d fields → (k, v) ∈ fields → d !! k = Some v.
Proof.
  unfold has_fields. rewrite Forall_forall. intros H Hin. by apply (H (k, v)).
Qed.

(** C2, as the code has it: wheat at index 0.72, moisture 0.35, 45 mm of
    trailing rain, 10 mm forecast, 22 degrees, no flag set and planted
    exactly 60 days ago is Excellent, all five risk levels are Low, but the
    growth stage is Flowering (day 60 opens the Flowering bucket), and the
    recommendations are the maintain-current-practices advisory followed by
    the flowering-stage advisory. *)
Theorem wheat_scenario now weather_data weather_analysis satellite_data
    planting_date area :
  weather_data !! "analysis" = Some (VDict weather_analysis) →
  has_fields weather_analysis
    [("total_rainfall_30d", VNum 45); ("forecast_rain_7d", VNum 10);
     ("avg_temperature", VNum 22)] →
  no_flags weather_analysis →
  has_fields satellite_data [("ndvi_mean", VNum 0.72); ("ndmi_mean", VNum 0.35)] →
  planted_days_ago now planting_date 60 →
  ∃ a,
    analyze now weather_data satellite_data "wheat" planting_date area = Ok a ∧
    health_status a = "Excellent" ∧
    growth_stage a = "Flowering" ∧
    risks a = Risks "Low" "Low" "Low" "Low" "Low" ∧
    rec_list (recommendations a) = [ADV_MAINTAIN; ADV_FLOWERING].
Proof.
  intros Hwd Hwa (Hdrought & Hflood & Hstress) Hsd (s & planted & -> & Hs & Hp & Hdays).
  pose proof (has_fields_lookup _ _ "total_rainfall_30d" _ Hwa ltac:(list_member)) as Hrain.
  pose proof (has_fields_lookup _ _ "forecast_rain_7d" _ Hwa ltac:(list_member)) as Hfc.
  pose proof (has_fields_lookup _ _ "avg_temperature" _ Hwa ltac:(list_member)) as Htemp.
  pose proof (has_fields_lookup _ _ "ndvi_mean" _ Hsd ltac:(list_member)) as Hndvi.
  pose proof (has_fields_lookup _ _ "ndmi_mean" _ Hsd ltac:(list_member)) as Hndmi.
  unfold analyze.
  rewrite (dict_get_present _ _ _ _ Hwd), (dict_get_present _ _ _ _ Hndvi),
    (dict_get_present _ _ _ _ Hndmi).
  cbn [as_dict]. rewrite bind_Ok. cbv zeta.
  rewrite (growth_stage_parsed now s planted Hs Hp), Hdays.
  unfold _generate_recommendations, recommendation_list, advisory_rules, _assess_risks.
  rewrite Hdrought, Hflood, Hstress.
  rewrite !(dict_get_present _ _ _ _ Hrain), !(dict_get_present _ _ _ _ Hfc),
    !(dict_get_present _ _ _ _ Htemp).
  vm_compute. eexists. repeat split; reflexivity.
Qed.

(** Planted on 2024-01-01, read at 10:00 on 2024-03-01. *)
Lemma wheat_scenario_witness :
  ∃ a,
    analyze (DateTime 738946 36000000000) {["analysis" := VDict wheat_analysis]}
      wheat_satellite "wheat" (Some "2024-01-01") 1 = Ok a ∧
    health_status a = "Excellent" ∧
    growth_stage a = "Flowering" ∧
    risks a = Risks "Low" "Low" "Low" "Low" "Low" ∧
    rec_list (recommendations a) = [ADV_MAINTAIN; ADV_FLOWERING].
Proof.
  apply (wheat_scenario (DateTime 738946 36000000000)
           {["analysis" := VDict wheat_analysis]} wheat_analysis wheat_satellite
           (Some "2024-01-01") 1).
  - reflexivity.
  - repeat constructor.
  - repeat split; reflexivity.
  - repeat constructor.
  - exists "2024-01-01", (DateTime 738886 0).
    split; [reflexivity|]. split; [discriminate|]. split; reflexivity.
Defined.

(** The scenario as the specification states it fails on the code: with the
    planting date exactly 60 days before [now] the growth stage is not
    Vegetative, and the maintain-current-practices advisory is not the only
    recommendation. *)
Lemma wheat_scenario_counterexample :
  ∃ a planted,
    strptime "2024-01-01" = Ok planted ∧
    timedelta_days (DateTime 738946 36000000000) planted = 60%Z ∧
    analyze (DateTime 738946 36000000000) {["analysis" := VDict wheat_analysis]}
      wheat_satellite "wheat" (Some "2024-01-01") 1 = Ok a ∧
    growth_stage a = "Flowering" ∧
    growth_stage a ≠ "Vegetative" ∧
    rec_list (recommendations a) = [ADV_MAINTAIN; ADV_FLOWERING] ∧
    rec_list (recommendations a) ≠ [ADV_MAINTAIN].
Proof.
  eexists _, _.
  split; [reflexivity|]. split; [reflexivity|].
  split; [vm_compute; reflexivity|].
  split; [reflexivity|]. split; [discriminate|].
  split; [reflexivity | discriminate].
Qed.

(** Greedy search for a subsequence in a list that is written out. *)
Ltac find_sublist :=
  repeat first [apply sublist_nil | apply sublist_skip | apply sublist_cons].

(** C6: rice at index 0.15, moisture 0.1, 10 mm of trailing rain, the
    drought flag set and no rain forecast is Critical, its drought risk is
    High, and the recommendations contain the inspect-field, low-moisture,
    water-conservation and irrigation-planning advisories in that order,
    whatever the planting date, the mean temperature and the other two
    flags. *)
Theorem dry_rice_scenario now weather_data weather_analysis satellite_data
    planting_date area :
  weather_data !! "analysis" = Some (VDict weather_analysis) →
  has_fields weather_analysis
    [("total_rainfall_30d", VNum 10); ("forecast_rain_7d", VNum 0)] →
  truthy (dict_get_none weather_analysis "drought_risk") = true →
  numeric_or_absent weather_analysis "avg_temperature" →
  has_fields satellite_data [("ndvi_mean", VNum 0.15); ("ndmi_mean", VNum 0.1)] →
  ∃ a,
    analyze now weather_data satellite_data "rice" planting_date area = Ok a ∧
    health_status a = "Critical" ∧
    drought (risks a) = "High" ∧
    [ADV_INSPECT_FIELD; ADV_LOW_MOISTURE; ADV_DROUGHT; ADV_NO_RAIN]
      `sublist_of` rec_list (recommendations a).
Proof.
  intros Hwd Hwa Hdrought Htemp Hsd.
  pose proof (has_fields_lookup _ _ "total_rainfall_30d" _ Hwa ltac:(list_member)) as Hrain.
  pose proof (has_fields_lookup _ _ "forecast_rain_7d" _ Hwa ltac:(list_member)) as Hfc.
  pose proof (has_fields_lookup _ _ "ndvi_mean" _ Hsd ltac:(list_member)) as Hndvi.
  pose proof (has_fields_lookup _ _ "ndmi_mean" _ Hsd ltac:(list_member)) as Hndmi.
  destruct (dict_get_numeric weather_analysis "avg_temperature" (VNum 25) Htemp
              (is_Some_as_num_VNum _)) as [t Ht].
  unfold analyze.
  rewrite (dict_get_present _ _ _ _ Hwd), (dict_get_present _ _ _ _ Hndvi),
    (dict_get_present _ _ _ _ Hndmi).
  cbn [as_dict]. rewrite bind_Ok. cbv zeta.
  generalize (_calculate_growth_stage now planting_date). intros stage.
  change (_assess_crop_health (VNum 0.15) "rice" stage) with (Ok "Critical").
  rewrite bind_Ok.
  unfold _generate_recommendations, recommendation_list, advisory_rules, _assess_risks,
    fungal_conditions.
  rewrite Hdrought.
  rewrite !(dict_get_present _ _ _ _ Hrain), !(dict_get_present _ _ _ _ Hfc).
  rewrite !(py_gt_num _ _ _ Ht), !(py_lt_num _ _ _ Ht).
  change (str_in "Critical" ["Good"; "Excellent"]) with false.
  rewrite andb_false_r.
  generalize (dict_get weather_analysis "avg_temperature" (VNum 25)). intros temp.
  destruct (truthy (dict_get_none weather_analysis "flood_risk")),
    (truthy (dict_get_none weather_analysis "temperature_stress")),
    (Qlt_bool 35 t), (Qlt_bool t 10);
    vm_compute; eexists; (split; [reflexivity|]);
    (split; [reflexivity|]); (split; [reflexivity|]); find_sublist.
Qed.

(** The dry field without a mean temperature, read before planting. *)
Lemma dry_rice_scenario_witness :
  ∃ a,
    analyze (DateTime 738946 0) {["analysis" := VDict dry_analysis]} dry_satellite
      "rice" None 2 = Ok a ∧
    health_status a = "Critical" ∧
    drought (risks a) = "High" ∧
    [ADV_INSPECT_FIELD; ADV_LOW_MOISTURE; ADV_DROUGHT; ADV_NO_RAIN]
      `sublist_of` rec_list (recommendations a).
Proof.
  apply (dry_rice_scenario (DateTime 738946 0) {["analysis" := VDict dry_analysis]}
           dry_analysis dry_satellite None 2).
  - reflexivity.
  - repeat constructor.
  - reflexivity.
  - solve_numeric_or_absent.
  - repeat constructor.
Defined.

Lemma adds_skip : adds skip tt [].
Proof. intros recs. by rewrite app_nil_r. Qed.

Lemma adds_append x : adds (append x) tt [x].
Proof. by intros recs. Qed.

Lemma adds_bind {A B} (m : composer A) (k : A → composer B) a b x y :
  adds m a x → adds (k a) b y → adds (m ≫= k) b (x ++ y)%list.
Proof.
  intros Hm Hk recs. unfold mbind, composer_bind.
  by rewrite Hm, Hk, app_assoc.
Qed.

Lemma adds_lift {A B} (r : result A) (k : A → composer B) a b y :
  r = Ok a → adds (k a) b y → adds (lift r ≫= k) b y.
Proof.
  intros -> Hk recs. unfold mbind, composer_bind, lift. apply Hk.
Qed.

Lemma omap_id_cons {A} (o : option A) (l : list (option A)) :
  omap id (o :: l) = (option_list o ++ omap id l)%list.
Proof. by destruct o. Qed.

(** The composer adds, rule by rule, what the checklist says. *)
Lemma advisory_rules_adds ndvi ndmi weather_analysis crop_type growth_stage health_status
    m r r50 fc t :
  reads_numbers ndmi weather_analysis m r r50 fc t →
  adds (advisory_rules ndvi ndmi weather_analysis crop_type growth_stage health_status) tt
    (fired_advisories weather_analysis growth_stage health_status m r fc t).
Proof.
  intros (Hm & Hr & _ & Hfc & Ht).
  unfold advisory_rules, fired_advisories, checklist, fungal_conditions. cbv zeta.
  rewrite !omap_id_cons.
  unfold py_eq.
  rewrite !(py_lt_num _ _ _ Hm), !(py_gt_num _ _ _ Hm), !(py_gt_num _ _ _ Ht),
    !(py_lt_num _ _ _ Ht), !(py_gt_num _ _ _ Hfc), !(py_gt_num _ _ _ Hr), Hfc.
  eapply adds_bind.
  { unfold rule_health. repeat case_match; first [apply adds_append | apply adds_skip]. }
  eapply adds_lift; [reflexivity|]. eapply adds_bind.
  { unfold rule_moisture. destruct (Qlt_bool m 0.2); [apply adds_append|].
    eapply adds_lift; [reflexivity|].
    destruct (Qlt_bool 0.5 m); [apply adds_append | apply adds_skip]. }
  eapply adds_bind.
  { unfold rule_drought. case_match; [apply adds_append | apply adds_skip]. }
  eapply adds_bind.
  { unfold rule_flood. case_match; [apply adds_append | apply adds_skip]. }
  eapply adds_bind.
  { unfold rule_temperature. case_match; [|apply adds_skip].
    eapply adds_lift; [reflexivity|].
    destruct (Qlt_bool 35 t); [apply adds_append|].
    eapply adds_lift; [reflexivity|].
    destruct (Qlt_bool t 10); [apply adds_append | apply adds_skip]. }
  eapply adds_bind.
  { unfold rule_forecast. destruct (Qeq_bool fc 0); [apply adds_append|].
    eapply adds_lift; [reflexivity|].
    destruct (Qlt_bool 50 fc); [apply adds_append | apply adds_skip]. }
  eapply adds_bind.
  { unfold rule_flowering. case_match; [apply adds_append | apply adds_skip]. }
  change (omap id []) with (@nil string). rewrite app_nil_r.
  eapply (adds_lift _ _ (Qlt_bool 80 r && (Qlt_bool 20 t && Qlt_bool t 30))).
  { by destruct (Qlt_bool 80 r), (Qlt_bool 20 t). }
  unfold rule_fungal. case_match; [apply adds_append | apply adds_skip].
Qed.

(** The list that is joined: what fired, or the default advisory alone. *)
Lemma recommendation_list_fired ndvi ndmi weather_analysis crop_type growth_stage
    health_status m r r50 fc t :
  reads_numbers ndmi weather_analysis m r r50 fc t →
  recommendation_list ndvi ndmi weather_analysis crop_type growth_stage health_status =
    Ok (final_list (fired_advisories weather_analysis growth_stage health_status m r fc t)).
Proof.
  intros H. unfold recommendation_list, mbind, composer_bind.
  rewrite (advisory_rules_adds _ _ _ _ _ _ _ _ _ _ _ H []). rewrite app_nil_l.
  unfold final_list. by destruct (fired_advisories _ _ _ _ _ _ _).
Qed.

(** A well-typed call reads numbers. *)
Lemma reads_numbers_ok ndmi weather_analysis :
  is_Some (as_num ndmi) → well_typed_analysis weather_analysis →
  ∃ m r r50 fc t, reads_numbers ndmi weather_analysis m r r50 fc t.
Proof.
  intros [m Hm] (Hrain & Hforecast & Htemp).
  destruct (dict_get_numeric weather_analysis "total_rainfall_30d" (VNum 0) Hrain
              (is_Some_as_num_VNum _)) as [r Hr].
  destruct (dict_get_numeric weather_analysis "total_rainfall_30d" (VNum 50) Hrain
              (is_Some_as_num_VNum _)) as [r50 Hr50].
  destruct (dict_get_numeric weather_analysis "forecast_rain_7d" (VNum 0) Hforecast
              (is_Some_as_num_VNum _)) as [fc Hfc].
  destruct (dict_get_numeric weather_analysis "avg_temperature" (VNum 25) Htemp
              (is_Some_as_num_VNum _)) as [t Ht].
  by exists m, r, r50, fc, t.
Qed.

(** The risk assessor returns, rule by rule, the four levels and their
    aggregation. *)
Lemma assess_risks_levels weather_analysis ndvi ndmi m r r50 fc t :
  reads_numbers ndmi weather_analysis m r r50 fc t →
  _assess_risks weather_analysis ndvi ndmi =
    Ok (assess_overall
          (Risks (drought_level weather_analysis m r50) (flood_level weather_analysis fc)
             (disease_level r t) (heat_level weather_analysis) "Low")).
Proof.
  intros (Hm & Hr & Hr50 & Hfc & Ht).
  unfold _assess_risks, fungal_conditions. cbv zeta.
  rewrite (py_lt_num _ _ _ Hm), (py_lt_num _ _ _ Hr50), (py_gt_num _ _ _ Hfc),
    !(py_gt_num _ _ _ Hr), (py_gt_num _ _ _ Ht), (py_lt_num _ _ _ Ht).
  unfold drought_level, flood_level, disease_level, heat_level.
  destruct (truthy (dict_get_none weather_analysis "drought_risk")),
    (Qlt_bool m 0.2), (Qlt_bool r50 30);
  destruct (truthy (dict_get_none weather_analysis "flood_risk")), (Qlt_bool 50 fc);
  destruct (Qlt_bool 80 r), (Qlt_bool 20 t), (Qlt_bool t 30), (Qlt_bool 50 r);
  destruct (truthy (dict_get_none weather_analysis "temperature_stress"));
  reflexivity.
Qed.

(** ** Which advisory fires when *)

Lemma omap_id_length_le {A} (l : list (option A)) : (length (omap id l) <= length l)%nat.
Proof.
  induction l as [|o l IH]; [done|].
  rewrite omap_id_cons, length_app. destruct o; simpl; lia.
Qed.

Lemma advisories_NoDup : NoDup ADVISORIES.
Proof. apply (bool_decide_unpack (NoDup ADVISORIES)). vm_compute. exact I. Qed.

Lemma rule_health_Some hs a :
  rule_health hs = Some a ↔
    (a = ADV_INSPECT_FIELD ∧ (hs = "Poor" ∨ hs = "Critical")) ∨
    (a = ADV_MAINTAIN ∧ hs = "Excellent").
Proof.
  unfold rule_health, str_in. cbn [existsb].
  destruct (String.eqb_spec hs "Poor"), (String.eqb_spec hs "Critical"),
    (String.eqb_spec hs "Excellent"); cbn; naive_solver.
Qed.

Lemma rule_moisture_Some m a :
  rule_moisture m = Some a ↔
    (a = ADV_LOW_MOISTURE ∧ (m < 0.2)%Q) ∨ (a = ADV_HIGH_MOISTURE ∧ (0.5 < m)%Q).
Proof.
  unfold rule_moisture.
  destruct (Qlt_bool m 0.2) eqn:E1; [|destruct (Qlt_bool 0.5 m) eqn:E2].
  - apply Qlt_bool_iff in E1. split; [naive_solver|].
    intros [[-> _]|[_ H]]; [done | lra].
  - apply Qlt_bool_iff in E2.
    assert (¬ (m < 0.2)%Q) by (rewrite <- Qlt_bool_iff; congruence). naive_solver.
  - assert (¬ (m < 0.2)%Q) by (rewrite <- Qlt_bool_iff; congruence).
    assert (¬ (0.5 < m)%Q) by (rewrite <- Qlt_bool_iff; congruence). naive_solver.
Qed.

Lemma rule_drought_Some weather_analysis a :
  rule_drought weather_analysis = Some a ↔
    a = ADV_DROUGHT ∧ truthy (dict_get_none weather_analysis "drought_risk") = true.
Proof. unfold rule_drought. case_match; naive_solver. Qed.

Lemma rule_flood_Some weather_analysis a :
  rule_flood weather_analysis = Some a ↔
    a = ADV_FLOOD ∧ truthy (dict_get_none weather_analysis "flood_risk") = true.
Proof. unfold rule_flood. case_match; naive_solver. Qed.

Lemma rule_temperature_Some weather_analysis t a :
  rule_temperature weather_analysis t = Some a ↔
    truthy (dict_get_none weather_analysis "temperature_stress") = true ∧
    ((a = ADV_HEAT ∧ (35 < t)%Q) ∨ (a = ADV_COLD ∧ (t < 10)%Q)).
Proof.
  unfold rule_temperature.
  destruct (truthy _); [|naive_solver].
  destruct (Qlt_bool 35 t) eqn:E1; [|destruct (Qlt_bool t 10) eqn:E2].
  - apply Qlt_bool_iff in E1. split; [naive_solver|].
    intros [_ [[-> _]|[_ H]]]; [done | lra].
  - apply Qlt_bool_iff in E2.
    assert (¬ (35 < t)%Q) by (rewrite <- Qlt_bool_iff; congruence). naive_solver.
  - assert (¬ (35 < t)%Q) by (rewrite <- Qlt_bool_iff; congruence).
    assert (¬ (t < 10)%Q) by (rewrite <- Qlt_bool_iff; congruence). naive_solver.
Qed.

Lemma rule_forecast_Some fc a :
  rule_forecast fc = Some a ↔
    (a = ADV_NO_RAIN ∧ (fc == 0)%Q) ∨ (a = ADV_HEAVY_RAIN ∧ (50 < fc)%Q).
Proof.
  unfold rule_forecast.
  destruct (Qeq_bool fc 0) eqn:E1; [|destruct (Qlt_bool 50 fc) eqn:E2].
  - apply Qeq_bool_iff in E1. split; [naive_solver|].
    intros [[-> _]|[_ H]]; [done | lra].
  - apply Qlt_bool_iff in E2.
    assert (¬ (fc == 0)%Q) by (rewrite <- Qeq_bool_iff; congruence). naive_solver.
  - assert (¬ (fc == 0)%Q) by (rewrite <- Qeq_bool_iff; congruence).
    assert (¬ (50 < fc)%Q) by (rewrite <- Qlt_bool_iff; congruence). naive_solver.
Qed.

Lemma rule_flowering_Some gs hs a :
  rule_flowering gs hs = Some a ↔
    a = ADV_FLOWERING ∧ gs = "Flowering" ∧ (hs = "Good" ∨ hs = "Excellent").
Proof.
  unfold rule_flowering, str_in. cbn [existsb].
  destruct (String.eqb_spec gs "Flowering"), (String.eqb_spec hs "Good"),
    (String.eqb_spec hs "Excellent"); cbn; naive_solver.
Qed.

Lemma rule_fungal_Some r t a :
  rule_fungal r t = Some a ↔
    a = ADV_FUNGAL ∧ (80 < r)%Q ∧ (20 < t)%Q ∧ (t < 30)%Q.
Proof.
  unfold rule_fungal.
  destruct (Qlt_bool 80 r) eqn:E1, (Qlt_bool 20 t) eqn:E2, (Qlt_bool t 30) eqn:E3;
    cbn; rewrite <- !Qlt_bool_iff, ?E1, ?E2, ?E3; naive_solver.
Qed.

(** An advisory is among those that fired exactly when one of the eight
    rules contributes it. *)
Lemma fired_membership weather_analysis gs hs m r fc t a :
  a ∈ fired_advisories weather_analysis gs hs m r fc t ↔
    rule_health hs = Some a ∨ rule_moisture m = Some a ∨
    rule_drought weather_analysis = Some a ∨ rule_flood weather_analysis = Some a ∨
    rule_temperature weather_analysis t = Some a ∨ rule_forecast fc = Some a ∨
    rule_flowering gs hs = Some a ∨ rule_fungal r t = Some a.
Proof.
  unfold fired_advisories, checklist. rewrite list_elem_of_omap.
  split.
  - intros (o & Ho & Eo). simpl in Eo. subst o.
    rewrite !elem_of_cons, elem_of_nil in Ho. naive_solver.
  - intros H. exists (Some a). split; [|done].
    rewrite !elem_of_cons. naive_solver.
Qed.

(** Two advisory texts that are written differently are different. *)
Ltac adv_neq :=
  match goal with
  | H : ?a = ?b |- _ => is_const a; is_const b; vm_compute in H; discriminate H
  end.

Ltac break_hyps :=
  repeat match goal with
  | H : _ ∨ _ |- _ => destruct H as [H|H]
  | H : _ ∧ _ |- _ => destruct H as [? ?]
  end.

(** An advisory is among those that fired exactly when its own rule holds. *)
Lemma fired_iff weather_analysis gs hs m r fc t a :
  a ∈ fired_advisories weather_analysis gs hs m r fc t ↔
    (a = ADV_INSPECT_FIELD ∧ (hs = "Poor" ∨ hs = "Critical")) ∨
    (a = ADV_MAINTAIN ∧ hs = "Excellent") ∨
    (a = ADV_LOW_MOISTURE ∧ (m < 0.2)%Q) ∨
    (a = ADV_HIGH_MOISTURE ∧ (0.5 < m)%Q) ∨
    (a = ADV_DROUGHT ∧ truthy (dict_get_none weather_analysis "drought_risk") = true) ∨
    (a = ADV_FLOOD ∧ truthy (dict_get_none weather_analysis "flood_risk") = true) ∨
    (a = ADV_HEAT ∧
       truthy (dict_get_none weather_analysis "temperature_stress") = true ∧ (35 < t)%Q) ∨
    (a = ADV_COLD ∧
       truthy (dict_get_none weather_analysis "temperature_stress") = true ∧ (t < 10)%Q) ∨
    (a = ADV_NO_RAIN ∧ (fc == 0)%Q) ∨
    (a = ADV_HEAVY_RAIN ∧ (50 < fc)%Q) ∨
    (a = ADV_FLOWERING ∧ gs = "Flowering" ∧ (hs = "Good" ∨ hs = "Excellent")) ∨
    (a = ADV_FUNGAL ∧ (80 < r)%Q ∧ (20 < t)%Q ∧ (t < 30)%Q).
Proof.
  rewrite fired_membership, rule_health_Some, rule_moisture_Some, rule_drought_Some,
    rule_flood_Some, rule_temperature_Some, rule_forecast_Some, rule_flowering_Some,
    rule_fungal_Some.
  tauto.
Qed.

(** Pick the disjunct of [fired_iff] that speaks of the advisory at hand. *)
Ltac pick_rule :=
  first [ left; split; [reflexivity | tauto]
        | right; pick_rule
        | split; [reflexivity | tauto] ].

Ltac fired_case :=
  rewrite fired_iff; split;
  [ let H := fresh "H" in intros H; break_hyps; first [adv_neq | tauto]
  | let H := fresh "H" in intros H; pick_rule ].

Lemma fired_membership_cases weather_analysis gs hs m r fc t :
  let fired := fired_advisories weather_analysis gs hs m r fc t in
  (ADV_INSPECT_FIELD ∈ fired ↔ hs = "Poor" ∨ hs = "Critical") ∧
  (ADV_MAINTAIN ∈ fired ↔ hs = "Excellent") ∧
  (ADV_LOW_MOISTURE ∈ fired ↔ (m < 0.2)%Q) ∧
  (ADV_HIGH_MOISTURE ∈ fired ↔ (0.5 < m)%Q) ∧
  (ADV_DROUGHT ∈ fired ↔
     truthy (dict_get_none weather_analysis "drought_risk") = true) ∧
  (ADV_FLOOD ∈ fired ↔ truthy (dict_get_none weather_analysis "flood_risk") = true) ∧
  (ADV_HEAT ∈ fired ↔
     truthy (dict_get_none weather_analysis "temperature_stress") = true ∧ (35 < t)%Q) ∧
  (ADV_COLD ∈ fired ↔
     truthy (dict_get_none weather_analysis "temperature_stress") = true ∧ (t < 10)%Q) ∧
  (ADV_NO_RAIN ∈ fired ↔ (fc == 0)%Q) ∧
  (ADV_HEAVY_RAIN ∈ fired ↔ (50 < fc)%Q) ∧
  (ADV_FLOWERING ∈ fired ↔ gs = "Flowering" ∧ (hs = "Good" ∨ hs = "Excellent")) ∧
  (ADV_FUNGAL ∈ fired ↔ (80 < r)%Q ∧ (20 < t)%Q ∧ (t < 30)%Q) ∧
  ADV_DEFAULT ∉ fired.
Proof.
  cbv zeta.
  repeat (split; [fired_case|]).
  rewrite fired_iff. intros H. break_hyps; adv_neq.
Qed.

(** A subsequence of a list that is written out, found greedily. *)
Ltac sublist_search :=
  repeat first [apply sublist_nil | apply sublist_skip | apply sublist_cons].

Lemma fired_sublist weather_analysis gs hs m r fc t :
  fired_advisories weather_analysis gs hs m r fc t `sublist_of`
    [ADV_INSPECT_FIELD; ADV_MAINTAIN; ADV_LOW_MOISTURE; ADV_HIGH_MOISTURE; ADV_DROUGHT;
     ADV_FLOOD; ADV_HEAT; ADV_COLD; ADV_NO_RAIN; ADV_HEAVY_RAIN; ADV_FLOWERING;
     ADV_FUNGAL].
Proof.
  unfold fired_advisories, checklist. rewrite !omap_id_cons.
  change [ADV_INSPECT_FIELD; ADV_MAINTAIN; ADV_LOW_MOISTURE; ADV_HIGH_MOISTURE;
          ADV_DROUGHT; ADV_FLOOD; ADV_HEAT; ADV_COLD; ADV_NO_RAIN; ADV_HEAVY_RAIN;
          ADV_FLOWERING; ADV_FUNGAL]
    with ([ADV_INSPECT_FIELD; ADV_MAINTAIN] ++ [ADV_LOW_MOISTURE; ADV_HIGH_MOISTURE] ++
          [ADV_DROUGHT] ++ [ADV_FLOOD] ++ [ADV_HEAT; ADV_COLD] ++
          [ADV_NO_RAIN; ADV_HEAVY_RAIN] ++ [ADV_FLOWERING] ++ [ADV_FUNGAL] ++ [])%list.
  repeat apply sublist_app;
    unfold rule_health, rule_moisture, rule_drought, rule_flood, rule_temperature,
      rule_forecast, rule_flowering, rule_fungal;
    repeat case_match; sublist_search.
Qed.

(** The list that is joined, against the advisories that fired. *)
Lemma final_list_membership (fired : list string) (a : string) :
  ADV_DEFAULT ∉ fired →
  (a ≠ ADV_DEFAULT → (a ∈ final_list fired ↔ a ∈ fired)) ∧
  (ADV_DEFAULT ∈ final_list fired ↔ fired = []) ∧
  (ADV_DEFAULT ∈ final_list fired → final_list fired = [ADV_DEFAULT]).
Proof.
  intros Hd. unfold final_list. destruct fired as [|x fired].
  - split; [|split].
    + intros Ha. rewrite list_elem_of_singleton, elem_of_nil. tauto.
    + split; [done|]. intros _. apply list_elem_of_here.
    + done.
  - split; [done|]. split; [|by intros ?]. split; [by intros ?|done].
Qed.

Lemma assess_overall_categories r :
  drought (assess_overall r) = drought r ∧ flood (assess_overall r) = flood r ∧
  disease (assess_overall r) = disease r ∧ heat_stress (assess_overall r) = heat_stress r.
Proof. unfold assess_overall. by repeat case_match. Qed.

(** What a call returns when the fields it reads are numbers. *)
Lemma analyze_exact now weather_data satellite_data crop_type planting_date area
    weather_analysis x tp m r r50 fc t :
  as_dict (dict_get weather_data "analysis" (VDict ∅)) = Ok weather_analysis →
  as_num (dict_get satellite_data "ndvi_mean" (VNum 0.5)) = Some x →
  selected_profile crop_type tp →
  reads_numbers (dict_get satellite_data "ndmi_mean" (VNum 0.3)) weather_analysis
    m r r50 fc t →
  analyze now weather_data satellite_data crop_type planting_date area =
    Ok (MkAssessment (first_cut tp x) (_calculate_growth_stage now planting_date)
          (join " | "
             (final_list
                (fired_advisories weather_analysis
                   (_calculate_growth_stage now planting_date) (first_cut tp x) m r fc t)))
          (assess_overall
             (Risks (drought_level weather_analysis m r50) (flood_level weather_analysis fc)
                (disease_level r t) (heat_level weather_analysis) "Low"))
          (MkMetrics
             (dict_get satellite_data "ndvi_mean" (VNum 0.5))
             (dict_get satellite_data "ndmi_mean" (VNum 0.3))
             (dict_get weather_analysis "total_rainfall_30d" (VNum 0))
             (dict_get weather_analysis "forecast_rain_7d" (VNum 0))
             (dict_get weather_analysis "avg_temperature" (VNum 25)))).
Proof.
  intros Ewa Hx Htp Hreads.
  destruct (assess_crop_health_num crop_type (_calculate_growth_stage now planting_date)
              _ x Hx) as (tp' & Htp' & Eh).
  rewrite (selected_profile_unique _ _ _ Htp' Htp) in Eh.
  unfold analyze. rewrite Ewa, bind_Ok. cbv zeta. rewrite Eh, bind_Ok.
  unfold _generate_recommendations.
  rewrite (recommendation_list_fired _ _ _ _ _ _ _ _ _ _ _ Hreads).
  cbn [fmap result_fmap]. rewrite bind_Ok.
  by rewrite (assess_risks_levels _ _ _ _ _ _ _ _ Hreads), bind_Ok.
Qed.

(** The reads of a well-typed call of the engine. *)
Lemma analyze_reads weather_data satellite_data crop_type :
  well_typed_weather weather_data → well_typed_satellite satellite_data →
  ∃ weather_analysis x tp m r r50 fc t,
    as_dict (dict_get weather_data "analysis" (VDict ∅)) = Ok weather_analysis ∧
    as_num (dict_get satellite_data "ndvi_mean" (VNum 0.5)) = Some x ∧
    selected_profile crop_type tp ∧
    reads_numbers (dict_get satellite_data "ndmi_mean" (VNum 0.3)) weather_analysis
      m r r50 fc t.
Proof.
  intros Hwd [Hndvi Hndmi].
  destruct (weather_analysis_ok weather_data Hwd) as (wa & Ewa & Hwa).
  destruct (dict_get_numeric satellite_data "ndvi_mean" (VNum 0.5) Hndvi
              (is_Some_as_num_VNum _)) as [x Hx].
  pose proof (dict_get_numeric satellite_data "ndmi_mean" (VNum 0.3) Hndmi
                (is_Some_as_num_VNum _)) as Hm.
  destruct (reads_numbers_ok _ wa Hm Hwa) as (m & r & r50 & fc & t & Hreads).
  destruct (assess_crop_health_num crop_type "" _ x Hx) as (tp & Htp & _).
  by exists wa, x, tp, m, r, r50, fc, t.
Qed.

(** The texts of a final list carry no vertical bar, so the renderer's split
    gives the list back. *)
Lemma rec_list_join_fired weather_analysis gs hs m r fc t :
  let l := final_list (fired_advisories weather_analysis gs hs m r fc t) in
  rec_list (join " | " l) = l.
Proof.
  cbv zeta. unfold rec_list, final_list. apply split_join.
  - by destruct (fired_advisories _ _ _ _ _ _ _).
  - eapply Forall_advisories; [apply advisories_no_pipe|].
    assert (Forall (λ a, a ∈ ADVISORIES)
              (fired_advisories weather_analysis gs hs m r fc t)) as Hf.
    { apply Forall_forall. intros a Ha.
      eapply elem_of_sublist; [exact Ha|].
      etrans; [apply fired_sublist|].
      unfold ADVISORIES. sublist_search. }
    destruct (fired_advisories _ _ _ _ _ _ _); [|done].
    constructor; [list_member | constructor].
Qed.

(** X1: for every well-typed input the recommendation list follows the
    order of the checklist, repeats no advisory and has at most eight
    entries; the inspect-field and maintain advisories never appear
    together, nor the low- and high-moisture ones, nor heat and cold, nor
    no-rain and heavy-rain; and the default advisory only appears alone. *)
Theorem recommendations_checklist_order
    ndvi ndmi weather_analysis crop_type growth_stage health_status :
  is_Some (as_num ndmi) → well_typed_analysis weather_analysis →
  ∃ l,
    recommendation_list ndvi ndmi weather_analysis crop_type growth_stage health_status
      = Ok l ∧
    l `sublist_of` ADVISORIES ∧ NoDup l ∧ (length l <= 8)%nat ∧
    ¬ (ADV_INSPECT_FIELD ∈ l ∧ ADV_MAINTAIN ∈ l) ∧
    ¬ (ADV_LOW_MOISTURE ∈ l ∧ ADV_HIGH_MOISTURE ∈ l) ∧
    ¬ (ADV_HEAT ∈ l ∧ ADV_COLD ∈ l) ∧
    ¬ (ADV_NO_RAIN ∈ l ∧ ADV_HEAVY_RAIN ∈ l) ∧
    (ADV_DEFAULT ∈ l → l = [ADV_DEFAULT]).
Proof.
  intros Hndmi Hwa.
  destruct (reads_numbers_ok ndmi weather_analysis Hndmi Hwa)
    as (m & r & r50 & fc & t & Hreads).
  eexists. split; [by apply (recommendation_list_fired _ _ _ _ _ _ _ _ _ _ _ Hreads)|].
  pose proof (fired_sublist weather_analysis growth_stage health_status m r fc t) as Hsub.
  pose proof (fired_membership_cases weather_analysis growth_stage health_status m r fc t)
    as (Hi & Hma & Hlo & Hhi & _ & _ & Hheat & Hcold & Hnr & Hhr & _ & _ & Hdef).
  cbv zeta in *.
  set (fired := fired_advisories weather_analysis growth_stage health_status m r fc t) in *.
  assert (final_list fired `sublist_of` ADVISORIES) as Hl.
  { unfold final_list. destruct fired; [unfold ADVISORIES; sublist_search|].
    etrans; [exact Hsub|]. unfold ADVISORIES. sublist_search. }
  assert (∀ a, a ≠ ADV_DEFAULT → a ∈ final_list fired → a ∈ fired) as Hin.
  { intros a Ha. by apply (final_list_membership fired a Hdef). }
  split; [exact Hl|].
  split; [by eapply sublist_NoDup; [apply advisories_NoDup|]|].
  split.
  { unfold final_list. destruct fired eqn:E; [simpl; lia|]. rewrite <- E.
    etrans; [apply omap_id_length_le|]. reflexivity. }
  split.
  { intros [H1 H2]. apply Hin in H1; [|by intros E; adv_neq].
    apply Hin in H2; [|by intros E; adv_neq].
    apply Hi in H1. apply Hma in H2. destruct H1; congruence. }
  split.
  { intros [H1 H2]. apply Hin in H1; [|by intros E; adv_neq].
    apply Hin in H2; [|by intros E; adv_neq].
    apply Hlo in H1. apply Hhi in H2. lra. }
  split.
  { intros [H1 H2]. apply Hin in H1; [|by intros E; adv_neq].
    apply Hin in H2; [|by intros E; adv_neq].
    apply Hheat in H1. apply Hcold in H2. lra. }
  split.
  { intros [H1 H2]. apply Hin in H1; [|by intros E; adv_neq].
    apply Hin in H2; [|by intros E; adv_neq].
    apply Hnr in H1. apply Hhr in H2. lra. }
  apply (final_list_membership fired ADV_DEFAULT Hdef).
Qed.

Lemma recommendations_checklist_order_witness :
  ∃ l,
    recommendation_list (VNum 0.15) (VNum 0.1) dry_analysis "rice" "Unknown" "Critical"
      = Ok l ∧
    l `sublist_of` ADVISORIES ∧ NoDup l ∧ (length l <= 8)%nat ∧
    ¬ (ADV_INSPECT_FIELD ∈ l ∧ ADV_MAINTAIN ∈ l) ∧
    ¬ (ADV_LOW_MOISTURE ∈ l ∧ ADV_HIGH_MOISTURE ∈ l) ∧
    ¬ (ADV_HEAT ∈ l ∧ ADV_COLD ∈ l) ∧
    ¬ (ADV_NO_RAIN ∈ l ∧ ADV_HEAVY_RAIN ∈ l) ∧
    (ADV_DEFAULT ∈ l → l = [ADV_DEFAULT]).
Proof.
  apply (recommendations_checklist_order (VNum 0.15) (VNum 0.1) dry_analysis
           "rice" "Unknown" "Critical").
  - by eexists.
  - solve_well_typed_analysis.
Defined.

(** X2: when the fields read are numbers, each advisory is in the
    recommendation list exactly when its own rule holds: inspect-field for
    Poor or Critical health, maintain for Excellent, low moisture below 0.2,
    high moisture above 0.5, drought and flood with their flags, heat and
    cold with the temperature flag above 35 and below 10 degrees, no-rain
    for a forecast of 0, heavy-rain above 50 mm, flowering for the Flowering
    stage in Good or Excellent health, fungal above 80 mm of rain between 20
    and 30 degrees; and the default advisory exactly when none of the
    twelve is in the list, in which case it is the whole list. *)
Theorem advisory_fires_exactly_when
    ndvi ndmi weather_analysis crop_type growth_stage health_status m r r50 fc t :
  reads_numbers ndmi weather_analysis m r r50 fc t →
  ∃ l,
    recommendation_list ndvi ndmi weather_analysis crop_type growth_stage health_status
      = Ok l ∧
    (ADV_INSPECT_FIELD ∈ l ↔ health_status = "Poor" ∨ health_status = "Critical") ∧
    (ADV_MAINTAIN ∈ l ↔ health_status = "Excellent") ∧
    (ADV_LOW_MOISTURE ∈ l ↔ (m < 0.2)%Q) ∧
    (ADV_HIGH_MOISTURE ∈ l ↔ (0.5 < m)%Q) ∧
    (ADV_DROUGHT ∈ l ↔ truthy (dict_get_none weather_analysis "drought_risk") = true) ∧
    (ADV_FLOOD ∈ l ↔ truthy (dict_get_none weather_analysis "flood_risk") = true) ∧
    (ADV_HEAT ∈ l ↔
       truthy (dict_get_none weather_analysis "temperature_stress") = true ∧ (35 < t)%Q) ∧
    (ADV_COLD ∈ l ↔
       truthy (dict_get_none weather_analysis "temperature_stress") = true ∧ (t < 10)%Q) ∧
    (ADV_NO_RAIN ∈ l ↔ (fc == 0)%Q) ∧
    (ADV_HEAVY_RAIN ∈ l ↔ (50 < fc)%Q) ∧
    (ADV_FLOWERING ∈ l ↔
       growth_stage = "Flowering" ∧ (health_status = "Good" ∨ health_status = "Excellent")) ∧
    (ADV_FUNGAL ∈ l ↔ (80 < r)%Q ∧ (20 < t)%Q ∧ (t < 30)%Q) ∧
    (ADV_DEFAULT ∈ l ↔ l = [ADV_DEFAULT]) ∧
    (ADV_DEFAULT ∈ l ↔ ∀ a, a ∈ ADVISORIES → a ≠ ADV_DEFAULT → a ∉ l) ∧
    (ADV_DEFAULT ∈ l ↔
       ¬ (health_status = "Poor" ∨ health_status = "Critical" ∨
          health_status = "Excellent" ∨ (m < 0.2)%Q ∨ (0.5 < m)%Q ∨
          truthy (dict_get_none weather_analysis "drought_risk") = true ∨
          truthy (dict_get_none weather_analysis "flood_risk") = true ∨
          (truthy (dict_get_none weather_analysis "temperature_stress") = true ∧
           ((35 < t)%Q ∨ (t < 10)%Q)) ∨
          (fc == 0)%Q ∨ (50 < fc)%Q ∨
          (growth_stage = "Flowering" ∧
           (health_status = "Good" ∨ health_status = "Excellent")) ∨
          ((80 < r)%Q ∧ (20 < t)%Q ∧ (t < 30)%Q))).
Proof.
  intros Hreads.
  eexists. split; [by apply (recommendation_list_fired _ _ _ _ _ _ _ _ _ _ _ Hreads)|].
  pose proof (fired_membership_cases weather_analysis growth_stage health_status m r fc t)
    as H.
  cbv zeta in H.
  pose proof (fired_sublist weather_analysis growth_stage health_status m r fc t) as Hsub.
  pose proof (fired_iff weather_analysis growth_stage health_status m r fc t) as Hiff.
  set (fired := fired_advisories weather_analysis growth_stage health_status m r fc t) in *.
  destruct H as (H1 & H2 & H3 & H4 & H5 & H6 & H7 & H8 & H9 & H10 & H11 & H12 & Hdef).
  assert (∀ a, a ≠ ADV_DEFAULT → (a ∈ final_list fired ↔ a ∈ fired)) as Hin.
  { intros a Ha. by apply (final_list_membership fired a Hdef). }
  destruct (final_list_membership fired ADV_DEFAULT Hdef) as (_ & Hnil & Hall).
  assert (ADV_DEFAULT ∈ final_list fired ↔
          ∀ a, a ∈ ADVISORIES → a ≠ ADV_DEFAULT → a ∉ final_list fired) as Hnone.
  { rewrite Hnil. split.
    - intros E a _ Ha. rewrite (Hin a Ha), E. apply not_elem_of_nil.
    - intros Hno. destruct fired as [|x fired'] eqn:Ef; [done|]. exfalso.
      assert (x ∈ x :: fired') as Hx by apply list_elem_of_here.
      assert (x ≠ ADV_DEFAULT) as Hxd by (intros ->; by apply Hdef).
      apply (Hno x); [|exact Hxd|by apply Hin].
      eapply elem_of_sublist; [exact Hx|].
      etrans; [exact Hsub|]. unfold ADVISORIES. sublist_search. }
  assert (ADV_DEFAULT ∈ final_list fired ↔ ∀ a, a ∉ fired) as Hempty.
  { rewrite Hnil. split; [intros -> a; apply not_elem_of_nil|].
    intros Hno. destruct fired as [|x fired']; [done|].
    exfalso. apply (Hno x), list_elem_of_here. }
  rewrite !Hin by (intros E; adv_neq).
  repeat (split; [assumption|]).
  split; [split; [exact Hall | intros ->; apply list_elem_of_here]|].
  split; [exact Hnone|].
  rewrite Hempty. split.
  - intros Hno Hc.
    destruct Hc as [Hc|[Hc|[Hc|[Hc|[Hc|[Hc|[Hc|[Hc|[Hc|[Hc|[Hc|Hc]]]]]]]]]]].
    + apply (Hno ADV_INSPECT_FIELD), H1. tauto.
    + apply (Hno ADV_INSPECT_FIELD), H1. tauto.
    + by apply (Hno ADV_MAINTAIN), H2.
    + by apply (Hno ADV_LOW_MOISTURE), H3.
    + by apply (Hno ADV_HIGH_MOISTURE), H4.
    + by apply (Hno ADV_DROUGHT), H5.
    + by apply (Hno ADV_FLOOD), H6.
    + destruct Hc as [Hf [Ht|Ht]].
      * by apply (Hno ADV_HEAT), H7.
      * by apply (Hno ADV_COLD), H8.
    + by apply (Hno ADV_NO_RAIN), H9.
    + by apply (Hno ADV_HEAVY_RAIN), H10.
    + by apply (Hno ADV_FLOWERING), H11.
    + by apply (Hno ADV_FUNGAL), H12.
  - intros Hno a Ha. apply Hno. apply Hiff in Ha. tauto.
Qed.

Lemma advisory_fires_exactly_when_witness :
  ∃ l,
    recommendation_list (VNum 0.15) (VNum 0.1) dry_analysis "rice" "Unknown" "Critical"
      = Ok l ∧
    (ADV_INSPECT_FIELD ∈ l ↔ "Critical" = "Poor" ∨ "Critical" = "Critical") ∧
    (ADV_MAINTAIN ∈ l ↔ "Critical" = "Excellent") ∧
    (ADV_LOW_MOISTURE ∈ l ↔ (0.1 < 0.2)%Q) ∧
    (ADV_HIGH_MOISTURE ∈ l ↔ (0.5 < 0.1)%Q) ∧
    (ADV_DROUGHT ∈ l ↔ truthy (dict_get_none dry_analysis "drought_risk") = true) ∧
    (ADV_FLOOD ∈ l ↔ truthy (dict_get_none dry_analysis "flood_risk") = true) ∧
    (ADV_HEAT ∈ l ↔
       truthy (dict_get_none dry_analysis "temperature_stress") = true ∧ (35 < 25)%Q) ∧
    (ADV_COLD ∈ l ↔
       truthy (dict_get_none dry_analysis "temperature_stress") = true ∧ (25 < 10)%Q) ∧
    (ADV_NO_RAIN ∈ l ↔ (0 == 0)%Q) ∧
    (ADV_HEAVY_RAIN ∈ l ↔ (50 < 0)%Q) ∧
    (ADV_FLOWERING ∈ l ↔
       "Unknown" = "Flowering" ∧ ("Critical" = "Good" ∨ "Critical" = "Excellent")) ∧
    (ADV_FUNGAL ∈ l ↔ (80 < 10)%Q ∧ (20 < 25)%Q ∧ (25 < 30)%Q) ∧
    (ADV_DEFAULT ∈ l ↔ l = [ADV_DEFAULT]) ∧
    (ADV_DEFAULT ∈ l ↔ ∀ a, a ∈ ADVISORIES → a ≠ ADV_DEFAULT → a ∉ l) ∧
    (ADV_DEFAULT ∈ l ↔
       ¬ ("Critical" = "Poor" ∨ "Critical" = "Critical" ∨
          "Critical" = "Excellent" ∨ (0.1 < 0.2)%Q ∨ (0.5 < 0.1)%Q ∨
          truthy (dict_get_none dry_analysis "drought_risk") = true ∨
          truthy (dict_get_none dry_analysis "flood_risk") = true ∨
          (truthy (dict_get_none dry_analysis "temperature_stress") = true ∧
           ((35 < 25)%Q ∨ (25 < 10)%Q)) ∨
          (0 == 0)%Q ∨ (50 < 0)%Q ∨
          ("Unknown" = "Flowering" ∧ ("Critical" = "Good" ∨ "Critical" = "Excellent")) ∨
          ((80 < 10)%Q ∧ (20 < 25)%Q ∧ (25 < 30)%Q))).
Proof.
  apply (advisory_fires_exactly_when (VNum 0.15) (VNum 0.1) dry_analysis
           "rice" "Unknown" "Critical" 0.1 10 10 0 25).
  repeat split; reflexivity.
Defined.

Lemma drought_level_High weather_analysis m r50 :
  drought_level weather_analysis m r50 = "High" ↔
    truthy (dict_get_none weather_analysis "drought_risk") = true ∨ (m < 0.2)%Q.
Proof.
  unfold drought_level. rewrite <- Qlt_bool_iff.
  destruct (truthy _), (Qlt_bool m 0.2), (Qlt_bool r50 30); cbn; naive_solver.
Qed.

Lemma flood_level_High weather_analysis fc :
  flood_level weather_analysis fc = "High" ↔
    truthy (dict_get_none weather_analysis "flood_risk") = true.
Proof. unfold flood_level. destruct (truthy _), (Qlt_bool 50 fc); naive_solver. Qed.

Lemma flood_level_not_Low weather_analysis fc :
  flood_level weather_analysis fc ≠ "Low" ↔
    truthy (dict_get_none weather_analysis "flood_risk") = true ∨ (50 < fc)%Q.
Proof.
  unfold flood_level. rewrite <- Qlt_bool_iff.
  destruct (truthy _), (Qlt_bool 50 fc); naive_solver.
Qed.

Lemma disease_level_High r t :
  disease_level r t = "High" ↔ (80 < r)%Q ∧ (20 < t)%Q ∧ (t < 30)%Q.
Proof.
  unfold disease_level. rewrite <- !Qlt_bool_iff.
  destruct (Qlt_bool 80 r), (Qlt_bool 20 t), (Qlt_bool t 30), (Qlt_bool 50 r);
    cbn; naive_solver.
Qed.

Lemma heat_level_High weather_analysis :
  heat_level weather_analysis = "High" ↔
    truthy (dict_get_none weather_analysis "temperature_stress") = true.
Proof. unfold heat_level. destruct (truthy _); naive_solver. Qed.

(** X3: in every assessment of a well-typed input the risk table and the
    recommendations, as the renderer splits them, tell the same story:
    drought is High exactly when the water-conservation or the low-moisture
    advisory is listed, flood is High exactly when the drainage-preparation
    advisory is listed and above Low exactly when that or the heavy-rain
    advisory is, disease is High exactly when the fungal advisory is listed,
    and a heat or cold advisory comes only with heat stress High. *)
Theorem risks_agree_with_recommendations
    now weather_data satellite_data crop_type planting_date area :
  well_typed_weather weather_data → well_typed_satellite satellite_data →
  ∃ a,
    analyze now weather_data satellite_data crop_type planting_date area = Ok a ∧
    (drought (risks a) = "High" ↔
       ADV_DROUGHT ∈ rec_list (recommendations a) ∨
       ADV_LOW_MOISTURE ∈ rec_list (recommendations a)) ∧
    (flood (risks a) = "High" ↔ ADV_FLOOD ∈ rec_list (recommendations a)) ∧
    (flood (risks a) ≠ "Low" ↔
       ADV_FLOOD ∈ rec_list (recommendations a) ∨
       ADV_HEAVY_RAIN ∈ rec_list (recommendations a)) ∧
    (disease (risks a) = "High" ↔ ADV_FUNGAL ∈ rec_list (recommendations a)) ∧
    (ADV_HEAT ∈ rec_list (recommendations a) ∨ ADV_COLD ∈ rec_list (recommendations a) →
     heat_stress (risks a) = "High").
Proof.
  intros Hwd Hsd.
  destruct (analyze_reads weather_data satellite_data crop_type Hwd Hsd)
    as (wa & x & tp & m & r & r50 & fc & t & Ewa & Hx & Htp & Hreads).
  eexists. split; [by apply (analyze_exact _ _ _ _ _ _ _ _ _ _ _ _ _ _ Ewa Hx Htp Hreads)|].
  cbn [risks recommendations].
  destruct (assess_overall_categories
              (Risks (drought_level wa m r50) (flood_level wa fc) (disease_level r t)
                 (heat_level wa) "Low")) as (-> & -> & -> & ->).
  cbn [drought flood disease heat_stress].
  pose proof (rec_list_join_fired wa (_calculate_growth_stage now planting_date)
                (first_cut tp x) m r fc t) as Hsplit.
  cbv zeta in Hsplit. rewrite Hsplit. clear Hsplit.
  pose proof (fired_membership_cases wa (_calculate_growth_stage now planting_date)
                (first_cut tp x) m r fc t) as H.
  cbv zeta in H.
  set (fired := fired_advisories wa (_calculate_growth_stage now planting_date)
                  (first_cut tp x) m r fc t) in *.
  destruct H as (_ & _ & Hlo & _ & Hdr & Hfl & Hheat & Hcold & _ & Hhr & _ & Hfu & Hdef).
  assert (∀ a, a ≠ ADV_DEFAULT → (a ∈ final_list fired ↔ a ∈ fired)) as Hin.
  { intros a Ha. by apply (final_list_membership fired a Hdef). }
  rewrite !Hin by (intros E; adv_neq).
  rewrite drought_level_High, flood_level_High, flood_level_not_Low, disease_level_High,
    heat_level_High.
  tauto.
Qed.

Lemma risks_agree_with_recommendations_witness :
  ∃ a,
    analyze (DateTime 738946 0) {["analysis" := VDict dry_analysis]} dry_satellite "rice"
      None 2 = Ok a ∧
    (drought (risks a) = "High" ↔
       ADV_DROUGHT ∈ rec_list (recommendations a) ∨
       ADV_LOW_MOISTURE ∈ rec_list (recommendations a)) ∧
    (flood (risks a) = "High" ↔ ADV_FLOOD ∈ rec_list (recommendations a)) ∧
    (flood (risks a) ≠ "Low" ↔
       ADV_FLOOD ∈ rec_list (recommendations a) ∨
       ADV_HEAVY_RAIN ∈ rec_list (recommendations a)) ∧
    (disease (risks a) = "High" ↔ ADV_FUNGAL ∈ rec_list (recommendations a)) ∧
    (ADV_HEAT ∈ rec_list (recommendations a) ∨ ADV_COLD ∈ rec_list (recommendations a) →
     heat_stress (risks a) = "High").
Proof.
  apply (risks_agree_with_recommendations (DateTime 738946 0)
           {["analysis" := VDict dry_analysis]} dry_satellite "rice" None 2).
  - intros v Hv. vm_compute in Hv. injection Hv as <-.
    exists dry_analysis. split; [reflexivity | solve_well_typed_analysis].
  - split; solve_numeric_or_absent.
Defined.

(** X4: a vegetation or moisture index that is present but null is never
    replaced by its default, and the call never returns. The ['analysis']
    entry of the weather summary is consulted first: when it is absent or a
    dict, whatever its fields hold, the call raises [TypeError] at the
    first comparison of the null index; when it is anything else the call
    raises [AttributeError] before the index is compared. Crop type,
    planting date and area make no difference. *)
Theorem analyze_null_index_raises
    now weather_data satellite_data crop_type planting_date area :
  satellite_data !! "ndvi_mean" = Some VNone ∨
  satellite_data !! "ndmi_mean" = Some VNone →
  (weather_data !! "analysis" = None ∨
   (∃ weather_analysis, weather_data !! "analysis" = Some (VDict weather_analysis)) →
   analyze now weather_data satellite_data crop_type planting_date area =
     Raise TypeError) ∧
  ((∃ v, weather_data !! "analysis" = Some v ∧ ∀ weather_analysis, v ≠ VDict weather_analysis) →
   analyze now weather_data satellite_data crop_type planting_date area =
     Raise AttributeError).
Proof.
  intros Hnull. split.
  - intros Hwd.
    assert (∃ wa, as_dict (dict_get weather_data "analysis" (VDict ∅)) = Ok wa)
      as [wa Ewa].
    { unfold dict_get. destruct Hwd as [->|[wa ->]]; eauto. }
    unfold analyze. rewrite Ewa, bind_Ok. cbv zeta.
    destruct (as_num (dict_get satellite_data "ndvi_mean" (VNum 0.5))) as [x|] eqn:Hx.
    + destruct Hnull as [Hnull|Hnull].
      { rewrite (dict_get_present _ _ _ _ Hnull) in Hx. discriminate Hx. }
      destruct (assess_crop_health_num crop_type
                  (_calculate_growth_stage now planting_date) _ x Hx) as (tp & _ & ->).
      rewrite bind_Ok, (dict_get_present _ _ _ _ Hnull).
      unfold _generate_recommendations, recommendation_list, advisory_rules.
      destruct (str_in (first_cut tp x) ["Poor"; "Critical"]),
        (first_cut tp x =? "Excellent")%string; reflexivity.
    + unfold _assess_crop_health. rewrite other_profile, bind_Ok.
      unfold py_ge. by rewrite Hx.
  - intros (v & Ev & Hv). unfold analyze, dict_get. rewrite Ev. cbn [default from_option id].
    destruct v; try reflexivity. by destruct (Hv d).
Qed.

Lemma analyze_null_index_raises_witness :
  (({["analysis" := VDict {["total_rainfall_30d" := VStr "n/a"]}]} : gmap string value)
     !! "analysis" = None ∨
   (∃ weather_analysis,
      ({["analysis" := VDict {["total_rainfall_30d" := VStr "n/a"]}]}
         : gmap string value) !! "analysis" = Some (VDict weather_analysis)) →
   analyze (DateTime 738946 0)
     {["analysis" := VDict {["total_rainfall_30d" := VStr "n/a"]}]}
     {["ndvi_mean" := VNum 0.6; "ndmi_mean" := VNone]} "corn" None 3 = Raise TypeError) ∧
  ((∃ v, ({["analysis" := VDict {["total_rainfall_30d" := VStr "n/a"]}]}
            : gmap string value) !! "analysis" = Some v ∧
         ∀ weather_analysis, v ≠ VDict weather_analysis) →
   analyze (DateTime 738946 0)
     {["analysis" := VDict {["total_rainfall_30d" := VStr "n/a"]}]}
     {["ndvi_mean" := VNum 0.6; "ndmi_mean" := VNone]} "corn" None 3 =
     Raise AttributeError).
Proof.
  apply (analyze_null_index_raises (DateTime 738946 0)
           {["analysis" := VDict {["total_rainfall_30d" := VStr "n/a"]}]}
           {["ndvi_mean" := VNum 0.6; "ndmi_mean" := VNone]} "corn" None 3).
  right. reflexivity.
Defined.

(** Two levels in order, case by case. *)
Ltac level_pair Ha Hb Hle :=
  destruct Ha as [->|[->|[->|[]]]], Hb as [->|[->|[->|[]]]];
  try (exfalso; vm_compute in Hle; lia); clear Hle.

(** X5: the aggregation is monotone: raising any of the four category
    levels never lowers the overall level. *)
Theorem overall_risk_monotone d f s h d' f' s' h' :
  d ∈ RISK_LEVELS → f ∈ RISK_LEVELS → s ∈ RISK_LEVELS → h ∈ RISK_LEVELS →
  d' ∈ RISK_LEVELS → f' ∈ RISK_LEVELS → s' ∈ RISK_LEVELS → h' ∈ RISK_LEVELS →
  (risk_rank d <= risk_rank d')%nat → (risk_rank f <= risk_rank f')%nat →
  (risk_rank s <= risk_rank s')%nat → (risk_rank h <= risk_rank h')%nat →
  (risk_rank (overall (assess_overall (Risks d f s h "Low"))) <=
   risk_rank (overall (assess_overall (Risks d' f' s' h' "Low"))))%nat.
Proof.
  unfold RISK_LEVELS. rewrite !elem_of_cons, !elem_of_nil.
  intros Hd Hf Hs Hh Hd' Hf' Hs' Hh' Ld Lf Ls Lh.
  level_pair Hd Hd' Ld; level_pair Hf Hf' Lf; level_pair Hs Hs' Ls; level_pair Hh Hh' Lh;
    apply Nat.leb_le; vm_compute; reflexivity.
Qed.

Lemma overall_risk_monotone_witness :
  (risk_rank (overall (assess_overall (Risks "Low" "Medium" "Low" "Low" "Low"))) <=
   risk_rank (overall (assess_overall (Risks "High" "Medium" "Medium" "Low" "Low"))))%nat.
Proof.
  apply (overall_risk_monotone "Low" "Medium" "Low" "Low" "High" "Medium" "Medium" "Low");
    try list_member; vm_compute; lia.
Defined.

(** ** The weather analysis *)

Lemma bind_Raise {A B} (e : exn) (f : A → result B) : (Raise e ≫= f) = Raise e.
Proof. reflexivity. Qed.

Lemma dict_item_insert d k v : dict_item (<[k := v]> d) k = Ok v.
Proof. unfold dict_item. by rewrite lookup_insert_eq. Qed.

Lemma sum_from_numbers l qs acc :
  numbers l = Some qs → sum_from acc l = Ok (fold_left Qplus qs acc).
Proof.
  unfold numbers. revert qs acc. induction l as [|v l IH]; intros qs acc H.
  - by injection H as <-.
  - rewrite mapM_Some in H. apply Forall2_cons_inv_l in H as (q & qs' & Hq & Hqs & ->).
    cbn [sum_from fold_left]. unfold py_add. rewrite Hq, bind_Ok.
    apply IH. by apply mapM_Some.
Qed.

Lemma sum_from_not_numbers l acc :
  numbers l = None → sum_from acc l = Raise TypeError.
Proof.
  unfold numbers. revert acc. induction l as [|v l IH]; intros acc H; [done|].
  cbn [sum_from]. unfold py_add.
  destruct (as_num v) as [q|] eqn:Hq; [|done].
  rewrite bind_Ok. apply IH.
  destruct (mapM as_num l) as [qs|] eqn:E; [|done].
  exfalso. cbn in H. rewrite Hq in H. cbn in H. rewrite E in H. done.
Qed.

Lemma py_sum_numbers l qs : numbers l = Some qs → py_sum l = Ok (total qs).
Proof. apply sum_from_numbers. Qed.

Lemma py_sum_not_numbers l : numbers l = None → py_sum l = Raise TypeError.
Proof. apply sum_from_not_numbers. Qed.

Lemma numbers_length l qs : numbers l = Some qs → length qs = length l.
Proof. unfold numbers. rewrite mapM_Some. intros H. symmetry. by eapply Forall2_length. Qed.

Lemma numbers_drop n l qs : numbers l = Some qs → numbers (drop n l) = Some (drop n qs).
Proof. unfold numbers. rewrite !mapM_Some. apply Forall2_drop. Qed.

Lemma numbers_take n l qs : numbers l = Some qs → numbers (take n l) = Some (take n qs).
Proof. unfold numbers. rewrite !mapM_Some. apply Forall2_take. Qed.

Lemma numbers_nonempty l qs : numbers l = Some qs → nonempty qs = nonempty l.
Proof. intros H. apply numbers_length in H. by destruct l, qs. Qed.


Lemma py_lt_VNum q k : py_lt (VNum q) k = Ok (Qlt_bool q k).
Proof. reflexivity. Qed.

Lemma py_gt_VNum q k : py_gt (VNum q) k = Ok (Qlt_bool k q).
Proof. reflexivity. Qed.

(** One step of evaluation of the running analysis. *)
Ltac analysis_norm :=
  repeat first
    [ rewrite bind_Ok
    | rewrite bind_Raise
    | rewrite dict_item_insert
    | rewrite py_lt_VNum
    | rewrite py_gt_VNum
    | progress cbv zeta ].

Lemma numbers_nil_inv qs : numbers [] = Some qs → qs = [].
Proof. intros H. by injection H as <-. Qed.

Lemma numbers_cons_inv v l qs :
  numbers (v :: l) = Some qs → ∃ q qs', qs = q :: qs'.
Proof.
  intros H. pose proof (numbers_length _ _ H) as Hlen.
  destruct qs as [|q qs']; [done|]. by exists q, qs'.
Qed.

(** A series that is consulted: absent, empty, or a list with a head. *)
Lemma series_cases (d : gmap string (list value)) k :
  (d !! k = None ∧ series_of d k = []) ∨
  (d !! k = Some [] ∧ series_of d k = []) ∨
  (∃ x l, d !! k = Some (x :: l) ∧ series_of d k = x :: l).
Proof.
  unfold series_of. destruct (d !! k) as [[|x l]|]; cbn; eauto 6.
Qed.

Ltac analysis_eval :=
  repeat (analysis_norm;
          try match goal with
              | |- context [if ?b then _ else _] => destruct b eqn:?
              end).

Ltac use_tests :=
  repeat match goal with
         | H : _ = true |- _ => rewrite H
         | H : _ = false |- _ => rewrite H
         end.

Lemma analyze_rainfall_cases historical :
  analyze_rainfall historical (analysis_of 0 0 "stable" 0 false false false) =
    match numbers (series_of historical "precipitation") with
    | Some P =>
        Ok (analysis_of (total P) 0 "stable" 0 false
              (nonempty P && Qlt_bool (total P) 20) false)
    | None => Raise TypeError
    end.
Proof.
  unfold analyze_rainfall.
  destruct (series_cases historical "precipitation")
    as [[-> ->]|[[-> ->]|(x & l & -> & ->)]]; [reflexivity..|].
  destruct (numbers (x :: l)) as [P|] eqn:HP;
    [|by rewrite (py_sum_not_numbers _ HP)].
  destruct (numbers_cons_inv _ _ _ HP) as (p & P' & ->).
  rewrite (py_sum_numbers _ _ HP). analysis_eval; cbn [nonempty]; use_tests; reflexivity.
Qed.

Lemma analyze_temperature_cases historical rain dr :
  analyze_temperature historical (analysis_of rain 0 "stable" 0 false dr false) =
    match numbers (List.filter is_not_none (series_of historical "temp_mean")) with
    | Some T =>
        Ok (analysis_of rain (mean T) "stable" 0
              (nonempty T && (Qlt_bool 35 (mean T) || Qlt_bool (mean T) 10)) dr false)
    | None => Raise TypeError
    end.
Proof.
  unfold analyze_temperature.
  destruct (series_cases historical "temp_mean")
    as [[-> ->]|[[-> ->]|(y & lt & -> & ->)]]; [reflexivity..|].
  cbv zeta.
  destruct (List.filter is_not_none (y :: lt)) as [|y' lt'] eqn:Ef; [reflexivity|].
  destruct (numbers (y' :: lt')) as [T|] eqn:HT;
    [|by rewrite (py_sum_not_numbers _ HT)].
  destruct (numbers_cons_inv _ _ _ HT) as (t & T' & ->).
  rewrite (py_sum_numbers _ _ HT), <- (numbers_length _ _ HT).
  analysis_eval; unfold mean; cbn [nonempty]; use_tests; reflexivity.
Qed.

Lemma analyze_forecast_cases forecast rain temp ts dr :
  analyze_forecast forecast (analysis_of rain temp "stable" 0 ts dr false) =
    match numbers (series_of forecast "precipitation") with
    | Some F =>
        Ok (analysis_of rain temp "stable" (total F) ts dr
              (nonempty F && Qlt_bool 100 (total F)))
    | None => Raise TypeError
    end.
Proof.
  unfold analyze_forecast.
  destruct (series_cases forecast "precipitation")
    as [[-> ->]|[[-> ->]|(x & l & -> & ->)]]; [reflexivity..|].
  destruct (numbers (x :: l)) as [F|] eqn:HF;
    [|by rewrite (py_sum_not_numbers _ HF)].
  destruct (numbers_cons_inv _ _ _ HF) as (f & F' & ->).
  rewrite (py_sum_numbers _ _ HF). analysis_eval; cbn [nonempty]; use_tests; reflexivity.
Qed.

Lemma analyze_trend_cases historical P rain temp fc ts dr fl :
  numbers (series_of historical "precipitation") = Some P →
  analyze_trend historical (analysis_of rain temp "stable" fc ts dr fl) =
    Ok (analysis_of rain temp (trend_of P) fc ts dr fl).
Proof.
  unfold analyze_trend. intros HP.
  destruct (series_cases historical "precipitation")
    as [[-> E]|[[-> E]|(x & l & -> & E)]]; rewrite E in HP.
  1,2: by apply numbers_nil_inv in HP as ->.
  rewrite (py_sum_numbers _ _ (numbers_drop _ _ _ HP)),
    (py_sum_numbers _ _ (numbers_take _ _ _ (numbers_drop _ _ _ HP))),
    <- !(numbers_length _ _ HP).
  unfold trend_of.
  analysis_eval; use_tests; reflexivity.
Qed.

(** The analysis is the summary of the three lists of numbers the series
    hold, nulls among the temperatures aside; a series that holds anything
    else makes the call raise [TypeError]. *)
Lemma analyze_weather_data_cases historical forecast :
  _analyze_weather_data historical forecast =
    match numbers (series_of historical "precipitation"),
          numbers (List.filter is_not_none (series_of historical "temp_mean")),
          numbers (series_of forecast "precipitation") with
    | Some P, Some T, Some F => Ok (summary P T F)
    | _, _, _ => Raise TypeError
    end.
Proof.
  unfold _analyze_weather_data.
  change (list_to_map _) with (analysis_of 0 0 "stable" 0 false false false).
  cbv zeta. rewrite analyze_rainfall_cases.
  destruct (numbers (series_of historical "precipitation")) as [P|] eqn:HP; [|done].
  rewrite bind_Ok, analyze_temperature_cases.
  destruct (numbers (List.filter is_not_none (series_of historical "temp_mean")))
    as [T|]; [|done].
  rewrite bind_Ok, analyze_forecast_cases.
  destruct (numbers (series_of forecast "precipitation")) as [F|]; [|done].
  rewrite bind_Ok. unfold summary. exact (analyze_trend_cases _ _ _ _ _ _ _ _ HP).
Qed.

(** ** Facts about an analysis given by its entries *)

Lemma analysis_of_reads ndmi m rain temp trend fc ts dr fl :
  as_num ndmi = Some m →
  reads_numbers ndmi (analysis_of rain temp trend fc ts dr fl) m rain rain fc temp.
Proof. intros Hm. by repeat split. Qed.

Lemma analysis_of_flags rain temp trend fc ts dr fl :
  truthy (dict_get_none (analysis_of rain temp trend fc ts dr fl) "temperature_stress") = ts ∧
  truthy (dict_get_none (analysis_of rain temp trend fc ts dr fl) "drought_risk") = dr ∧
  truthy (dict_get_none (analysis_of rain temp trend fc ts dr fl) "flood_risk") = fl.
Proof. by repeat split. Qed.

Lemma well_typed_analysis_of rain temp trend fc ts dr fl :
  well_typed_analysis (analysis_of rain temp trend fc ts dr fl).
Proof.
  repeat split; intros v Hv; vm_compute in Hv; injection Hv as <-; by eexists.
Qed.

Lemma well_typed_fallback_analysis : well_typed_analysis fallback_analysis.
Proof. apply (well_typed_analysis_of 0 25 "unknown" 0 false false false). Qed.

(** ** Which series make the analysis raise *)

Lemma numbers_None l : numbers l = None ↔ ∃ v, v ∈ l ∧ as_num v = None.
Proof.
  unfold numbers. induction l as [|v l IH].
  - split; [done|]. intros (v & Hv & _). by apply elem_of_nil in Hv.
  - cbn. destruct (as_num v) as [q|] eqn:Hq; cbn.
    + destruct (mapM as_num l) as [qs|]; cbn.
      * split; [done|]. intros (w & Hw & Hn). apply elem_of_cons in Hw as [->|Hw].
        { congruence. }
        { assert (None = Some qs → False) by done.
          exfalso. apply H. symmetry. apply IH. eauto. }
      * split; [|done]. intros _. destruct IH as [IH _].
        destruct (IH eq_refl) as (w & Hw & Hn). exists w. split; [by right|done].
    + split; [|done]. intros _. exists v. split; [by left|done].
Qed.

Lemma filter_not_none_elem v l :
  v ∈ List.filter is_not_none l ↔ v ∈ l ∧ v ≠ VNone.
Proof.
  rewrite !list_elem_of_In, filter_In. destruct v; cbn; naive_solver.
Qed.

Lemma bad_series_numbers historical forecast :
  bad_series historical forecast ↔
    numbers (series_of historical "precipitation") = None ∨
    numbers (List.filter is_not_none (series_of historical "temp_mean")) = None ∨
    numbers (series_of forecast "precipitation") = None.
Proof.
  unfold bad_series. rewrite !numbers_None.
  setoid_rewrite filter_not_none_elem. naive_solver.
Qed.

Lemma weather_analysis_entry_Ok historical forecast analysis :
  _analyze_weather_data historical forecast = Ok analysis →
  weather_analysis_entry historical forecast = analysis.
Proof. unfold weather_analysis_entry. by intros ->. Qed.

Lemma weather_analysis_entry_Raise historical forecast e :
  _analyze_weather_data historical forecast = Raise e →
  weather_analysis_entry historical forecast = fallback_analysis.
Proof. unfold weather_analysis_entry. by intros ->. Qed.

(** What the service hands to the engine: a summary or the fallback. *)
Lemma weather_analysis_entry_cases historical forecast :
  (∃ P T F, weather_analysis_entry historical forecast = summary P T F) ∨
  weather_analysis_entry historical forecast = fallback_analysis.
Proof.
  unfold weather_analysis_entry. rewrite analyze_weather_data_cases.
  destruct (numbers (series_of historical "precipitation")) as [P|]; [|by right].
  destruct (numbers (List.filter is_not_none (series_of historical "temp_mean")))
    as [T|]; [|by right].
  destruct (numbers (series_of forecast "precipitation")) as [F|]; [|by right].
  left. by exists P, T, F.
Qed.

Lemma well_typed_weather_entry weather_data weather_analysis :
  weather_data !! "analysis" = Some (VDict weather_analysis) →
  well_typed_analysis weather_analysis → well_typed_weather weather_data.
Proof.
  intros E H v Hv. rewrite E in Hv. injection Hv as <-. by exists weather_analysis.
Qed.

(** X6: whatever the two fetched series hold, the analysis entry the
    weather service returns is one the engine accepts: with a well-typed
    satellite summary the engine returns an assessment, and the three
    weather metrics it reports are numbers. *)
Theorem engine_accepts_weather_service
    now historical forecast weather_data satellite_data crop_type planting_date area :
  weather_data !! "analysis" =
    Some (VDict (weather_analysis_entry historical forecast)) →
  well_typed_satellite satellite_data →
  ∃ a r fc t,
    analyze now weather_data satellite_data crop_type planting_date area = Ok a ∧
    m_rainfall_30d (metrics a) = VNum r ∧
    m_forecast_rain_7d (metrics a) = VNum fc ∧
    m_avg_temperature (metrics a) = VNum t.
Proof.
  intros Ewd Hsd.
  assert (∃ r t tr fc ts dr fl,
            weather_analysis_entry historical forecast =
              analysis_of r t tr fc ts dr fl) as (r & t & tr & fc & ts & dr & fl & E).
  { destruct (weather_analysis_entry_cases historical forecast) as [(P & T & F & ->)| ->].
    - unfold summary. by eexists _, _, _, _, _, _, _.
    - by exists 0%Q, 25%Q, "unknown", 0%Q, false, false, false. }
  rewrite E in Ewd.
  pose proof (well_typed_weather_entry _ _ Ewd
                (well_typed_analysis_of r t tr fc ts dr fl)) as Hwd.
  destruct (analyze_shape now weather_data satellite_data crop_type planting_date area
              Hwd Hsd) as (wa & x & tp & l & d & f & s & h & Ewa & _ & _ & _ & Ea).
  unfold dict_get in Ewa. rewrite Ewd in Ewa. injection Ewa as <-.
  eexists _, r, fc, t. split; [exact Ea|]. by repeat split.
Qed.

Lemma engine_accepts_weather_service_witness :
  ∃ a r fc t,
    analyze (DateTime 738946 0)
      {["analysis" :=
          VDict (weather_analysis_entry
                   {["precipitation" := [VNum 3; VNone; VNum 12]]}
                   {["precipitation" := [VNum 0; VNum 4]]})]}
      {["ndvi_mean" := VNum 0.62]} "corn" None 3 = Ok a ∧
    m_rainfall_30d (metrics a) = VNum r ∧
    m_forecast_rain_7d (metrics a) = VNum fc ∧
    m_avg_temperature (metrics a) = VNum t.
Proof.
  apply (engine_accepts_weather_service (DateTime 738946 0)
           {["precipitation" := [VNum 3; VNone; VNum 12]]}
           {["precipitation" := [VNum 0; VNum 4]]}).
  - reflexivity.
  - split; solve_numeric_or_absent.
Defined.

(** X7: when a consulted series holds a reading the sum cannot take (a
    precipitation reading, historical or forecast, that is no number, null
    included, or a daily mean temperature that is neither null nor a
    number), the analysis raises, and the service hands over the fallback
    analysis in place of every figure. *)
Theorem bad_reading_falls_back (historical forecast : gmap string (list value)) :
  bad_series historical forecast →
  (∃ e, _analyze_weather_data historical forecast = Raise e) ∧
  weather_analysis_entry historical forecast = fallback_analysis.
Proof.
  intros Hbad. apply bad_series_numbers in Hbad.
  assert (_analyze_weather_data historical forecast = Raise TypeError) as E.
  { rewrite analyze_weather_data_cases.
    destruct (numbers (series_of historical "precipitation")) as [P|];
      destruct (numbers (List.filter is_not_none (series_of historical "temp_mean")))
        as [T|];
      destruct (numbers (series_of forecast "precipitation")) as [F|];
      try reflexivity.
    by destruct Hbad as [?|[?|?]]. }
  split; [by exists TypeError|]. by eapply weather_analysis_entry_Raise.
Qed.

(** A null among the precipitation readings of the trailing month. *)
Lemma bad_reading_falls_back_witness :
  (∃ e, _analyze_weather_data
          {["precipitation" := [VNum 3; VNone; VNum 12]; "temp_mean" := [VNum 21]]}
          {["precipitation" := [VNum 0; VNum 4]]} = Raise e) ∧
  weather_analysis_entry
    {["precipitation" := [VNum 3; VNone; VNum 12]; "temp_mean" := [VNum 21]]}
    {["precipitation" := [VNum 0; VNum 4]]} = fallback_analysis.
Proof.
  apply (bad_reading_falls_back
           {["precipitation" := [VNum 3; VNone; VNum 12]; "temp_mean" := [VNum 21]]}
           {["precipitation" := [VNum 0; VNum 4]]}).
  left. exists VNone. split; [|reflexivity].
  vm_compute. list_member.
Defined.

(** X8: nulls among the daily mean temperatures are skipped: the analysis
    of a series is the analysis of the series without its nulls. *)
Theorem null_temperatures_skipped
    (historical forecast : gmap string (list value)) (temps : list value) :
  _analyze_weather_data (<["temp_mean" := temps]> historical) forecast =
  _analyze_weather_data
    (<["temp_mean" := List.filter is_not_none temps]> historical) forecast.
Proof.
  rewrite !analyze_weather_data_cases. unfold series_of.
  rewrite !lookup_insert_eq, !lookup_insert_ne by done. cbn [default from_option id].
  assert (List.filter is_not_none (List.filter is_not_none temps) =
          List.filter is_not_none temps) as ->; [|done].
  induction temps as [|v l IH]; [done|].
  cbn [List.filter]. destruct (is_not_none v) eqn:E; [|done].
  cbn [List.filter]. by rewrite E, IH.
Qed.

(** ** The flags the service sets, as the engine sees them *)

Lemma analyze_weather_data_summary historical forecast analysis :
  _analyze_weather_data historical forecast = Ok analysis →
  ∃ P T F,
    numbers (series_of historical "precipitation") = Some P ∧
    numbers (List.filter is_not_none (series_of historical "temp_mean")) = Some T ∧
    numbers (series_of forecast "precipitation") = Some F ∧
    analysis = summary P T F.
Proof.
  rewrite analyze_weather_data_cases.
  destruct (numbers (series_of historical "precipitation")) as [P|]; [|done].
  destruct (numbers (List.filter is_not_none (series_of historical "temp_mean")))
    as [T|]; [|done].
  destruct (numbers (series_of forecast "precipitation")) as [F|]; [|done].
  intros E. injection E as <-. by exists P, T, F.
Qed.

Lemma Qlt_bool_false x y : Qlt_bool x y = false ↔ (y <= x)%Q.
Proof.
  unfold Qlt_bool. rewrite negb_false_iff. apply Qle_bool_iff.
Qed.

(** X9: when the analysis comes from the weather service, its flags and
    figures are consistent, and the assessment shows it: heat stress is
    High exactly when the heat or the cold advisory is listed; the
    drainage-preparation advisory comes with the heavy-rain advisory and
    flood High; the water-conservation advisory comes with drought High,
    disease Low and no fungal advisory; and the no-rain advisory comes with
    flood Low. *)
Theorem service_flags_in_assessment
    now historical forecast analysis weather_data satellite_data crop_type
    planting_date area :
  _analyze_weather_data historical forecast = Ok analysis →
  weather_data !! "analysis" = Some (VDict analysis) →
  well_typed_satellite satellite_data →
  ∃ a,
    analyze now weather_data satellite_data crop_type planting_date area = Ok a ∧
    (heat_stress (risks a) = "High" ↔
       ADV_HEAT ∈ rec_list (recommendations a) ∨
       ADV_COLD ∈ rec_list (recommendations a)) ∧
    (ADV_FLOOD ∈ rec_list (recommendations a) →
       ADV_HEAVY_RAIN ∈ rec_list (recommendations a) ∧ flood (risks a) = "High") ∧
    (ADV_DROUGHT ∈ rec_list (recommendations a) →
       drought (risks a) = "High" ∧ disease (risks a) = "Low" ∧
       ADV_FUNGAL ∉ rec_list (recommendations a)) ∧
    (ADV_NO_RAIN ∈ rec_list (recommendations a) → flood (risks a) = "Low").
Proof.
  intros Ea Ewd [Hndvi Hndmi].
  destruct (analyze_weather_data_summary _ _ _ Ea) as (P & T & F & _ & _ & _ & ->).
  destruct (dict_get_numeric satellite_data "ndvi_mean" (VNum 0.5) Hndvi
              (is_Some_as_num_VNum _)) as [x Hx].
  destruct (dict_get_numeric satellite_data "ndmi_mean" (VNum 0.3) Hndmi
              (is_Some_as_num_VNum _)) as [m Hm].
  destruct (assess_crop_health_num crop_type "" _ x Hx) as (tp & Htp & _).
  unfold summary in *.
  set (ts := nonempty T && (Qlt_bool 35 (mean T) || Qlt_bool (mean T) 10)) in *.
  set (dr := nonempty P && Qlt_bool (total P) 20) in *.
  set (fl := nonempty F && Qlt_bool 100 (total F)) in *.
  set (wa := analysis_of (total P) (mean T) (trend_of P) (total F) ts dr fl) in *.
  assert (as_dict (dict_get weather_data "analysis" (VDict ∅)) = Ok wa) as Ewa.
  { unfold dict_get. by rewrite Ewd. }
  pose proof (analysis_of_reads _ m (total P) (mean T) (trend_of P) (total F) ts dr fl Hm)
    as Hreads.
  fold wa in Hreads.
  eexists. split; [by apply (analyze_exact _ _ _ _ _ _ _ _ _ _ _ _ _ _ Ewa Hx Htp Hreads)|].
  cbn [risks recommendations].
  destruct (assess_overall_categories
              (Risks (drought_level wa m (total P)) (flood_level wa (total F))
                 (disease_level (total P) (mean T)) (heat_level wa) "Low"))
    as (-> & -> & -> & ->).
  cbn [drought flood disease heat_stress].
  pose proof (rec_list_join_fired wa (_calculate_growth_stage now planting_date)
                (first_cut tp x) m (total P) (total F) (mean T)) as Hsplit.
  cbv zeta in Hsplit. rewrite Hsplit. clear Hsplit.
  pose proof (fired_membership_cases wa (_calculate_growth_stage now planting_date)
                (first_cut tp x) m (total P) (total F) (mean T)) as H.
  cbv zeta in H.
  set (fired := fired_advisories wa (_calculate_growth_stage now planting_date)
                  (first_cut tp x) m (total P) (total F) (mean T)) in *.
  destruct H as (_ & _ & _ & _ & Hdr & Hfl & Hheat & Hcold & Hnr & Hhr & _ & Hfu & Hdef).
  assert (∀ a, a ≠ ADV_DEFAULT → (a ∈ final_list fired ↔ a ∈ fired)) as Hin.
  { intros a Ha. by apply (final_list_membership fired a Hdef). }
  rewrite !Hin by (intros E; adv_neq).
  rewrite Hdr, Hfl, Hheat, Hcold, Hnr, Hhr, Hfu.
  rewrite drought_level_High, heat_level_High.
  unfold flood_level, disease_level.
  destruct (analysis_of_flags (total P) (mean T) (trend_of P) (total F) ts dr fl)
    as (Ets & Edr & Efl).
  fold wa in Ets, Edr, Efl. rewrite Ets, Edr, Efl. clear Ets Edr Efl.
  assert (ts = true → (35 < mean T)%Q ∨ (mean T < 10)%Q) as Hts.
  { unfold ts. rewrite andb_true_iff, orb_true_iff, !Qlt_bool_iff. tauto. }
  assert (dr = true → (total P < 20)%Q) as Hdr'.
  { unfold dr. rewrite andb_true_iff, Qlt_bool_iff. tauto. }
  assert (fl = true → (100 < total F)%Q) as Hfl'.
  { unfold fl. rewrite andb_true_iff, Qlt_bool_iff. tauto. }
  assert (fl = true → Qlt_bool 50 (total F) = true) as Hfl50.
  { intros Hf. apply Qlt_bool_iff. specialize (Hfl' Hf). lra. }
  split; [|split; [|split]].
  - split; [intros Hs; destruct (Hts Hs); tauto | tauto].
  - intros Hf. rewrite Hf. split; [|done]. specialize (Hfl' Hf). lra.
  - intros Hd. specialize (Hdr' Hd). split; [by left|].
    assert (Qlt_bool 80 (total P) = false) as -> by (apply Qlt_bool_false; lra).
    assert (Qlt_bool 50 (total P) = false) as -> by (apply Qlt_bool_false; lra).
    split; [done|]. intros (Hr & _). lra.
  - intros Hz.
    assert (fl = false) as ->.
    { destruct fl; [|done]. specialize (Hfl' eq_refl). lra. }
    assert (Qlt_bool 50 (total F) = false) as -> by (apply Qlt_bool_false; lra).
    done.
Qed.

Lemma service_flags_in_assessment_witness :
  ∃ a,
    analyze (DateTime 738946 0)
      {["analysis" := VDict (analysis_of 5 38 "stable" 120 true true true)]}
      {["ndvi_mean" := VNum 0.62]} "corn" None 3 = Ok a ∧
    (heat_stress (risks a) = "High" ↔
       ADV_HEAT ∈ rec_list (recommendations a) ∨
       ADV_COLD ∈ rec_list (recommendations a)) ∧
    (ADV_FLOOD ∈ rec_list (recommendations a) →
       ADV_HEAVY_RAIN ∈ rec_list (recommendations a) ∧ flood (risks a) = "High") ∧
    (ADV_DROUGHT ∈ rec_list (recommendations a) →
       drought (risks a) = "High" ∧ disease (risks a) = "Low" ∧
       ADV_FUNGAL ∉ rec_list (recommendations a)) ∧
    (ADV_NO_RAIN ∈ rec_list (recommendations a) → flood (risks a) = "Low").
Proof.
  apply (service_flags_in_assessment (DateTime 738946 0)
           {["precipitation" := [VNum 2; VNum 3]; "temp_mean" := [VNone; VNum 38; VNone]]}
           {["precipitation" := [VNum 50; VNum 70]]}
           (analysis_of 5 38 "stable" 120 true true true)).
  - rewrite analyze_weather_data_cases. reflexivity.
  - reflexivity.
  - split; solve_numeric_or_absent.
Defined.

(** ** The rainfall trend *)

Lemma trend_of_values P : trend_of P ∈ TRENDS.
Proof.
  unfold trend_of, TRENDS. cbv zeta.
  destruct (14 <=? length P)%nat; [|list_member].
  destruct (Qlt_bool _ _); [list_member|].
  destruct (Qlt_bool _ _); list_member.
Qed.

Lemma trend_of_short P : (length P < 14)%nat → trend_of P = "stable".
Proof.
  intros H. unfold trend_of.
  destruct (Nat.leb_spec 14 (length P)) as [H'|_]; [lia | done].
Qed.

(** Only the last fourteen readings count. *)
Lemma trend_of_window k P :
  length P = (k + 14)%nat → trend_of (drop k P) = trend_of P.
Proof.
  intros H. unfold trend_of. rewrite length_drop, H.
  replace (k + 14 - k)%nat with 14%nat by lia.
  replace (14 <=? k + 14)%nat with true by (symmetry; apply Nat.leb_le; lia).
  cbn [Nat.leb]. rewrite !drop_drop.
  replace (k + (14 - 7))%nat with (k + 14 - 7)%nat by lia.
  replace (k + (14 - 14))%nat with (k + 14 - 14)%nat by lia.
  reflexivity.
Qed.

(** X10: the rainfall trend of a computed analysis is stable, increasing or
    decreasing (never the fallback's unknown); it is stable whenever fewer
    than fourteen precipitation readings are there; and only the last
    fourteen readings count: dropping every older reading leaves the trend
    as it is. *)
Theorem rainfall_trend_window
    (historical forecast : gmap string (list value)) (analysis : gmap string value) :
  _analyze_weather_data historical forecast = Ok analysis →
  ∃ trend,
    analysis !! "rainfall_trend" = Some (VStr trend) ∧
    trend ∈ TRENDS ∧
    ((length (series_of historical "precipitation") < 14)%nat → trend = "stable") ∧
    (∀ older recent,
       historical !! "precipitation" = Some (older ++ recent)%list →
       length recent = 14%nat →
       ∃ analysis',
         _analyze_weather_data (<["precipitation" := recent]> historical) forecast =
           Ok analysis' ∧
         analysis' !! "rainfall_trend" = Some (VStr trend)).
Proof.
  intros Ea.
  destruct (analyze_weather_data_summary _ _ _ Ea) as (P & T & F & HP & HT & HF & ->).
  exists (trend_of P). split; [reflexivity|]. split; [apply trend_of_values|]. split.
  - rewrite <- (numbers_length _ _ HP). apply trend_of_short.
  - intros older recent Eh Hlen.
    unfold series_of in HP, HT, HF. rewrite Eh in HP. cbn [default from_option id] in HP.
    pose proof (numbers_drop (length older) _ _ HP) as HP'.
    rewrite drop_app_length in HP'.
    exists (summary (drop (length older) P) T F). split.
    + rewrite analyze_weather_data_cases. unfold series_of.
      rewrite lookup_insert_eq, lookup_insert_ne by done. cbn [default from_option id].
      by rewrite HP', HT, HF.
    + rewrite <- (trend_of_window (length older) P); [reflexivity|].
      rewrite (numbers_length _ _ HP), length_app. lia.
Qed.

Lemma rainfall_trend_window_witness :
  ∃ trend,
    analysis_of 0 0 "stable" 0 false true false !! "rainfall_trend" = Some (VStr trend) ∧
    trend ∈ TRENDS ∧
    ((length (series_of {["precipitation" := [VNum 0]]} "precipitation") < 14)%nat →
     trend = "stable") ∧
    (∀ older recent,
       ({["precipitation" := [VNum 0]]} : gmap string (list value)) !! "precipitation" =
         Some (older ++ recent)%list →
       length recent = 14%nat →
       ∃ analysis',
         _analyze_weather_data
           (<["precipitation" := recent]> {["precipitation" := [VNum 0]]}) ∅ =
           Ok analysis' ∧
         analysis' !! "rainfall_trend" = Some (VStr trend)).
Proof.
  apply (rainfall_trend_window {["precipitation" := [VNum 0]]} ∅
           (analysis_of 0 0 "stable" 0 false true false)).
  rewrite analyze_weather_data_cases. reflexivity.
Defined.

(** ** The mean temperature *)

Lemma fold_total_bounds lo hi qs acc :
  Forall (λ q, (lo <= q)%Q ∧ (q <= hi)%Q) qs →
  (acc + lo * inject_Z (Z.of_nat (length qs)) <= fold_left Qplus qs acc)%Q ∧
  (fold_left Qplus qs acc <= acc + hi * inject_Z (Z.of_nat (length qs)))%Q.
Proof.
  intros H. revert acc. induction H as [|q qs [Hlo Hhi] _ IH]; intros acc.
  - cbn [fold_left length]. change (inject_Z (Z.of_nat 0)) with 0%Q. split; lra.
  - cbn [fold_left length]. destruct (IH (acc + q)%Q) as [IHlo IHhi].
    rewrite Nat2Z.inj_succ, <- Z.add_1_r, inject_Z_plus.
    change (inject_Z 1) with 1%Q.
    set (n := inject_Z (Z.of_nat (length qs))) in *.
    split.
    + apply Qle_trans with (acc + q + lo * n)%Q; [|exact IHlo].
      ring_simplify. lra.
    + apply Qle_trans with (acc + q + hi * n)%Q; [exact IHhi|].
      ring_simplify. lra.
Qed.

Lemma mean_bounds lo hi qs :
  qs ≠ [] → Forall (λ q, (lo <= q)%Q ∧ (q <= hi)%Q) qs →
  (lo <= mean qs)%Q ∧ (mean qs <= hi)%Q.
Proof.
  intros Hne H. destruct (fold_total_bounds lo hi qs 0 H) as [Hlo Hhi].
  unfold mean. destruct qs as [|q qs']; [done|].
  set (l := q :: qs') in *. unfold total.
  assert (0 < inject_Z (Z.of_nat (length l)))%Q as Hpos.
  { change 0%Q with (inject_Z 0). rewrite <- Zlt_Qlt. unfold l. cbn [length]. lia. }
  split.
  - apply Qle_shift_div_l; [exact Hpos|]. lra.
  - apply Qle_shift_div_r; [exact Hpos|]. lra.
Qed.

Lemma numbers_bounds lo hi l qs :
  numbers l = Some qs →
  (∀ v, v ∈ l → ∃ q, as_num v = Some q ∧ (lo <= q)%Q ∧ (q <= hi)%Q) →
  Forall (λ q, (lo <= q)%Q ∧ (q <= hi)%Q) qs.
Proof.
  unfold numbers. rewrite mapM_Some. intros H. induction H as [|v q l qs Hq _ IH].
  - constructor.
  - intros Hall. constructor.
    + destruct (Hall v (list_elem_of_here _ _)) as (q' & Hq' & Hb).
      rewrite Hq in Hq'. by injection Hq' as <-.
    + apply IH. intros w Hw. apply Hall. by apply list_elem_of_further.
Qed.

(** X11: when every daily mean temperature of the series is null or a
    number between 10 and 35 degrees, and one at least is a number, the
    mean temperature of the computed analysis lies between 10 and 35 too
    and the temperature-stress flag is not set. *)
Theorem mild_temperatures_no_stress
    (historical forecast : gmap string (list value)) (analysis : gmap string value) :
  _analyze_weather_data historical forecast = Ok analysis →
  readings_within 10 35 (series_of historical "temp_mean") →
  (∃ v, v ∈ series_of historical "temp_mean" ∧ v ≠ VNone) →
  ∃ t,
    analysis !! "avg_temperature" = Some (VNum t) ∧ (10 <= t)%Q ∧ (t <= 35)%Q ∧
    analysis !! "temperature_stress" = Some (VBool false).
Proof.
  intros Ea Hin (v & Hv & Hnn).
  destruct (analyze_weather_data_summary _ _ _ Ea) as (P & T & F & _ & HT & _ & ->).
  assert (T ≠ []) as Hne.
  { intros ->. apply numbers_length in HT. symmetry in HT.
    apply length_zero_iff_nil in HT.
    assert (v ∈ List.filter is_not_none (series_of historical "temp_mean")) as Hf
      by by apply filter_not_none_elem.
    rewrite HT in Hf. by apply elem_of_nil in Hf. }
  assert (Forall (λ q, (10 <= q)%Q ∧ (q <= 35)%Q) T) as Hall.
  { apply (numbers_bounds 10 35 _ _ HT). intros w Hw.
    apply filter_not_none_elem in Hw as [Hw Hwn].
    by destruct (Hin w Hw) as [->|H]. }
  destruct (mean_bounds 10 35 T Hne Hall) as [Hlo Hhi].
  exists (mean T). split; [reflexivity|]. split; [exact Hlo|]. split; [exact Hhi|].
  assert (Qlt_bool 35 (mean T) = false) as E1 by (by apply Qlt_bool_false).
  assert (Qlt_bool (mean T) 10 = false) as E2 by (by apply Qlt_bool_false).
  unfold summary. rewrite E1, E2, andb_false_r. reflexivity.
Qed.

Lemma mild_temperatures_no_stress_witness :
  ∃ t,
    analysis_of 0 18 "stable" 0 false false false !! "avg_temperature" =
      Some (VNum t) ∧
    (10 <= t)%Q ∧ (t <= 35)%Q ∧
    analysis_of 0 18 "stable" 0 false false false !! "temperature_stress" =
      Some (VBool false).
Proof.
  apply (mild_temperatures_no_stress {["temp_mean" := [VNone; VNum 18]]} ∅).
  - rewrite analyze_weather_data_cases. reflexivity.
  - intros v Hv. vm_compute in Hv.
    apply elem_of_cons in Hv as [->|Hv]; [by left|].
    apply elem_of_cons in Hv as [->|Hv]; [|by apply elem_of_nil in Hv].
    right. exists 18%Q. split; [reflexivity|]. split; vm_compute; discriminate.
  - exists (VNum 18). split; [|done]. vm_compute. list_member.
Defined.

(** ** What the engine reads of its inputs *)

(** X12: the assessment depends on the weather analysis only through the
    six fields the engine consults, on the satellite summary only through
    the two mean indices, on the crop type only up to letter case, and not
    at all on the area: two calls that agree on these return the same
    result (or raise the same exception). In particular the rainfall trend
    has no influence. *)
Theorem analyze_reads_only
    now weather_data weather_data' weather_analysis weather_analysis'
    satellite_data satellite_data' crop_type crop_type' planting_date area area' :
  weather_data !! "analysis" = Some (VDict weather_analysis) →
  weather_data' !! "analysis" = Some (VDict weather_analysis') →
  (∀ k, k ∈ ANALYSIS_FIELDS → weather_analysis !! k = weather_analysis' !! k) →
  satellite_data !! "ndvi_mean" = satellite_data' !! "ndvi_mean" →
  satellite_data !! "ndmi_mean" = satellite_data' !! "ndmi_mean" →
  lower crop_type = lower crop_type' →
  analyze now weather_data satellite_data crop_type planting_date area =
  analyze now weather_data' satellite_data' crop_type' planting_date area'.
Proof.
  intros Ewd Ewd' Hwa Hndvi Hndmi Hcrop.
  assert (weather_analysis !! "total_rainfall_30d" =
          weather_analysis' !! "total_rainfall_30d") as E1
    by (apply Hwa; unfold ANALYSIS_FIELDS; list_member).
  assert (weather_analysis !! "forecast_rain_7d" =
          weather_analysis' !! "forecast_rain_7d") as E2
    by (apply Hwa; unfold ANALYSIS_FIELDS; list_member).
  assert (weather_analysis !! "avg_temperature" =
          weather_analysis' !! "avg_temperature") as E3
    by (apply Hwa; unfold ANALYSIS_FIELDS; list_member).
  assert (weather_analysis !! "drought_risk" =
          weather_analysis' !! "drought_risk") as E4
    by (apply Hwa; unfold ANALYSIS_FIELDS; list_member).
  assert (weather_analysis !! "flood_risk" =
          weather_analysis' !! "flood_risk") as E5
    by (apply Hwa; unfold ANALYSIS_FIELDS; list_member).
  assert (weather_analysis !! "temperature_stress" =
          weather_analysis' !! "temperature_stress") as E6
    by (apply Hwa; unfold ANALYSIS_FIELDS; list_member).
  unfold analyze, _generate_recommendations, recommendation_list, advisory_rules,
    _assess_risks, _assess_crop_health, dict_get_none, dict_get.
  rewrite Ewd, Ewd', Hndvi, Hndmi, Hcrop. cbn [default from_option id as_dict].
  rewrite !bind_Ok. rewrite E1, E2, E3, E4, E5, E6. reflexivity.
Qed.

Lemma analyze_reads_only_witness :
  analyze (DateTime 738946 0)
    {["analysis" := VDict (analysis_of 45 22 "increasing" 10 false false false)]}
    {["ndvi_mean" := VNum 0.72; "ndmi_mean" := VNum 0.35; "ndvi_max" := VNum 0.9]}
    "Wheat" None 2 =
  analyze (DateTime 738946 0) {["analysis" := VDict wheat_analysis]} wheat_satellite
    "wheat" None 7.
Proof.
  apply (analyze_reads_only (DateTime 738946 0) _ _
           (analysis_of 45 22 "increasing" 10 false false false) wheat_analysis);
    try reflexivity.
  intros k Hk. unfold ANALYSIS_FIELDS in Hk.
  repeat (apply elem_of_cons in Hk as [->|Hk]; [reflexivity|]).
  by apply elem_of_nil in Hk.
Defined.

(** ** The report's readings of the figures *)

Lemma categorize_ndvi_num v q :
  as_num v = Some q →
  _categorize_ndvi v =
    Ok (if Qlt_bool 0.6 q then "Excellent" else if Qlt_bool 0.4 q then "Good"
        else if Qlt_bool 0.3 q then "Moderate" else if Qlt_bool 0.2 q then "Poor"
        else "Very Poor").
Proof.
  intros Hq. unfold _categorize_ndvi. rewrite !(py_gt_num _ _ _ Hq).
  by destruct v; try discriminate Hq; cbn;
    repeat (destruct (Qlt_bool _ q); [reflexivity|]).
Qed.

Lemma interpret_ndvi_num v q :
  as_num v = Some q →
  _interpret_ndvi v =
    Ok (if Qlt_bool 0.6 q then "Excellent vegetation"
        else if Qlt_bool 0.4 q then "Good vegetation"
        else if Qlt_bool 0.3 q then "Moderate vegetation" else "Low vegetation").
Proof.
  intros Hq. unfold _interpret_ndvi. rewrite !(py_gt_num _ _ _ Hq). cbn.
  by repeat (destruct (Qlt_bool _ q); [reflexivity|]).
Qed.

Lemma interpret_ndmi_num v q :
  as_num v = Some q →
  _interpret_ndmi v =
    Ok (if Qlt_bool 0.4 q then "High moisture"
        else if Qlt_bool 0.2 q then "Adequate moisture" else "Low moisture / stress").
Proof.
  intros Hq. unfold _interpret_ndmi. rewrite !(py_gt_num _ _ _ Hq). cbn.
  by repeat (destruct (Qlt_bool _ q); [reflexivity|]).
Qed.

Lemma interpret_rainfall_num v q :
  as_num v = Some q →
  _interpret_rainfall v =
    Ok (if Qlt_bool q 20 then "Very low - drought risk"
        else if Qlt_bool q 50 then "Low - monitor closely"
        else if Qlt_bool q 100 then "Adequate"
        else if Qlt_bool q 150 then "Good" else "High - flood risk possible").
Proof.
  intros Hq. unfold _interpret_rainfall. rewrite !(py_lt_num _ _ _ Hq). cbn.
  by repeat (destruct (Qlt_bool q _); [reflexivity|]).
Qed.

Lemma interpret_temperature_num v q :
  as_num v = Some q →
  _interpret_temperature v =
    Ok (if Qlt_bool q 10 then "Cold - potential stress"
        else if Qlt_bool q 20 then "Cool - good for growth"
        else if Qlt_bool q 30 then "Optimal range"
        else if Qlt_bool q 35 then "Warm - monitor water" else "Hot - heat stress risk").
Proof.
  intros Hq. unfold _interpret_temperature. rewrite !(py_lt_num _ _ _ Hq). cbn.
  by repeat (destruct (Qlt_bool q _); [reflexivity|]).
Qed.

(** Decide a comparison of a number with a cut point, both ways. *)
Lemma Qlt_bool_cases x y :
  (Qlt_bool x y = true ∧ (x < y)%Q) ∨ (Qlt_bool x y = false ∧ (y <= x)%Q).
Proof.
  destruct (Qlt_bool x y) eqn:E.
  - left. split; [done|]. by apply Qlt_bool_iff.
  - right. split; [done|]. by apply Qlt_bool_false.
Qed.

Ltac cut_cases q k :=
  let E := fresh "E" in let H := fresh "H" in
  destruct (Qlt_bool_cases q k) as [[E H]|[E H]]; rewrite ?E.

Ltac cut_cases_l k q :=
  let E := fresh "E" in let H := fresh "H" in
  destruct (Qlt_bool_cases k q) as [[E H]|[E H]]; rewrite ?E.

(** X13: the satellite service's category and the report's interpretation
    of a vegetation index use the same cut points: for a number the
    category is Excellent, Good or Moderate exactly when the interpretation
    is the vegetation of that name, and Poor or Very Poor exactly when it
    is Low vegetation. A null index is categorised Unknown by the service,
    whereas the report's interpretation of it raises [TypeError]. *)
Theorem categorize_agrees_with_interpretation (v : value) :
  (v = VNone →
   _categorize_ndvi v = Ok "Unknown" ∧ _interpret_ndvi v = Raise TypeError) ∧
  (∀ q, as_num v = Some q →
   ∃ category reading,
     _categorize_ndvi v = Ok category ∧ _interpret_ndvi v = Ok reading ∧
     (category = "Excellent" ↔ reading = "Excellent vegetation") ∧
     (category = "Good" ↔ reading = "Good vegetation") ∧
     (category = "Moderate" ↔ reading = "Moderate vegetation") ∧
     (category = "Poor" ∨ category = "Very Poor" ↔ reading = "Low vegetation")).
Proof.
  split; [by intros ->|].
  intros q Hq. eexists _, _.
  split; [by apply categorize_ndvi_num|]. split; [by apply interpret_ndvi_num|].
  destruct (Qlt_bool 0.6 q), (Qlt_bool 0.4 q), (Qlt_bool 0.3 q), (Qlt_bool 0.2 q);
    naive_solver.
Qed.

(** ** The assessment beside the report's readings *)

(** What a well-typed call returns, with the listed advisories as the
    renderer splits them. *)
Lemma analyze_listed now weather_data satellite_data crop_type planting_date area :
  well_typed_weather weather_data → well_typed_satellite satellite_data →
  ∃ wa x tp m r r50 fc t a,
    as_dict (dict_get weather_data "analysis" (VDict ∅)) = Ok wa ∧
    as_num (dict_get satellite_data "ndvi_mean" (VNum 0.5)) = Some x ∧
    selected_profile crop_type tp ∧
    reads_numbers (dict_get satellite_data "ndmi_mean" (VNum 0.3)) wa m r r50 fc t ∧
    analyze now weather_data satellite_data crop_type planting_date area = Ok a ∧
    health_status a = first_cut tp x ∧
    drought (risks a) = drought_level wa m r50 ∧
    flood (risks a) = flood_level wa fc ∧
    disease (risks a) = disease_level r t ∧
    heat_stress (risks a) = heat_level wa ∧
    (∀ adv, adv ≠ ADV_DEFAULT →
       (adv ∈ rec_list (recommendations a) ↔
        adv ∈ fired_advisories wa (growth_stage a) (health_status a) m r fc t)).
Proof.
  intros Hwd Hsd.
  destruct (analyze_reads weather_data satellite_data crop_type Hwd Hsd)
    as (wa & x & tp & m & r & r50 & fc & t & Ewa & Hx & Htp & Hreads).
  exists wa, x, tp, m, r, r50, fc, t. eexists.
  repeat (split; [eassumption|]).
  split; [by apply (analyze_exact _ _ _ _ _ _ _ _ _ _ _ _ _ _ Ewa Hx Htp Hreads)|].
  cbn [risks recommendations health_status growth_stage].
  destruct (assess_overall_categories
              (Risks (drought_level wa m r50) (flood_level wa fc) (disease_level r t)
                 (heat_level wa) "Low")) as (-> & -> & -> & ->).
  repeat (split; [reflexivity|]).
  pose proof (rec_list_join_fired wa (_calculate_growth_stage now planting_date)
                (first_cut tp x) m r fc t) as Hsplit.
  cbv zeta in Hsplit. rewrite Hsplit.
  pose proof (fired_membership_cases wa (_calculate_growth_stage now planting_date)
                (first_cut tp x) m r fc t) as H.
  cbv zeta in H. destruct H as (_ & _ & _ & _ & _ & _ & _ & _ & _ & _ & _ & _ & Hdef).
  intros adv Hadv. by apply (final_list_membership _ adv Hdef).
Qed.

(** The cut points of every profile of the table. *)
Lemma selected_profile_bounds crop_type tp :
  selected_profile crop_type tp →
  (0.65 <= excellent tp)%Q ∧ (0.45 <= good tp)%Q ∧ (good tp <= 0.6)%Q ∧
  (0.3 <= moderate tp)%Q ∧ (moderate tp <= 0.4)%Q ∧ (poor tp <= 0.3)%Q.
Proof.
  assert (∀ k, CROP_NDVI_THRESHOLDS !! k = Some tp →
            (0.65 <= excellent tp)%Q ∧ (0.45 <= good tp)%Q ∧ (good tp <= 0.6)%Q ∧
            (0.3 <= moderate tp)%Q ∧ (moderate tp <= 0.4)%Q ∧ (poor tp <= 0.3)%Q)
    as Htable.
  { intros k Hk. unfold CROP_NDVI_THRESHOLDS in Hk.
    apply elem_of_list_to_map_2 in Hk.
    repeat (apply elem_of_cons in Hk as [Hk|Hk];
            [injection Hk as _ ->; cbn [excellent good moderate poor];
             repeat split; lra|]).
    by apply elem_of_nil in Hk. }
  intros [H|[_ H]]; eauto.
Qed.

Lemma first_cut_Good tp x :
  first_cut tp x = "Good" → (good tp <= x)%Q.
Proof. intros H. apply first_cut_spec in H. tauto. Qed.

Lemma first_cut_Excellent tp x :
  first_cut tp x = "Excellent" ↔ (excellent tp <= x)%Q.
Proof. apply first_cut_spec. Qed.

(** Good or better exactly from the good cut point on. *)
Lemma first_cut_at_least_Good tp x :
  (good tp <= excellent tp)%Q →
  (first_cut tp x = "Good" ∨ first_cut tp x = "Excellent" ↔ (good tp <= x)%Q).
Proof.
  intros Hle. destruct (first_cut_spec tp x) as (He & Hg & _).
  rewrite He, Hg.
  destruct (Qlt_le_dec x (excellent tp)) as [H|H].
  - split; [intros [[_ ?]|?]; [done|lra]|]. intros ?. left. split; [lra|done].
  - split; [intros _; lra|]. intros _. by right.
Qed.

Lemma first_cut_Critical tp x :
  first_cut tp x = "Critical" → (x < poor tp)%Q.
Proof.
  intros H. apply first_cut_spec in H as (_ & _ & _ & H).
  destruct (Qlt_le_dec x (poor tp)); [done|tauto].
Qed.

(** X14: the health status of the assessment and the report's reading of
    the vegetation index sit side by side in the report. When the index is
    present they never contradict each other at the ends of the scale:
    health Excellent comes with Excellent vegetation, health Good with Good
    or Excellent vegetation, Excellent vegetation with health Good or
    Excellent, and health Critical with Low vegetation. When the index is
    absent the two read different defaults: the report reads 0 and says Low
    vegetation, the engine reads 0.5 and says Good or Moderate. *)
Theorem health_status_beside_vegetation_reading
    now weather_data satellite_data crop_type planting_date area :
  well_typed_weather weather_data → well_typed_satellite satellite_data →
  ∃ a reading,
    analyze now weather_data satellite_data crop_type planting_date area = Ok a ∧
    _interpret_ndvi (dict_get satellite_data "ndvi_mean" (VNum 0)) = Ok reading ∧
    (is_Some (satellite_data !! "ndvi_mean") →
       (health_status a = "Excellent" → reading = "Excellent vegetation") ∧
       (health_status a = "Good" →
          reading = "Good vegetation" ∨ reading = "Excellent vegetation") ∧
       (reading = "Excellent vegetation" →
          health_status a = "Good" ∨ health_status a = "Excellent") ∧
       (health_status a = "Critical" → reading = "Low vegetation")) ∧
    (satellite_data !! "ndvi_mean" = None →
       reading = "Low vegetation" ∧
       (health_status a = "Good" ∨ health_status a = "Moderate")).
Proof.
  intros Hwd Hsd.
  destruct (analyze_listed now weather_data satellite_data crop_type planting_date area
              Hwd Hsd)
    as (wa & x & tp & m & r & r50 & fc & t & a & _ & Hx & Htp & _ & Ea & Eh & _).
  destruct (selected_profile_bounds _ _ Htp) as (Be & Bg & Bg' & Bm & Bm' & Bp).
  unfold dict_get in Hx |- *.
  destruct (satellite_data !! "ndvi_mean") as [v|] eqn:Ev; cbn [default from_option id] in *.
  - exists a. eexists. split; [exact Ea|].
    split; [by apply interpret_ndvi_num|].
    split; [|done]. intros _. rewrite Eh.
    assert (good tp <= excellent tp)%Q as Hge by lra.
    pose proof (first_cut_at_least_Good tp x Hge) as Hgood.
    cut_cases_l 0.6%Q x.
    + split; [done|]. split; [by intros _; right|]. split; [|intros Hc].
      * intros _. apply Hgood. lra.
      * apply first_cut_Critical in Hc. lra.
    + split; [intros Hc; apply first_cut_Excellent in Hc; lra|].
      cut_cases_l 0.4%Q x.
      * split; [by intros _; left|]. split; [done|].
        intros Hc. apply first_cut_Critical in Hc. lra.
      * cut_cases_l 0.3%Q x.
        { split; [intros Hc; apply first_cut_Good in Hc; lra|]. split; [done|].
          intros Hc. apply first_cut_Critical in Hc. lra. }
        { split; [intros Hc; apply first_cut_Good in Hc; lra|]. by split. }
  - injection Hx as <-. exists a. eexists. split; [exact Ea|].
    split; [reflexivity|]. split; [by intros [? ?]|]. intros _. split; [done|].
    rewrite Eh.
    destruct (first_cut_spec tp 0.5) as (He & Hg & Hm & _). rewrite Hg, Hm.
    destruct (Qlt_le_dec 0.5 (good tp)) as [H|H].
    + right. repeat split; lra.
    + left. split; lra.
Qed.

Lemma health_status_beside_vegetation_reading_witness :
  ∃ a reading,
    analyze (DateTime 738946 0) ∅ {["ndvi_mean" := VNum 0.7]} "rice" None 1 = Ok a ∧
    _interpret_ndvi (dict_get {["ndvi_mean" := VNum 0.7]} "ndvi_mean" (VNum 0)) =
      Ok reading ∧
    (is_Some (({["ndvi_mean" := VNum 0.7]} : gmap string value) !! "ndvi_mean") →
       (health_status a = "Excellent" → reading = "Excellent vegetation") ∧
       (health_status a = "Good" →
          reading = "Good vegetation" ∨ reading = "Excellent vegetation") ∧
       (reading = "Excellent vegetation" →
          health_status a = "Good" ∨ health_status a = "Excellent") ∧
       (health_status a = "Critical" → reading = "Low vegetation")) ∧
    (({["ndvi_mean" := VNum 0.7]} : gmap string value) !! "ndvi_mean" = None →
       reading = "Low vegetation" ∧
       (health_status a = "Good" ∨ health_status a = "Moderate")).
Proof.
  apply (health_status_beside_vegetation_reading (DateTime 738946 0) ∅
           {["ndvi_mean" := VNum 0.7]} "rice" None 1).
  - intros v Hv. vm_compute in Hv. discriminate Hv.
  - split; solve_numeric_or_absent.
Defined.

(** Close the cases a cut point leaves: equal texts, or bounds that
    contradict each other. *)
Ltac by_cut :=
  repeat split; try done; intros;
  repeat match goal with H : _ ∧ _ |- _ => destruct H end;
  lra.

(** X15: the temperature status of the report and the temperature
    advisories of the assessment. When the mean temperature is present the
    two agree: the heat advisory comes with the status Hot, the cold
    advisory with Cold, the fungal advisory with Optimal range. When it is
    absent they read different defaults: the report reads 0 and says Cold,
    the engine reads 25 and lists neither the cold nor the heat advisory. *)
Theorem temperature_status_beside_advisories
    now weather_data weather_analysis satellite_data crop_type planting_date area :
  weather_data !! "analysis" = Some (VDict weather_analysis) →
  well_typed_analysis weather_analysis → well_typed_satellite satellite_data →
  ∃ a status,
    analyze now weather_data satellite_data crop_type planting_date area = Ok a ∧
    _interpret_temperature (dict_get weather_analysis "avg_temperature" (VNum 0)) =
      Ok status ∧
    (is_Some (weather_analysis !! "avg_temperature") →
       (ADV_HEAT ∈ rec_list (recommendations a) → status = "Hot - heat stress risk") ∧
       (ADV_COLD ∈ rec_list (recommendations a) → status = "Cold - potential stress") ∧
       (ADV_FUNGAL ∈ rec_list (recommendations a) → status = "Optimal range")) ∧
    (weather_analysis !! "avg_temperature" = None →
       status = "Cold - potential stress" ∧
       (ADV_COLD ∉ rec_list (recommendations a)) ∧
       ADV_HEAT ∉ rec_list (recommendations a)).
Proof.
  intros Ewd Hwa Hsd.
  pose proof (well_typed_weather_entry _ _ Ewd Hwa) as Hwd.
  destruct (analyze_listed now weather_data satellite_data crop_type planting_date area
              Hwd Hsd)
    as (wa & x & tp & m & r & r50 & fc & t & a & Ewa & _ & _ & Hreads & Ea & _ & _ & _ &
        _ & _ & Hin).
  unfold dict_get in Ewa. rewrite Ewd in Ewa. injection Ewa as <-.
  pose proof (fired_membership_cases weather_analysis (growth_stage a) (health_status a)
                m r fc t) as H.
  cbv zeta in H.
  destruct H as (_ & _ & _ & _ & _ & _ & Hheat & Hcold & _ & _ & _ & Hfu & _).
  rewrite <- !Hin in Hheat, Hcold, Hfu by (intros E; adv_neq).
  exists a. setoid_rewrite Hheat. setoid_rewrite Hcold. setoid_rewrite Hfu. clear Hheat Hcold Hfu Hin.
  destruct Hreads as (_ & _ & _ & _ & Ht). unfold dict_get in Ht |- *.
  destruct (weather_analysis !! "avg_temperature") as [v|];
    cbn [default from_option id] in *.
  - eexists. split; [exact Ea|]. split; [by apply interpret_temperature_num|].
    split; [|done]. intros _.
    cut_cases t 10%Q; [by_cut|]. cut_cases t 20%Q; [by_cut|].
    cut_cases t 30%Q; [by_cut|]. cut_cases t 35%Q; by_cut.
  - injection Ht as <-. eexists. split; [exact Ea|]. split; [reflexivity|].
    split; [by intros [? ?]|]. intros _. by_cut.
Qed.

Lemma temperature_status_beside_advisories_witness :
  ∃ a status,
    analyze (DateTime 738946 0)
      {["analysis" := VDict {["temperature_stress" := VBool true]}]} ∅ "corn" None 3 =
      Ok a ∧
    _interpret_temperature
      (dict_get {["temperature_stress" := VBool true]} "avg_temperature" (VNum 0)) =
      Ok status ∧
    (is_Some (({["temperature_stress" := VBool true]} : gmap string value)
                !! "avg_temperature") →
       (ADV_HEAT ∈ rec_list (recommendations a) → status = "Hot - heat stress risk") ∧
       (ADV_COLD ∈ rec_list (recommendations a) → status = "Cold - potential stress") ∧
       (ADV_FUNGAL ∈ rec_list (recommendations a) → status = "Optimal range")) ∧
    (({["temperature_stress" := VBool true]} : gmap string value)
       !! "avg_temperature" = None →
       status = "Cold - potential stress" ∧
       (ADV_COLD ∉ rec_list (recommendations a)) ∧
       ADV_HEAT ∉ rec_list (recommendations a)).
Proof.
  apply (temperature_status_beside_advisories (DateTime 738946 0)
           {["analysis" := VDict {["temperature_stress" := VBool true]}]}
           {["temperature_stress" := VBool true]} ∅ "corn" None 3).
  - reflexivity.
  - solve_well_typed_analysis.
  - split; solve_numeric_or_absent.
Defined.

(** X16: the rainfall status of the report and the assessment. The fungal
    advisory and a disease level above Low come only with a status of the
    wet half of the scale (Adequate, Good or High); and when the trailing
    rainfall is present, the status Very low comes with a drought level
    above Low. *)
Theorem rainfall_status_beside_assessment
    now weather_data weather_analysis satellite_data crop_type planting_date area :
  weather_data !! "analysis" = Some (VDict weather_analysis) →
  well_typed_analysis weather_analysis → well_typed_satellite satellite_data →
  ∃ a status,
    analyze now weather_data satellite_data crop_type planting_date area = Ok a ∧
    _interpret_rainfall (dict_get weather_analysis "total_rainfall_30d" (VNum 0)) =
      Ok status ∧
    (ADV_FUNGAL ∈ rec_list (recommendations a) → status ∈ WET_STATUSES) ∧
    (disease (risks a) ≠ "Low" → status ∈ WET_STATUSES) ∧
    (is_Some (weather_analysis !! "total_rainfall_30d") →
     status = "Very low - drought risk" → drought (risks a) ≠ "Low").
Proof.
  intros Ewd Hwa Hsd.
  pose proof (well_typed_weather_entry _ _ Ewd Hwa) as Hwd.
  destruct (analyze_listed now weather_data satellite_data crop_type planting_date area
              Hwd Hsd)
    as (wa & x & tp & m & r & r50 & fc & t & a & Ewa & _ & _ & Hreads & Ea & _ & Hd & _ &
        Hs & _ & Hin).
  unfold dict_get in Ewa. rewrite Ewd in Ewa. injection Ewa as <-.
  pose proof (fired_membership_cases weather_analysis (growth_stage a) (health_status a)
                m r fc t) as H.
  cbv zeta in H.
  destruct H as (_ & _ & _ & _ & _ & _ & _ & _ & _ & _ & _ & Hfu & _).
  rewrite <- !Hin in Hfu by (intros E; adv_neq).
  exists a. setoid_rewrite Hfu. clear Hfu Hin.
  destruct Hreads as (_ & Hr & Hr50 & _ & _).
  eexists. split; [exact Ea|].
  split; [by apply interpret_rainfall_num|].
  rewrite Hd, Hs. unfold disease_level, drought_level, WET_STATUSES.
  split; [|split].
  - intros (Hr80 & _).
    cut_cases r 20%Q; [lra|]. cut_cases r 50%Q; [lra|].
    cut_cases r 100%Q; [list_member|]. cut_cases r 150%Q; list_member.
  - cut_cases r 20%Q.
    { assert (Qlt_bool 80 r = false) as -> by (apply Qlt_bool_false; lra).
      assert (Qlt_bool 50 r = false) as -> by (apply Qlt_bool_false; lra). done. }
    cut_cases r 50%Q.
    { assert (Qlt_bool 80 r = false) as -> by (apply Qlt_bool_false; lra).
      assert (Qlt_bool 50 r = false) as -> by (apply Qlt_bool_false; lra). done. }
    intros _. cut_cases r 100%Q; [list_member|]. cut_cases r 150%Q; list_member.
  - intros [v Ev]. unfold dict_get in Hr, Hr50. rewrite Ev in Hr, Hr50.
    cbn [default from_option id] in Hr, Hr50.
    assert (r50 = r) as -> by congruence.
    cut_cases r 20%Q.
    + intros _. assert (Qlt_bool r 30 = true) as -> by (apply Qlt_bool_iff; lra).
      by destruct (_ || _).
    + cut_cases r 50%Q; [done|]. cut_cases r 100%Q; [done|]. by cut_cases r 150%Q.
Qed.

Lemma rainfall_status_beside_assessment_witness :
  ∃ a status,
    analyze (DateTime 738946 0) {["analysis" := VDict dry_analysis]} dry_satellite "rice"
      None 2 = Ok a ∧
    _interpret_rainfall (dict_get dry_analysis "total_rainfall_30d" (VNum 0)) =
      Ok status ∧
    (ADV_FUNGAL ∈ rec_list (recommendations a) → status ∈ WET_STATUSES) ∧
    (disease (risks a) ≠ "Low" → status ∈ WET_STATUSES) ∧
    (is_Some (dry_analysis !! "total_rainfall_30d") →
     status = "Very low - drought risk" → drought (risks a) ≠ "Low").
Proof.
  apply (rainfall_status_beside_assessment (DateTime 738946 0)
           {["analysis" := VDict dry_analysis]} dry_analysis dry_satellite "rice" None 2).
  - reflexivity.
  - solve_well_typed_analysis.
  - split; solve_numeric_or_absent.
Defined.

(** X17: the moisture reading of the report and the moisture advisories of
    the assessment. When the moisture index is present the low-moisture
    advisory comes with the reading Low moisture, the high-moisture
    advisory with High moisture, and the reading Adequate moisture with
    neither advisory. When the index is absent the report reads 0 and says
    Low moisture, while the engine reads 0.3 and lists neither advisory. *)
Theorem moisture_reading_beside_advisories
    now weather_data satellite_data crop_type planting_date area :
  well_typed_weather weather_data → well_typed_satellite satellite_data →
  ∃ a reading,
    analyze now weather_data satellite_data crop_type planting_date area = Ok a ∧
    _interpret_ndmi (dict_get satellite_data "ndmi_mean" (VNum 0)) = Ok reading ∧
    (is_Some (satellite_data !! "ndmi_mean") →
       (ADV_LOW_MOISTURE ∈ rec_list (recommendations a) →
          reading = "Low moisture / stress") ∧
       (ADV_HIGH_MOISTURE ∈ rec_list (recommendations a) → reading = "High moisture") ∧
       (reading = "Adequate moisture" →
          (ADV_LOW_MOISTURE ∉ rec_list (recommendations a)) ∧
          ADV_HIGH_MOISTURE ∉ rec_list (recommendations a))) ∧
    (satellite_data !! "ndmi_mean" = None →
       reading = "Low moisture / stress" ∧
       (ADV_LOW_MOISTURE ∉ rec_list (recommendations a)) ∧
       ADV_HIGH_MOISTURE ∉ rec_list (recommendations a)).
Proof.
  intros Hwd Hsd.
  destruct (analyze_listed now weather_data satellite_data crop_type planting_date area
              Hwd Hsd)
    as (wa & x & tp & m & r & r50 & fc & t & a & _ & _ & _ & Hreads & Ea & _ & _ & _ &
        _ & _ & Hin).
  pose proof (fired_membership_cases wa (growth_stage a) (health_status a) m r fc t) as H.
  cbv zeta in H.
  destruct H as (_ & _ & Hlo & Hhi & _).
  rewrite <- !Hin in Hlo, Hhi by (intros E; adv_neq).
  exists a. setoid_rewrite Hlo. setoid_rewrite Hhi. clear Hlo Hhi Hin.
  destruct Hreads as (Hm & _). unfold dict_get in Hm |- *.
  destruct (satellite_data !! "ndmi_mean") as [v|];
    cbn [default from_option id] in *.
  - eexists. split; [exact Ea|]. split; [by apply interpret_ndmi_num|].
    split; [|done]. intros _.
    cut_cases_l 0.4%Q m; [by_cut|]. cut_cases_l 0.2%Q m; by_cut.
  - injection Hm as <-. eexists. split; [exact Ea|]. split; [reflexivity|].
    split; [by intros [? ?]|]. intros _. by_cut.
Qed.

Lemma moisture_reading_beside_advisories_witness :
  ∃ a reading,
    analyze (DateTime 738946 0) ∅ {["ndmi_mean" := VNum 0.55]} "corn" None 3 = Ok a ∧
    _interpret_ndmi (dict_get {["ndmi_mean" := VNum 0.55]} "ndmi_mean" (VNum 0)) =
      Ok reading ∧
    (is_Some (({["ndmi_mean" := VNum 0.55]} : gmap string value) !! "ndmi_mean") →
       (ADV_LOW_MOISTURE ∈ rec_list (recommendations a) →
          reading = "Low moisture / stress") ∧
       (ADV_HIGH_MOISTURE ∈ rec_list (recommendations a) → reading = "High moisture") ∧
       (reading = "Adequate moisture" →
          (ADV_LOW_MOISTURE ∉ rec_list (recommendations a)) ∧
          ADV_HIGH_MOISTURE ∉ rec_list (recommendations a))) ∧
    (({["ndmi_mean" := VNum 0.55]} : gmap string value) !! "ndmi_mean" = None →
       reading = "Low moisture / stress" ∧
       (ADV_LOW_MOISTURE ∉ rec_list (recommendations a)) ∧
       ADV_HIGH_MOISTURE ∉ rec_list (recommendations a)).
Proof.
  apply (moisture_reading_beside_advisories (DateTime 738946 0) ∅
           {["ndmi_mean" := VNum 0.55]} "corn" None 3).
  - intros v Hv. vm_compute in Hv. discriminate Hv.
  - split; solve_numeric_or_absent.
Defined.

(** X18: every health status the engine returns has a colour of its own in
    the report's summary: the grey fallback colour is never used for an
    assessment, and two statuses of the scale that are shown in the same
    colour are the same status. *)
Theorem health_status_colour
    now weather_data satellite_data crop_type planting_date area :
  well_typed_weather weather_data → well_typed_satellite satellite_data →
  ∃ a,
    analyze now weather_data satellite_data crop_type planting_date area = Ok a ∧
    color_map !! health_status a = Some (health_color (health_status a)) ∧
    health_color (health_status a) ≠ "#6c757d" ∧
    (∀ h, h ∈ HEALTH_CATEGORIES →
          health_color h = health_color (health_status a) → h = health_status a).
Proof.
  intros Hwd Hsd.
  destruct (analyze_listed now weather_data satellite_data crop_type planting_date area
              Hwd Hsd)
    as (wa & x & tp & m & r & r50 & fc & t & a & _ & _ & _ & _ & Ea & Eh & _).
  exists a. split; [exact Ea|]. rewrite Eh.
  pose proof (first_cut_category tp x) as Hc. unfold HEALTH_CATEGORIES in *.
  repeat (apply elem_of_cons in Hc as [->|Hc];
          [split; [reflexivity|]; split; [done|];
           intros h Hh;
           repeat (apply elem_of_cons in Hh as [->|Hh]; [by vm_compute|]);
           by apply elem_of_nil in Hh|]).
  by apply elem_of_nil in Hc.
Qed.

Lemma health_status_colour_witness :
  ∃ a,
    analyze (DateTime 738946 0) ∅ ∅ "Quinoa" None 1 = Ok a ∧
    color_map !! health_status a = Some (health_color (health_status a)) ∧
    health_color (health_status a) ≠ "#6c757d" ∧
    (∀ h, h ∈ HEALTH_CATEGORIES →
          health_color h = health_color (health_status a) → h = health_status a).
Proof.
  apply (health_status_colour (DateTime 738946 0) ∅ ∅ "Quinoa" None 1).
  - intros v Hv. vm_compute in Hv. discriminate Hv.
  - split; solve_numeric_or_absent.
Defined.

(** ** The polygon of the request *)

Lemma normalize_coordinates_wrapped v :
  single_ring v → normalize_coordinates (JList [v]) = JList [v].
Proof. intros (x & y & point & ring & -> & Hx). by destruct ring. Qed.

Lemma normalize_coordinates_cases v :
  (single_ring v ∧ normalize_coordinates v = JList [v]) ∨
  (¬ single_ring v ∧ normalize_coordinates v = v).
Proof.
  destruct v as [| | | |l|]; try (right; split; [by intros (?&?&?&?&?&?)|done]).
  destruct l as [|first ring]; [right; split; [by intros (?&?&?&?&?&?)|done]|].
  destruct first as [| | | |point|];
    try (right; split; [by intros (?&?&?&?&?&?)|done]).
  destruct point as [|x [|y point]];
    try (right; split; [by intros (?&?&?&?&?&?)|done]).
  destruct (is_number x) eqn:Hx.
  - left. split; [by exists x, y, point, ring|]. cbn. by rewrite Hx.
  - right. split.
    + intros (x' & y' & p' & r' & E & Hx'). injection E as -> _ _ _. congruence.
    + cbn. by rewrite Hx.
Qed.

(** X19: normalising the coordinates of a polygon wraps a single ring (a
    list that starts with a point) into a list of rings and leaves every
    other value as it is; it is idempotent; and a single ring and the same
    ring already wrapped are normalised to the same coordinates, of which
    the satellite service takes that ring as the polygon. *)
Theorem normalize_coordinates_idempotent (v : json) :
  normalize_coordinates (normalize_coordinates v) = normalize_coordinates v ∧
  (¬ single_ring v → normalize_coordinates v = v) ∧
  (single_ring v →
   normalize_coordinates v = normalize_coordinates (JList [v]) ∧
   ∃ coords, normalize_coordinates v = JList coords ∧ first_ring coords = Some v).
Proof.
  destruct (normalize_coordinates_cases v) as [[Hv E]|[Hv E]].
  - rewrite E. split; [by apply normalize_coordinates_wrapped|].
    split; [done|]. intros _.
    split; [by rewrite normalize_coordinates_wrapped|]. by exists [v].
  - rewrite E. split; [exact E|]. by split.
Qed.

(** ** Mock satellite data *)

(** Rounding never crosses an integer. *)
Lemma round_half_even_bounds (x : Q) (lo hi : Z) :
  (inject_Z lo <= x)%Q → (x <= inject_Z hi)%Q →
  (lo <= round_half_even x)%Z ∧ (round_half_even x <= hi)%Z.
Proof.
  intros Hlo Hhi. unfold round_half_even. cbv zeta.
  pose proof (Qfloor_le x) as Hf.
  assert (lo <= Qfloor x)%Z as Hlo'.
  { rewrite <- (Qfloor_Z lo). by apply Qfloor_resp_le. }
  assert (Qfloor x <= hi)%Z as Hhi'.
  { rewrite <- (Qfloor_Z hi). by apply Qfloor_resp_le. }
  destruct (Qlt_bool_cases (x - inject_Z (Qfloor x)) 0.5) as [[-> _]|[-> Hd]];
    [lia|].
  assert (Qfloor x < hi)%Z; [|by repeat case_match; lia].
  destruct (Z.eq_dec (Qfloor x) hi) as [E|]; [|lia].
  exfalso. rewrite E in Hd. lra.
Qed.

Lemma round3_bounds (x : Q) (lo hi : Z) :
  (inject_Z lo <= x * 1000)%Q → (x * 1000 <= inject_Z hi)%Q →
  (inject_Z lo <= round3 x * 1000)%Q ∧ (round3 x * 1000 <= inject_Z hi)%Q.
Proof.
  intros Hlo Hhi. unfold round3. rewrite Qmult_comm, Qmult_div_r by done.
  destruct (round_half_even_bounds (x * 1000) lo hi Hlo Hhi) as [H1 H2].
  by rewrite <- !Zle_Qle.
Qed.

(** The rounded draw of an interval whose ends are thousandths stays in
    the interval. *)
Lemma round3_in_range (x : Q) (lo hi : Z) :
  (inject_Z lo <= x * 1000)%Q → (x * 1000 <= inject_Z hi)%Q →
  ∃ y, round3 x = y ∧ (inject_Z lo <= y * 1000)%Q ∧ (y * 1000 <= inject_Z hi)%Q.
Proof. intros Hlo Hhi. exists (round3 x). split; [done|]. by apply round3_bounds. Qed.

(** X20: mock satellite data, whatever is drawn, is a summary the engine
    accepts, and it raises no alarm of its own: the health status of the
    assessment is Moderate, Good or Excellent, neither moisture advisory is
    listed, and the category the mock data carry is Moderate, Good or
    Excellent as well. *)
Theorem mock_satellite_data_raises_no_alarm
    now now_ms draws weather_data crop_type planting_date area :
  draws_in_range draws → well_typed_weather weather_data →
  ∃ satellite_data a category,
    _get_mock_satellite_data now_ms draws = Ok satellite_data ∧
    well_typed_satellite satellite_data ∧
    analyze now weather_data satellite_data crop_type planting_date area = Ok a ∧
    health_status a ∈ ["Moderate"; "Good"; "Excellent"] ∧
    (ADV_LOW_MOISTURE ∉ rec_list (recommendations a)) ∧
    (ADV_HIGH_MOISTURE ∉ rec_list (recommendations a)) ∧
    satellite_data !! "health_category" = Some (VStr category) ∧
    category ∈ ["Moderate"; "Good"; "Excellent"].
Proof.
  intros (Hv1 & Hv2 & _ & _ & Hm1 & Hm2 & _) Hwd.
  unfold _get_mock_satellite_data. cbv zeta.
  rewrite (categorize_ndvi_num (VNum (draw_ndvi_mean draws)) _ eq_refl), bind_Ok.
  set (category := if Qlt_bool 0.6 (draw_ndvi_mean draws) then "Excellent" else _).
  destruct (round3_in_range (draw_ndvi_mean draws) 400 700) as (x & Ex & Hx1 & Hx2);
    [unfold inject_Z; lra..|].
  destruct (round3_in_range (draw_ndmi_mean draws) 200 500) as (m & Em & Hm1' & Hm2');
    [unfold inject_Z; lra..|].
  unfold inject_Z in Hx1, Hx2, Hm1', Hm2'.
  rewrite Ex, Em. clear Ex Em.
  set (satellite_data := list_to_map _).
  assert (well_typed_satellite satellite_data) as Hsd.
  { split; intros v Hv; vm_compute in Hv; injection Hv as <-; by eexists. }
  destruct (analyze_listed now weather_data satellite_data crop_type planting_date area
              Hwd Hsd)
    as (wa & x' & tp & m' & r & r50 & fc & t & a & _ & Hx & Htp & Hreads & Ea & Eh & _ & _ &
        _ & _ & Hin).
  destruct Hreads as (Hm & _).
  change (Some x = Some x') in Hx. change (Some m = Some m') in Hm.
  injection Hx as <-. injection Hm as <-.
  exists satellite_data, a, category.
  split; [reflexivity|]. split; [exact Hsd|]. split; [exact Ea|].
  pose proof (fired_membership_cases wa (growth_stage a) (health_status a) m r fc t) as H.
  cbv zeta in H. destruct H as (_ & _ & Hlo & Hhi & _).
  rewrite !Hin by (intros E; adv_neq). rewrite Hlo, Hhi.
  destruct (selected_profile_bounds _ _ Htp) as (_ & _ & _ & _ & Bm & _).
  split; [|split; [|split; [|split; [reflexivity|]]]].
  - rewrite Eh. destruct (first_cut_spec tp x) as (_ & _ & _ & Hp & Hc).
    pose proof (first_cut_category tp x) as Hcat. unfold HEALTH_CATEGORIES in Hcat.
    apply elem_of_cons in Hcat as [E|Hcat]; [apply Hc in E; lra|].
    apply elem_of_cons in Hcat as [E|Hcat]; [apply Hp in E; lra|].
    exact Hcat.
  - intros ?. lra.
  - intros ?. lra.
  - unfold category.
    cut_cases_l 0.6%Q (draw_ndvi_mean draws); [list_member|].
    cut_cases_l 0.4%Q (draw_ndvi_mean draws); [list_member|].
    assert (Qlt_bool 0.3 (draw_ndvi_mean draws) = true) as ->
      by (apply Qlt_bool_iff; lra).
    list_member.
Qed.

Lemma mock_satellite_data_raises_no_alarm_witness :
  ∃ satellite_data a category,
    _get_mock_satellite_data 1700000000000 (Draws 0.5504 0.1 0.3126 0.2 0.5 10) =
      Ok satellite_data ∧
    well_typed_satellite satellite_data ∧
    analyze (DateTime 738946 0) {["analysis" := VDict fallback_analysis]} satellite_data
      "rice" None 2 = Ok a ∧
    health_status a ∈ ["Moderate"; "Good"; "Excellent"] ∧
    (ADV_LOW_MOISTURE ∉ rec_list (recommendations a)) ∧
    (ADV_HIGH_MOISTURE ∉ rec_list (recommendations a)) ∧
    satellite_data !! "health_category" = Some (VStr category) ∧
    category ∈ ["Moderate"; "Good"; "Excellent"].
Proof.
  apply (mock_satellite_data_raises_no_alarm (DateTime 738946 0) 1700000000000
           (Draws 0.5504 0.1 0.3126 0.2 0.5 10) {["analysis" := VDict fallback_analysis]}
           "rice" None 2).
  - unfold draws_in_range. cbn. repeat split; vm_compute; discriminate.
  - intros v Hv. vm_compute in Hv. injection Hv as <-.
    exists fallback_analysis. split; [reflexivity | solve_well_typed_analysis].
Defined.
